(** * Drone mission deconfliction: the trajectory model and the conflict detector

    A shallow embedding of [src/models/mission.py] (Waypoint, Mission) and of
    [src/conflict/conflict_detector.py] (Conflict, ConflictDetector), and the
    properties of the specification checked against it.

    Modelling choices, all taken from the source:
    - coordinates, distances and the safety buffer are Python/NumPy floats
      (the dataclass fields are annotated [float]), that is IEEE 754 binary64
      values: Rocq's primitive [float], whose operations are the same
      correctly rounded binary64 operations;
    - [**] on two Python floats calls the C library's [pow], whose accuracy
      the C standard does not fix: the libm is a parameter of the model
      ([Libm]), and the properties hold for every libm unless they state
      what they assume of it; the scenarios are evaluated on a libm whose
      [pow] squares with the correctly rounded product;
    - a [datetime] is an instant counted in microseconds since
      0001-01-01T00:00:00 (datetime.min), a [timedelta] a number of
      microseconds; both are integers in Python, hence [Z] here;
    - an exception is an explicit error result: every function that can raise
      returns a [result], and sequencing stops at the first error as the
      interpreter does;
    - [Optional] fields are [option]s: comparing or subtracting an absent
      timestamp raises TypeError, as [None < None] does;
    - the [description] string of a Conflict is a rendering of its other
      fields ([:.2f] and [strftime]) that cannot fail; it is left out of the
      record. *)

From Stdlib Require Import ZArith List Bool String Lia Floats Permutation Sorted.
From Stdlib Require Import DecimalString.
Import ListNotations.
Open Scope Z_scope.

(** ** Exceptions and results *)

Inductive exn : Type :=
| ValueError
| TypeError
| OverflowError.

Inductive result (A : Type) : Type :=
| Ok (a : A)
| Raise (e : exn).

Arguments Ok {A} a.
Arguments Raise {A} e.

Definition bind {A B : Type} (r : result A) (k : A -> result B) : result B :=
  match r with
  | Ok a => k a
  | Raise e => Raise e
  end.

Notation "x <- r ;; k" := (bind r (fun x => k))
  (at level 61, r at next level, right associativity).

Definition raises {A : Type} (r : result A) : bool :=
  match r with
  | Ok _ => false
  | Raise _ => true
  end.

(** ** Python floats *)

(** The C library's [pow], which CPython calls for [**] on two floats. The
    libm is not part of the repository and the C standard fixes no accuracy
    for [pow] (the one of glibc is not correctly rounded), so it is a
    parameter of the model: the properties below hold for every [libm_pow],
    unless they say what they assume of it. *)
Class Libm : Type := { libm_pow : float -> float -> float }.

(** [f ** 2] on a Python float, that is CPython's [float_pow] with the
    exponent 2.0. A NaN, an infinite or a zero base is answered without
    calling the libm (NaN, +inf and 0.0), a negative base is replaced by its
    opposite (the exponent is an even integer), and the base 1.0 gives 1.0.
    Otherwise [pow] is called on a finite positive base, and an infinite
    result is turned into OverflowError (ERANGE); an underflow to zero is
    silent. The libm is taken to report no error with a finite result. The
    arithmetic on NumPy float64 values ([_find_intersection], [np.sqrt], the
    division of the two lengths) never raises: it returns infinities and
    NaN. *)
Definition pow2 {L : Libm} (iv : float) : result float :=
  if is_nan iv then Ok iv
  else if is_infinity iv then Ok (abs iv)
  else if (iv =? 0)%float then Ok 0%float
  else
    let iv := if (iv <? 0)%float then (- iv)%float else iv in
    if (iv =? 1)%float then Ok 1%float
    else
      let ix := libm_pow iv 2 in
      if is_infinity ix then Raise OverflowError else Ok ix.

(** ** datetime and timedelta *)

Definition datetime := Z.
Definition timedelta := Z.

(** datetime.max, 9999-12-31T23:59:59.999999, in microseconds. *)
Definition datetime_max : datetime := 3652059 * 86400 * 1000000 - 1.

(** The largest magnitude of [timedelta.days]. *)
Definition timedelta_max_days : Z := 999999999.

(** The float of an integer (exact where the integer is representable,
    rounded to nearest even otherwise). *)
Definition float_of_Z (n : Z) : float :=
  SF2Prim (binary_normalize prec emax n 0 false).

(** [a / b] on Python integers with [b > 0]: the correctly rounded quotient. *)
Definition int_truediv (a b : Z) : float :=
  match a with
  | Z0 => 0%float
  | Zpos p => SF2Prim (SF64div (S754_finite false p 0) (S754_finite false (Z.to_pos b) 0))
  | Zneg p => SF2Prim (SF64div (S754_finite true p 0) (S754_finite false (Z.to_pos b) 0))
  end.

(** [timedelta.total_seconds()]. *)
Definition total_seconds (d : timedelta) : float :=
  int_truediv d 1000000.

(** The integral part of a finite float, as C's [modf] gives it (truncated
    toward zero). *)
Definition trunc_float (f : float) : Z :=
  match Prim2SF f with
  | S754_finite s m e =>
      let a := match e with
               | Zneg k => Z.shiftr (Zpos m) (Zpos k)
               | _ => Z.shiftl (Zpos m) e
               end in
      if s then - a else a
  | _ => 0
  end.

(** [timedelta(seconds=f)] for a float [f], in microseconds: the whole
    seconds are converted exactly, the fraction is scaled by 10^6 in float
    arithmetic and rounded to the nearest microsecond, ties to even. NaN
    raises ValueError and an infinity OverflowError (neither converts to
    an integer); so does a number of days beyond 999999999. *)
Definition timedelta_of_seconds (f : float) : result timedelta :=
  if is_nan f then Raise ValueError
  else if is_infinity f then Raise OverflowError
  else
    let intpart := trunc_float f in
    let fracpart := (f - float_of_Z intpart)%float in
    let x := intpart * 1000000 in
    let us :=
      if (fracpart =? 0)%float then x
      else
        let dnum := (1000000 * fracpart)%float in
        let intpart' := trunc_float dnum in
        let leftover := (dnum - float_of_Z intpart')%float in
        let x' := x + intpart' in
        let whole_us :=
          if (abs leftover <? 0.5)%float then 0
          else if (abs leftover =? 0.5)%float && Z.even x' then 0
          else if (leftover <? 0)%float then -1 else 1 in
        x' + whole_us in
    if Z.abs (us / (86400 * 1000000)) <=? timedelta_max_days
    then Ok us else Raise OverflowError.

(** [datetime + timedelta]: OverflowError outside [datetime.min, datetime.max]. *)
Definition datetime_add (t : datetime) (d : timedelta) : result datetime :=
  let r := t + d in
  if (0 <=? r) && (r <=? datetime_max) then Ok r else Raise OverflowError.

(** [a < b] on two optional datetimes: TypeError when one is None. *)
Definition datetime_lt (a b : option datetime) : result bool :=
  match a, b with
  | Some ta, Some tb => Ok (ta <? tb)
  | _, _ => Raise TypeError
  end.

(** [a - b] on two optional datetimes: TypeError when one is None. *)
Definition datetime_sub (a b : option datetime) : result timedelta :=
  match a, b with
  | Some ta, Some tb => Ok (ta - tb)
  | _, _ => Raise TypeError
  end.

(** ** The trajectory model ([models/mission.py]) *)

Record Waypoint : Type := mkWaypoint {
  x : float;
  y : float;
  z : option float;
  timestamp : option datetime
}.

(** [Waypoint.__post_init__]: the validation run by the constructor. *)
Definition Waypoint_post_init (self : Waypoint) : result Waypoint :=
  if (x self <? 0)%float || (y self <? 0)%float
  then Raise ValueError
  else
    match z self with
    | Some alt => if (alt <? 0)%float then Raise ValueError else Ok self
    | None => Ok self
    end.

(** [Waypoint(x, y, z, timestamp)]. *)
Definition new_Waypoint (px py : float) (pz : option float)
    (ts : option datetime) : result Waypoint :=
  Waypoint_post_init (mkWaypoint px py pz ts).

Record Mission : Type := mkMission {
  waypoints : list Waypoint;
  start_time : datetime;
  end_time : datetime;
  drone_id : string
}.

Definition has_timestamp (wp : Waypoint) : bool :=
  match timestamp wp with
  | Some _ => true
  | None => false
  end.

(** The sort key [lambda wp: wp.timestamp]; the sort only runs when every
    waypoint has a timestamp, so the default is never used. *)
Definition sort_key (wp : Waypoint) : datetime :=
  match timestamp wp with
  | Some t => t
  | None => 0
  end.

(** [list.sort(key=...)] is a stable ascending sort. The insertion sort
    below inserts the head of the list into its sorted tail, before the
    elements whose key is greater than or equal to its own, so that waypoints
    with equal timestamps keep their relative order. *)
Fixpoint insert_by_key (wp : Waypoint) (l : list Waypoint) : list Waypoint :=
  match l with
  | [] => [wp]
  | w :: l' =>
      if sort_key wp <=? sort_key w then wp :: w :: l'
      else w :: insert_by_key wp l'
  end.

Fixpoint sort_by_timestamp (l : list Waypoint) : list Waypoint :=
  match l with
  | [] => []
  | w :: l' => insert_by_key w (sort_by_timestamp l')
  end.

(** [start_time <= wp.timestamp <= end_time] for a waypoint that has a
    timestamp; a waypoint without one is not checked. *)
Definition within_window (s e : datetime) (wp : Waypoint) : bool :=
  match timestamp wp with
  | Some t => (s <=? t) && (t <=? e)
  | None => true
  end.

(** [Mission.__post_init__]. *)
Definition Mission_post_init (self : Mission) : result Mission :=
  match waypoints self with
  | [] => Raise ValueError
  | _ :: _ =>
      if end_time self <=? start_time self then Raise ValueError
      else
        let wps :=
          if forallb has_timestamp (waypoints self)
          then sort_by_timestamp (waypoints self)
          else waypoints self in
        if forallb (within_window (start_time self) (end_time self)) wps
        then Ok (mkMission wps (start_time self) (end_time self) (drone_id self))
        else Raise ValueError
  end.

(** [Mission(waypoints, start_time, end_time, drone_id)]. *)
Definition new_Mission (wps : list Waypoint) (s e : datetime) (id : string)
    : result Mission :=
  Mission_post_init (mkMission wps s e id).

(** ** The conflict detector ([conflict/conflict_detector.py]) *)

Record Conflict : Type := mkConflict {
  location : float * float;
  time : datetime;
  primary_drone : string;
  conflicting_drone : string;
  distance : float
}.

Record ConflictDetector : Type := mkConflictDetector {
  safety_buffer : float
}.

(** [_check_temporal_overlap]; [or] evaluates its second operand only when
    the first is false. *)
Definition _check_temporal_overlap (wp1_start wp1_end wp2_start wp2_end : Waypoint)
    : result bool :=
  a <- datetime_lt (timestamp wp1_end) (timestamp wp2_start) ;;
  if a then Ok false
  else
    b <- datetime_lt (timestamp wp2_end) (timestamp wp1_start) ;;
    Ok (negb b).

(** The denominator of the two-line intersection formula. *)
Definition denominator (wp1_start wp1_end wp2_start wp2_end : Waypoint) : float :=
  ((x wp1_start - x wp1_end) * (y wp2_start - y wp2_end)
   - (y wp1_start - y wp1_end) * (x wp2_start - x wp2_end))%float.

(** [_find_intersection]: NumPy float64 arithmetic, which never raises. *)
Definition _find_intersection (wp1_start wp1_end wp2_start wp2_end : Waypoint)
    : option (float * float) :=
  let p1 := (x wp1_start, y wp1_start) in
  let p2 := (x wp1_end, y wp1_end) in
  let p3 := (x wp2_start, y wp2_start) in
  let p4 := (x wp2_end, y wp2_end) in
  let denominator :=
    ((fst p1 - fst p2) * (snd p3 - snd p4)
     - (snd p1 - snd p2) * (fst p3 - fst p4))%float in
  if (denominator =? 0)%float then None
  else
    let t := (((fst p1 - fst p3) * (snd p3 - snd p4)
               - (snd p1 - snd p3) * (fst p3 - fst p4)) / denominator)%float in
    let u := ((- ((fst p1 - fst p2) * (snd p1 - snd p3)
                  - (snd p1 - snd p2) * (fst p1 - fst p3))) / denominator)%float in
    if ((0 <=? t) && (t <=? 1) && ((0 <=? u) && (u <=? 1)))%float
    then Some ((fst p1 + t * (fst p2 - fst p1))%float,
               (snd p1 + t * (snd p2 - snd p1))%float)
    else None.

(** The length of the primary segment as [_calculate_conflict_time] computes it. *)
Definition total_dist {L : Libm} (wp1_start wp1_end : Waypoint) : result float :=
  dx2 <- pow2 (x wp1_end - x wp1_start)%float ;;
  dy2 <- pow2 (y wp1_end - y wp1_start)%float ;;
  Ok (sqrt (dx2 + dy2)%float).

(** [_calculate_conflict_time]. *)
Definition _calculate_conflict_time {L : Libm} (wp1_start wp1_end wp2_start wp2_end : Waypoint)
    (intersection : float * float) : result datetime :=
  total_dist1 <- total_dist wp1_start wp1_end ;;
  ix2 <- pow2 (fst intersection - x wp1_start)%float ;;
  iy2 <- pow2 (snd intersection - y wp1_start)%float ;;
  let dist_to_conflict1 := sqrt (ix2 + iy2)%float in
  let time_ratio1 :=
    if (0 <? total_dist1)%float then (dist_to_conflict1 / total_dist1)%float
    else 0%float in
  d <- datetime_sub (timestamp wp1_end) (timestamp wp1_start) ;;
  let time_diff1 := total_seconds d in
  delta <- timedelta_of_seconds (time_ratio1 * time_diff1)%float ;;
  match timestamp wp1_start with
  | Some t0 => datetime_add t0 delta
  | None => Raise TypeError
  end.

(** [_calculate_distance]; the third argument is not used. *)
Definition _calculate_distance {L : Libm} (wp1 wp2 : Waypoint) (point : float * float)
    : result float :=
  dx2 <- pow2 (x wp1 - x wp2)%float ;;
  dy2 <- pow2 (y wp1 - y wp2)%float ;;
  Ok (sqrt (dx2 + dy2)%float).

(** The body of the two nested loops of [_check_mission_pair] for one pair
    of segments: the conflict it appends, if any. A tuple and a datetime are
    always true, so [if conflict_point:] only tests for None and
    [if conflict_time:] always passes. *)
Definition check_segment_pair {L : Libm} (self : ConflictDetector) (mission1 mission2 : Mission)
    (wp1_start wp1_end wp2_start wp2_end : Waypoint) : result (list Conflict) :=
  overlap <- _check_temporal_overlap wp1_start wp1_end wp2_start wp2_end ;;
  if overlap then
    match _find_intersection wp1_start wp1_end wp2_start wp2_end with
    | Some conflict_point =>
        conflict_time <- _calculate_conflict_time wp1_start wp1_end
                           wp2_start wp2_end conflict_point ;;
        dist <- _calculate_distance wp1_start wp2_start conflict_point ;;
        if (dist <? safety_buffer self)%float
        then Ok [mkConflict conflict_point conflict_time
                   (drone_id mission1) (drone_id mission2) dist]
        else Ok []
    | None => Ok []
    end
  else Ok [].

(** The consecutive pairs [(waypoints[i], waypoints[i + 1])] for [i] in
    [range(len(waypoints) - 1)]. *)
Fixpoint segments (wps : list Waypoint) : list (Waypoint * Waypoint) :=
  match wps with
  | [] => []
  | a :: tl =>
      match tl with
      | [] => []
      | b :: _ => (a, b) :: segments tl
      end
  end.

(** A [for] loop that extends a list of results and stops at the first error. *)
Fixpoint for_each {A B : Type} (f : A -> result (list B)) (l : list A)
    : result (list B) :=
  match l with
  | [] => Ok []
  | a :: l' =>
      r <- f a ;;
      rs <- for_each f l' ;;
      Ok (r ++ rs)
  end.

(** [_check_mission_pair]. *)
Definition _check_mission_pair {L : Libm} (self : ConflictDetector) (mission1 mission2 : Mission)
    : result (list Conflict) :=
  for_each (fun s1 =>
    for_each (fun s2 =>
      check_segment_pair self mission1 mission2 (fst s1) (snd s1) (fst s2) (snd s2))
      (segments (waypoints mission2)))
    (segments (waypoints mission1)).

(** [check_mission]. *)
Definition check_mission {L : Libm} (self : ConflictDetector) (primary_mission : Mission)
    (other_missions : list Mission) : result (string * list Conflict) :=
  conflicts <- for_each (_check_mission_pair self primary_mission) other_missions ;;
  match conflicts with
  | [] => Ok ("clear"%string, [])
  | _ :: _ => Ok ("conflict detected"%string, conflicts)
  end.

(** ** Vocabulary of the properties *)

(** A float that is a zero of either sign, or NaN. *)
Definition zero_or_nan (f : float) : Prop :=
  (exists s, Prim2SF f = S754_zero s) \/ Prim2SF f = S754_nan.

(** The 2D Euclidean distance between two waypoints, in binary64 arithmetic:
    the square root of the sum of the squared coordinate differences. *)
Definition euclidean_distance (a b : Waypoint) : float :=
  sqrt ((x a - x b) * (x a - x b) + (y a - y b) * (y a - y b))%float.

(** The libm's [pow] returns the correctly rounded square of the magnitude
    of [f]; it does wherever that square is a binary64 number. *)
Definition squares_correctly {L : Libm} (f : float) : Prop :=
  libm_pow (abs f) 2 = (f * f)%float.

(** Waypoints in ascending order of timestamp, each with a timestamp. *)
Definition timestamp_le (a b : Waypoint) : Prop :=
  exists ta tb, timestamp a = Some ta /\ timestamp b = Some tb /\ ta <= tb.

Definition key_le (a b : Waypoint) : Prop := sort_key a <= sort_key b.

(** The waypoints a successful construction stores. *)
Definition stored_waypoints (wps : list Waypoint) : list Waypoint :=
  if forallb has_timestamp wps then sort_by_timestamp wps else wps.

(** ** Scenarios *)

(** A libm whose [pow] returns, for the exponent 2.0, the correctly rounded
    square: what an actual [pow] returns wherever the square is itself a
    binary64 number, as are the squares of the scenarios below (those of the
    two extreme scenarios underflow to 0 or overflow). It is the platform on
    which the scenarios are evaluated. *)
Definition rounded_libm : Libm := {| libm_pow := fun a _ => (a * a)%float |}.


(** HH:MM:SS on 2024-04-10, as a datetime. *)
Definition at_time (h m s : Z) : datetime :=
  ((738985 * 24 + h) * 60 + m) * 60000000 + s * 1000000.

Definition day_start : datetime := at_time 0 0 0.
Definition day_end : datetime := at_time 23 59 59.

Definition wp (px py : float) (t : datetime) : Waypoint :=
  mkWaypoint px py None (Some t).

(** The head-on scenario: the two drones fly the same line in opposite
    directions. *)
Definition head_on_primary : Mission :=
  mkMission [wp 0 100 (at_time 10 0 0); wp 200 100 (at_time 10 10 0)]
    day_start day_end "primary".

Definition head_on_other : Mission :=
  mkMission [wp 200 100 (at_time 10 0 0); wp 0 100 (at_time 10 10 0)]
    day_start day_end "other".

(** Two diagonals of a square of side 40, which cross at (20, 20); the start
    waypoints are 40 apart. *)
Definition crossing_primary : Mission :=
  mkMission [wp 0 0 (at_time 10 0 0); wp 40 40 (at_time 10 10 0)]
    day_start day_end "primary".

Definition crossing_other : Mission :=
  mkMission [wp 0 40 (at_time 10 0 0); wp 40 0 (at_time 10 10 0)]
    day_start day_end "other".

Definition detector50 : ConflictDetector := mkConflictDetector 50.

(** The parallel-paths scenario. *)
Definition parallel_primary : Mission :=
  mkMission [wp 0 0 (at_time 10 0 0); wp 200 0 (at_time 10 10 0)]
    day_start day_end "primary".

Definition parallel_other : Mission :=
  mkMission [wp 0 100 (at_time 10 0 0); wp 200 100 (at_time 10 10 0)]
    day_start day_end "other".

(** Two trajectories whose waypoints have no timestamp. *)
Definition untimed_primary : Mission :=
  mkMission [mkWaypoint 0 0 None None; mkWaypoint 10 10 None None]
    day_start day_end "primary".

Definition untimed_other : Mission :=
  mkMission [mkWaypoint 0 10 None None; mkWaypoint 10 0 None None]
    day_start day_end "other".

(** A primary segment 2^600 long, crossed in its middle. *)
Definition huge_primary : Mission :=
  mkMission [wp 0 1 (at_time 10 0 0); wp 0x1p+600 1 (at_time 10 10 0)]
    day_start day_end "primary".

Definition huge_other : Mission :=
  mkMission [wp 0x1p+599 0 (at_time 10 0 0); wp 0x1p+599 2 (at_time 10 10 0)]
    day_start day_end "other".

(** A primary segment 2^-600 long, crossed in its middle. *)
Definition tiny_primary : Mission :=
  mkMission [wp 0 1 (at_time 10 0 0); wp 0x1p-600 1 (at_time 10 10 0)]
    day_start day_end "primary".

Definition tiny_other : Mission :=
  mkMission [wp 0x1p-601 0 (at_time 10 0 0); wp 0x1p-601 2 (at_time 10 10 0)]
    day_start day_end "other".

(** ** Vocabulary of the further properties *)

(** Two waypoints with the same planar position and the same timestamp; their
    altitudes may differ. *)
Definition same_xyt (w w' : Waypoint) : Prop :=
  x w = x w' /\ y w = y w' /\ timestamp w = timestamp w'.

(** Two trajectories of the same drone whose waypoints agree one by one on
    position and timestamp; their altitudes and time windows may differ. *)
Definition same_plan (m m' : Mission) : Prop :=
  drone_id m = drone_id m' /\ Forall2 same_xyt (waypoints m) (waypoints m').

(** The status [check_mission] reports for a list of conflicts. *)
Definition status_of (cs : list Conflict) : string :=
  match cs with
  | [] => "clear"%string
  | _ :: _ => "conflict detected"%string
  end.

(** The number of segment pairs [_check_mission_pair] examines. *)
Definition pair_count (m1 m2 : Mission) : nat :=
  (List.length (waypoints m1) - 1) * (List.length (waypoints m2) - 1).

(** A waypoint whose timestamp is [k]. *)
Definition at_instant (k : datetime) (w : Waypoint) : bool :=
  match timestamp w with
  | Some t => t =? k
  | None => false
  end.

(** [b] is the opposite of [a], or both are zeros. *)
Definition opp_or_zeros (a b : spec_float) : Prop :=
  b = SFopp a \/ ((exists s, a = S754_zero s) /\ (exists s, b = S754_zero s)).

(** The head-on scenario of [visualize_head_on_collision]
    ([test_conflict_visualization.py]): three waypoints each, on the line
    y = 100. *)
Definition head_on3_primary : Mission :=
  mkMission [wp 0 100 (at_time 10 0 0); wp 100 100 (at_time 10 5 0);
             wp 200 100 (at_time 10 10 0)]
    (at_time 10 0 0) (at_time 10 10 0) "primary".

Definition head_on3_other : Mission :=
  mkMission [wp 200 100 (at_time 10 0 0); wp 100 100 (at_time 10 5 0);
             wp 0 100 (at_time 10 10 0)]
    (at_time 10 0 0) (at_time 10 10 0) "traffic1".

(** ** The mission generator ([data/data_loader.py]) *)

(** What a call of the generator ends in: a value, one of the exceptions of
    the trajectory model and of datetime arithmetic, or ZeroDivisionError. *)
Inductive generated (A : Type) : Type :=
| Returns (a : A)
| Fails (e : exn)
| ZeroDivisionError.

Arguments Returns {A} a.
Arguments Fails {A} e.
Arguments ZeroDivisionError {A}.

Definition of_result {A : Type} (r : result A) : generated A :=
  match r with
  | Ok a => Returns a
  | Raise e => Fails e
  end.

Definition gbind {A B : Type} (g : generated A) (k : A -> generated B)
    : generated B :=
  match g with
  | Returns a => k a
  | Fails e => Fails e
  | ZeroDivisionError => ZeroDivisionError
  end.

(** A timedelta must keep its number of days within 999999999. *)
Definition timedelta_check (us : Z) : result timedelta :=
  if Z.abs (us / (86400 * 1000000)) <=? timedelta_max_days
  then Ok us else Raise OverflowError.

(** The quotient of two integers rounded to the nearest integer, ties to
    even, for a divisor that is not 0. *)
Definition divide_nearest (a b : Z) : Z :=
  let q := a / b in
  let r := a mod b in
  if 2 * Z.abs r <? Z.abs b then q
  else if Z.abs b <? 2 * Z.abs r then q + 1
  else if Z.even q then q else q + 1.

(** [timedelta / int]: the quotient rounded to the nearest microsecond, ties
    to even; ZeroDivisionError when the divisor is 0. *)
Definition timedelta_truediv (d : timedelta) (n : Z) : generated timedelta :=
  if n =? 0 then ZeroDivisionError
  else of_result (timedelta_check (divide_nearest d n)).

(** [timedelta * int]. *)
Definition timedelta_mul (d : timedelta) (n : Z) : result timedelta :=
  timedelta_check (d * n).

Section Generator.

(** [random.uniform(a, b)]: [uniform k a b] is what the call returns when [k]
    calls were made before it. *)
Variable uniform : nat -> float -> float -> float.

(** The body of the loop of [_generate_drone_mission] for the indices [is],
    the first of which makes the calls [k], [k + 1] and [k + 2] of
    random.uniform. *)
Fixpoint generate_waypoints (k : nat) (start_time : datetime)
    (time_step : timedelta) (area_size min_altitude max_altitude : float)
    (indices : list nat) : result (list Waypoint) :=
  match indices with
  | [] => Ok []
  | i :: rest =>
      let px := uniform k 0 area_size in
      let py := uniform (k + 1) 0 area_size in
      let pz := uniform (k + 2) min_altitude max_altitude in
      offset <- timedelta_mul time_step (Z.of_nat i) ;;
      ts <- datetime_add start_time offset ;;
      w <- new_Waypoint px py (Some pz) (Some ts) ;;
      ws <- generate_waypoints (k + 3) start_time time_step
              area_size min_altitude max_altitude rest ;;
      Ok (w :: ws)
  end.

(** [DataLoader._generate_drone_mission], after [k] calls of random.uniform. *)
Definition _generate_drone_mission (k : nat) (drone_id : string)
    (start_time : datetime) (duration : timedelta)
    (area_size min_altitude max_altitude : float) (num_waypoints : Z)
    : generated Mission :=
  gbind (of_result (datetime_add start_time duration)) (fun end_time =>
  gbind (timedelta_truediv duration (num_waypoints - 1)) (fun time_step =>
  gbind (of_result (generate_waypoints k start_time time_step area_size
                      min_altitude max_altitude
                      (seq 0 (Z.to_nat num_waypoints)))) (fun wps =>
  of_result (new_Mission wps start_time end_time drone_id)))).

(** The identifier [f"traffic_drone_{i+1}"]. *)
Definition traffic_drone_id (i : nat) : string :=
  ("traffic_drone_" ++ NilZero.string_of_uint (Nat.to_uint (S i)))%string.

(** The loop of [generate_mission_data] over the traffic drones [is]; every
    mission generated before made [3 * num_waypoints] calls of
    random.uniform. *)
Fixpoint generate_traffic (now : datetime) (time_buffer duration : timedelta)
    (area_size min_altitude max_altitude : float) (waypoints_per_drone : Z)
    (indices : list nat) : generated (list Mission) :=
  match indices with
  | [] => Returns []
  | i :: rest =>
      gbind (of_result (timedelta_mul time_buffer (Z.of_nat (S i)))) (fun offset =>
      gbind (of_result (datetime_add now offset)) (fun start_time =>
      gbind (_generate_drone_mission (3 * Z.to_nat waypoints_per_drone * S i)
               (traffic_drone_id i) start_time duration area_size
               min_altitude max_altitude waypoints_per_drone) (fun mission =>
      gbind (generate_traffic now time_buffer duration area_size min_altitude
               max_altitude waypoints_per_drone rest) (fun missions =>
      Returns (mission :: missions)))))
  end.

(** [DataLoader.generate_mission_data]; [now] is what [datetime.now()]
    returns, and the result is the pair of the dictionary's 'primary' and
    'others' entries. *)
Definition generate_mission_data (now : datetime)
    (num_traffic_drones waypoints_per_drone : Z)
    (area_size min_altitude max_altitude : float)
    (mission_duration time_buffer : timedelta)
    : generated (Mission * list Mission) :=
  gbind (_generate_drone_mission 0 "primary_drone" now mission_duration
           area_size min_altitude max_altitude waypoints_per_drone)
    (fun primary_mission =>
  gbind (generate_traffic now time_buffer mission_duration area_size
           min_altitude max_altitude waypoints_per_drone
           (seq 0 (Z.to_nat num_traffic_drones))) (fun other_missions =>
  Returns (primary_mission, other_missions))).

(** [timedelta(hours=h)] and [timedelta(minutes=m)]. *)
Definition hours (h : Z) : timedelta := h * 3600000000.
Definition minutes (m : Z) : timedelta := m * 60000000.

(** [DataLoader.create_sample_data]. *)
Definition create_sample_data (now : datetime)
    : generated (Mission * list Mission) :=
  generate_mission_data now 2 3 300 10 30 (hours 1) (minutes 15).

End Generator.

(** The waypoint number [i] of a generated trajectory whose first call of
    random.uniform is the call [k0]. *)
Definition generated_waypoint (uniform : nat -> float -> float -> float)
    (k0 : nat) (start_time : datetime) (time_step : timedelta)
    (area_size min_altitude max_altitude : float) (i : nat) : Waypoint :=
  mkWaypoint (uniform (k0 + 3 * i)%nat 0%float area_size)
             (uniform (k0 + 3 * i + 1)%nat 0%float area_size)
             (Some (uniform (k0 + 3 * i + 2)%nat min_altitude max_altitude))
             (Some (start_time + time_step * Z.of_nat i)).

(** The random source that always returns the upper bound. *)
Definition highest (k : nat) (a b : float) : float := b.

(** A trajectory of the sample data: three waypoints half an hour apart. *)
Definition sample_mission (uniform : nat -> float -> float -> float)
    (k : nat) (id : string) (start_time : datetime) : Mission :=
  mkMission
    (map (generated_waypoint uniform k start_time (minutes 30) 300 10 30)
         [0; 1; 2]%nat)
    start_time (start_time + hours 1) id.

(** ** Vocabulary of the symmetry and NaN properties *)

(** Two binary64 values that are equal, or are two zeros of any sign. *)
Definition sim (a b : spec_float) : Prop :=
  a = b \/ ((exists s, a = S754_zero s) /\ (exists s, b = S754_zero s)).

(** The same relation on floats. *)
Definition simf (a b : float) : Prop := sim (Prim2SF a) (Prim2SF b).

(** Whether [_find_intersection] returns a point. *)
Definition intersects (A0 A1 B0 B1 : Waypoint) : bool :=
  match _find_intersection A0 A1 B0 B1 with
  | Some _ => true
  | None => false
  end.

(** The number of conflicts of a run that returns, 0 for a run that raises. *)
Definition count_of {B : Type} (r : result (list B)) : nat :=
  match r with
  | Ok l => List.length l
  | Raise _ => 0%nat
  end.

(** A waypoint whose [x] or [y] is NaN. *)
Definition has_nan (w : Waypoint) : bool := is_nan (x w) || is_nan (y w).

(** The crossing scenario with a NaN [x] in the first primary waypoint. *)
Definition nan_primary : Mission :=
  mkMission [wp nan 0 (at_time 10 0 0); wp 40 40 (at_time 10 10 0)]
    day_start day_end "primary".

(** ** The models of datetime arithmetic and of list.sort, checked on values *)

Lemma total_seconds_values :
  total_seconds 600000000 = 600%float /\
  total_seconds 1500000 = 1.5%float /\
  total_seconds (-250000) = (-0.25)%float /\
  total_seconds 0 = 0%float /\
  total_seconds 9007199254740993000000 = 9007199254740992%float.
Proof.
  repeat split; vm_compute; reflexivity.
Qed.

Lemma timedelta_of_seconds_values :
  timedelta_of_seconds 300%float = Ok 300000000 /\
  timedelta_of_seconds 300.5%float = Ok 300500000 /\
  timedelta_of_seconds (-0.75)%float = Ok (-750000) /\
  timedelta_of_seconds 0x1p-21%float = Ok 0 /\
  timedelta_of_seconds 0x1.8p-20%float = Ok 1 /\
  timedelta_of_seconds nan = Raise ValueError /\
  timedelta_of_seconds infinity = Raise OverflowError /\
  timedelta_of_seconds 0x1p+47%float = Raise OverflowError.
Proof.
  repeat split; vm_compute; reflexivity.
Qed.

(** The sort is stable: the waypoints that share a timestamp key come out in
    the order they came in. *)
Lemma insert_by_key_stable (k : datetime) (w : Waypoint) (l : list Waypoint) :
  filter (fun a => sort_key a =? k) (insert_by_key w l)
  = filter (fun a => sort_key a =? k) (w :: l).
Proof.
  induction l as [|a l IH]; [reflexivity|].
  cbn [insert_by_key]. destruct (sort_key w <=? sort_key a) eqn:E; [reflexivity|].
  apply Z.leb_gt in E. cbn [filter] in *. rewrite IH.
  destruct (sort_key a =? k) eqn:Ea; destruct (sort_key w =? k) eqn:Ew;
    try reflexivity.
  apply Z.eqb_eq in Ea, Ew. lia.
Qed.

Lemma sort_by_timestamp_stable (k : datetime) (l : list Waypoint) :
  filter (fun a => sort_key a =? k) (sort_by_timestamp l)
  = filter (fun a => sort_key a =? k) l.
Proof.
  induction l as [|a l IH]; [reflexivity|].
  cbn [sort_by_timestamp]. rewrite insert_by_key_stable.
  cbn [filter]. rewrite IH. reflexivity.
Qed.

(** ** Facts about binary64 comparisons and arithmetic *)

Lemma sub_diag_zero_or_nan (a : float) : zero_or_nan (a - a)%float.
Proof.
  unfold zero_or_nan. rewrite sub_spec. unfold SF64sub.
  destruct (Prim2SF a) as [s|s| |s m e]; simpl.
  - left. destruct s; eexists; reflexivity.
  - right. destruct s; reflexivity.
  - right. reflexivity.
  - left. rewrite Z.sub_diag. simpl. eexists; reflexivity.
Qed.

Lemma mul_zero_or_nan_l (a d : float) : zero_or_nan a -> zero_or_nan (a * d)%float.
Proof.
  unfold zero_or_nan. rewrite mul_spec. unfold SF64mul.
  intros [[s H]|H]; rewrite H.
  - destruct (Prim2SF d) as [s'|s'| |s' m e]; simpl; eauto.
  - simpl. auto.
Qed.

Lemma mul_zero_or_nan_r (d a : float) : zero_or_nan a -> zero_or_nan (d * a)%float.
Proof.
  unfold zero_or_nan. rewrite mul_spec. unfold SF64mul.
  intros [[s H]|H]; rewrite H.
  - destruct (Prim2SF d) as [s'|s'| |s' m e]; simpl; eauto.
  - destruct (Prim2SF d) as [s'|s'| |s' m e]; simpl; auto.
Qed.

Lemma sub_zero_or_nan (a b : float) :
  zero_or_nan a -> zero_or_nan b -> zero_or_nan (a - b)%float.
Proof.
  unfold zero_or_nan. rewrite sub_spec. unfold SF64sub.
  intros [[s H]|H] [[s' H']|H']; rewrite H, H'; simpl; auto.
  left. destruct s, s'; eexists; reflexivity.
Qed.

Lemma eqb_zero (f : float) s : Prim2SF f = S754_zero s -> (f =? 0)%float = true.
Proof.
  intros H. rewrite eqb_spec, H. reflexivity.
Qed.

Lemma eqb_nan_l (f g : float) : Prim2SF f = S754_nan -> (f =? g)%float = false.
Proof.
  intros H. rewrite eqb_spec, H. reflexivity.
Qed.

Lemma leb_nan_r (f g : float) : Prim2SF g = S754_nan -> (f <=? g)%float = false.
Proof.
  intros H. rewrite leb_spec, H. unfold SFleb.
  destruct (Prim2SF f); reflexivity.
Qed.

Lemma div_nan_r (f g : float) : Prim2SF g = S754_nan -> Prim2SF (f / g) = S754_nan.
Proof.
  intros H. rewrite div_spec, H. unfold SF64div.
  destruct (Prim2SF f); reflexivity.
Qed.

Lemma eqb_ltb_false (a b : float) : (a =? b)%float = true -> (a <? b)%float = false.
Proof.
  rewrite eqb_spec, ltb_spec. unfold SFeqb, SFltb.
  destruct (SFcompare (Prim2SF a) (Prim2SF b)) as [[]|]; congruence.
Qed.

Lemma ltb_irrefl (a : float) : (a <? a)%float = false.
Proof.
  rewrite ltb_spec. unfold SFltb.
  destruct (Prim2SF a) as [s|s| |s m e]; simpl; try reflexivity.
  - destruct s; reflexivity.
  - destruct s; rewrite Z.compare_refl, Pos.compare_cont_refl; reflexivity.
Qed.

Lemma leb_zero_ltb_false (a : float) : (0 <=? a)%float = true -> (a <? 0)%float = false.
Proof.
  rewrite leb_spec, ltb_spec. unfold SFleb, SFltb.
  change (Prim2SF 0) with (S754_zero false).
  destruct (Prim2SF a) as [s|s| |s m e]; simpl; try reflexivity.
  - destruct s; [discriminate | reflexivity].
  - destruct s; [discriminate | reflexivity].
Qed.

(** ** Facts about results and loops *)

Lemma neg_if_negative (f : float) :
  (f =? 0)%float = false -> (if (f <? 0)%float then (- f)%float else f) = abs f.
Proof.
  rewrite eqb_spec, ltb_spec. change (Prim2SF 0) with (S754_zero false).
  intros Hz. apply Prim2SF_inj.
  destruct (SFltb (Prim2SF f) (S754_zero false)) eqn:Hlt;
    rewrite abs_spec, ?opp_spec;
    destruct (Prim2SF f) as [s|s| |s m e]; try discriminate; try reflexivity;
    destruct s; try discriminate; reflexivity.
Qed.

(** [**] on a base that is finite, not zero and not of magnitude 1: the
    libm's [pow] is called on the magnitude of the base. *)
Lemma pow2_libm {L : Libm} (f : float) :
  is_nan f = false -> is_infinity f = false ->
  (f =? 0)%float = false -> (abs f =? 1)%float = false ->
  pow2 f = if is_infinity (libm_pow (abs f) 2) then Raise OverflowError
           else Ok (libm_pow (abs f) 2).
Proof.
  intros Hn Hi Hz H1. unfold pow2. rewrite Hn, Hi, Hz. cbv zeta.
  rewrite (neg_if_negative f Hz), H1. reflexivity.
Qed.

Lemma bind_Ok {A B : Type} (r : result A) (k : A -> result B) (b : B) :
  bind r k = Ok b -> exists a, r = Ok a /\ k a = Ok b.
Proof.
  destruct r as [a|e]; simpl; intros H; [eauto | discriminate].
Qed.

Lemma bind_not_raise {A B : Type} (r : result A) (k : A -> result B) (e : exn) :
  r <> Raise e -> (forall a, k a <> Raise e) -> bind r k <> Raise e.
Proof.
  destruct r as [a|e']; simpl; intros Hr Hk; [apply Hk | congruence].
Qed.

Lemma for_each_all_nil {A B : Type} (f : A -> result (list B)) (l : list A) :
  (forall a, In a l -> f a = Ok []) -> for_each f l = Ok [].
Proof.
  induction l as [|a l IH]; intros H; simpl; [reflexivity|].
  rewrite (H a (or_introl eq_refl)). simpl.
  rewrite IH; [reflexivity|]. intros b Hb. apply H. right. exact Hb.
Qed.

Lemma for_each_In {A B : Type} (f : A -> result (list B)) (l : list A)
    (rs : list B) (c : B) :
  for_each f l = Ok rs -> In c rs ->
  exists a r, In a l /\ f a = Ok r /\ In c r.
Proof.
  revert rs. induction l as [|a l IH]; simpl; intros rs H Hc.
  - injection H as <-. destruct Hc.
  - apply bind_Ok in H as (r & Hr & H).
    apply bind_Ok in H as (rs' & Hrs & H). injection H as <-.
    apply in_app_or in Hc as [Hc|Hc].
    + exists a, r. auto.
    + destruct (IH rs' Hrs Hc) as (a' & r' & Ha & Hf & Hin).
      exists a', r'. auto.
Qed.

Lemma for_each_not_raise {A B : Type} (f : A -> result (list B)) (l : list A)
    (e : exn) :
  (forall a, In a l -> f a <> Raise e) -> for_each f l <> Raise e.
Proof.
  induction l as [|a l IH]; intros H; simpl; [discriminate|].
  apply bind_not_raise; [apply H; left; reflexivity|].
  intros r. apply bind_not_raise; [|discriminate].
  apply IH. intros b Hb. apply H. right. exact Hb.
Qed.

Lemma for_each_each_Ok {A B : Type} (f : A -> result (list B)) (l : list A)
    (rs : list B) (a : A) :
  for_each f l = Ok rs -> In a l -> exists r, f a = Ok r.
Proof.
  revert rs. induction l as [|a' l IH]; simpl; intros rs H Ha; [destruct Ha|].
  apply bind_Ok in H as (r & Hr & H).
  apply bind_Ok in H as (rs' & Hrs & H).
  destruct Ha as [<-|Ha]; [exists r; exact Hr|].
  exact (IH _ Hrs Ha).
Qed.

Lemma bind_Raise {A B : Type} (r : result A) (k : A -> result B) (e : exn) :
  bind r k = Raise e ->
  r = Raise e \/ exists a, r = Ok a /\ k a = Raise e.
Proof.
  destruct r as [a|e']; simpl; intros H.
  - right. exists a. auto.
  - left. injection H as ->. reflexivity.
Qed.

Lemma for_each_Raise {A B : Type} (f : A -> result (list B)) (l : list A)
    (e : exn) :
  for_each f l = Raise e -> exists a, In a l /\ f a = Raise e.
Proof.
  induction l as [|a l IH]; simpl; [discriminate|]. intros H.
  apply bind_Raise in H as [H|(r & _ & H)].
  - exists a. auto.
  - apply bind_Raise in H as [H|(rs & _ & H)]; [|discriminate].
    destruct (IH H) as (b & Hb & Hf). exists b. auto.
Qed.

Lemma segments_In (wps : list Waypoint) (a b : Waypoint) :
  In (a, b) (segments wps) -> In a wps /\ In b wps.
Proof.
  induction wps as [|w tl IH]; simpl; [tauto|].
  destruct tl as [|w' tl']; [simpl; tauto|].
  intros [H|H].
  - injection H as <- <-. simpl. auto.
  - destruct (IH H) as [Ha Hb]. split; right; assumption.
Qed.

(** [segments] is the list of the pairs [(waypoints[i], waypoints[i + 1])]. *)
Lemma segments_nth (wps : list Waypoint) (i : nat) (a b : Waypoint) :
  nth_error (segments wps) i = Some (a, b) <->
  nth_error wps i = Some a /\ nth_error wps (S i) = Some b.
Proof.
  revert i. induction wps as [|w tl IH]; intros i.
  - simpl. destruct i; simpl; split; [discriminate| |discriminate|]; intros [H _]; discriminate.
  - destruct tl as [|w' tl'].
    + simpl. destruct i; simpl; split; try discriminate.
      * intros [_ H]. discriminate.
      * intros [_ H]. destruct i; discriminate.
    + change (segments (w :: w' :: tl')) with ((w, w') :: segments (w' :: tl')).
      destruct i as [|i].
      * simpl. split.
        -- intros H. injection H as <- <-. auto.
        -- intros [H1 H2]. congruence.
      * change (nth_error ((w, w') :: segments (w' :: tl')) (S i))
          with (nth_error (segments (w' :: tl')) i).
        rewrite IH. reflexivity.
Qed.

Lemma segments_length (wps : list Waypoint) :
  List.length (segments wps) = (List.length wps - 1)%nat.
Proof.
  induction wps as [|w tl IH]; [reflexivity|].
  destruct tl as [|w' tl']; [reflexivity|].
  change (segments (w :: w' :: tl')) with ((w, w') :: segments (w' :: tl')).
  simpl List.length in *. rewrite IH. lia.
Qed.

Lemma find_intersection_denominator (A0 A1 B0 B1 : Waypoint) :
  (denominator A0 A1 B0 B1 =? 0)%float = true ->
  _find_intersection A0 A1 B0 B1 = None.
Proof.
  unfold _find_intersection, denominator. cbn [fst snd].
  intros ->. reflexivity.
Qed.

(** ** The head-on scenario *)

(** C1, amended: in the head-on scenario both trajectories are well formed,
    the two segments lie on the same line, so the denominator compares equal
    to 0 and no intersection is reported; the start waypoints are 200 apart;
    and [check_mission] returns "clear" with no conflict, whatever the safety
    buffer. *)
Theorem head_on_is_clear {L : Libm} :
  new_Mission (waypoints head_on_primary) day_start day_end "primary"
    = Ok head_on_primary /\
  new_Mission (waypoints head_on_other) day_start day_end "other"
    = Ok head_on_other /\
  (denominator (wp 0 100 (at_time 10 0 0)) (wp 200 100 (at_time 10 10 0))
     (wp 200 100 (at_time 10 0 0)) (wp 0 100 (at_time 10 10 0)) =? 0)%float = true /\
  _find_intersection (wp 0 100 (at_time 10 0 0)) (wp 200 100 (at_time 10 10 0))
     (wp 200 100 (at_time 10 0 0)) (wp 0 100 (at_time 10 10 0)) = None /\
  euclidean_distance (wp 0 100 (at_time 10 0 0)) (wp 200 100 (at_time 10 0 0))
    = 200%float /\
  (libm_pow 200 2 = 40000%float ->
   _calculate_distance (wp 0 100 (at_time 10 0 0)) (wp 200 100 (at_time 10 0 0))
     (100%float, 100%float) = Ok 200%float) /\
  forall buffer : float,
    check_mission (mkConflictDetector buffer) head_on_primary [head_on_other]
      = Ok ("clear"%string, []).
Proof.
  split; [vm_compute; reflexivity|].
  split; [vm_compute; reflexivity|].
  split; [vm_compute; reflexivity|].
  split; [vm_compute; reflexivity|].
  split; [vm_compute; reflexivity|].
  split.
  - intros H. unfold _calculate_distance. cbn [x y wp].
    replace (0 - 200)%float with (-200)%float by (vm_compute; reflexivity).
    replace (100 - 100)%float with 0%float by (vm_compute; reflexivity).
    rewrite (pow2_libm (-200)) by reflexivity.
    replace (abs (-200)) with 200%float by (vm_compute; reflexivity).
    rewrite H. vm_compute. reflexivity.
  - intros buffer. vm_compute. reflexivity.
Qed.

(** C1 fails on the code: with safety buffer 50.0 the head-on scenario yields
    no conflict at all, so the result is not a single conflict. *)
Lemma head_on_no_single_conflict :
  ~ (exists (L : Libm) (status : string) (c : Conflict),
       check_mission detector50 head_on_primary [head_on_other] = Ok (status, [c])).
Proof.
  intros (L & status & c & H). vm_compute in H. discriminate H.
Qed.

(** ** The temporal overlap test *)

(** The temporal test on four timestamps that are present. *)
Lemma check_temporal_overlap_Some (A0 A1 B0 B1 : Waypoint) (a0 a1 b0 b1 : datetime) :
  timestamp A0 = Some a0 -> timestamp A1 = Some a1 ->
  timestamp B0 = Some b0 -> timestamp B1 = Some b1 ->
  _check_temporal_overlap A0 A1 B0 B1 = Ok (negb ((a1 <? b0) || (b1 <? a0))).
Proof.
  intros H0 H1 H2 H3. unfold _check_temporal_overlap.
  rewrite H0, H1, H2, H3. simpl. destruct (a1 <? b0); reflexivity.
Qed.

Lemma disjoint_spec (a0 a1 b0 b1 : datetime) :
  (a1 <? b0) || (b1 <? a0) = true <-> (a1 < b0 \/ b1 < a0).
Proof. rewrite orb_true_iff, !Z.ltb_lt. reflexivity. Qed.

(** A segment from (1, 1) to (2, 1) and a segment from (1, 2) to (1, 0),
    which crosses the first one at its start: when the two overlap in time
    the pair is not dropped, whatever the timestamps are and whatever the
    libm computes (the squares that are taken are those of 0 and of 1). *)
Lemma crossing_at_start_not_rejected {L : Libm} (m1 m2 : Mission)
    (a0 a1 b0 b1 : datetime) :
  ~ (a1 < b0 \/ b1 < a0) ->
  check_segment_pair detector50 m1 m2
    (mkWaypoint 1 1 None (Some a0)) (mkWaypoint 2 1 None (Some a1))
    (mkWaypoint 1 2 None (Some b0)) (mkWaypoint 1 0 None (Some b1)) <> Ok [].
Proof.
  intros Hn. unfold check_segment_pair.
  rewrite (check_temporal_overlap_Some
             (mkWaypoint 1 1 None (Some a0)) (mkWaypoint 2 1 None (Some a1))
             (mkWaypoint 1 2 None (Some b0)) (mkWaypoint 1 0 None (Some b1))
             a0 a1 b0 b1 eq_refl eq_refl eq_refl eq_refl).
  destruct ((a1 <? b0) || (b1 <? a0)) eqn:E;
    [exfalso; apply Hn, disjoint_spec, E|].
  cbn [negb bind].
  replace (_find_intersection (mkWaypoint 1 1 None (Some a0))
             (mkWaypoint 2 1 None (Some a1)) (mkWaypoint 1 2 None (Some b0))
             (mkWaypoint 1 0 None (Some b1)))
    with (Some (1%float, 1%float)) by (vm_compute; reflexivity).
  destruct (_calculate_conflict_time _ _ _ _ _) as [t|e]; [|discriminate].
  cbn [bind].
  replace (_calculate_distance (mkWaypoint 1 1 None (Some a0))
             (mkWaypoint 1 2 None (Some b0)) (1%float, 1%float))
    with (Ok 1%float) by (vm_compute; reflexivity).
  cbn [bind]. replace (1 <? safety_buffer detector50)%float with true
    by (vm_compute; reflexivity).
  discriminate.
Qed.

(** C3: the first comparison alone rejects a pair: when [A1] and [B0] carry
    the timestamps [a1 < b0], the pair contributes no conflict, whatever the
    other two timestamps (even absent), the coordinates and the safety
    buffer. For a pair of segments whose four waypoints carry the timestamps
    [a0], [a1] (primary) and [b0], [b1] (other): the overlap test fails
    exactly when [a1 < b0] or [b1 < a0]; a pair that fails it contributes no
    conflict; a pair that passes it goes through the geometric tests, which
    alone decide its result, and yields the conflict record when they find
    an intersection point, a conflict time and a distance below the buffer;
    the segment pairs with these four timestamps yield nothing whatever
    their coordinates, the trajectories and the buffer exactly when
    [a1 < b0] or [b1 < a0]; and two intervals that share an instant, in
    particular intervals that touch at one end, pass the test. *)
Theorem temporal_overlap_rejects_exactly {L : Libm}
    (self : ConflictDetector) (m1 m2 : Mission) (A0 A1 B0 B1 : Waypoint) :
  (forall a1 b0 : datetime,
      timestamp A1 = Some a1 -> timestamp B0 = Some b0 -> a1 < b0 ->
      _check_temporal_overlap A0 A1 B0 B1 = Ok false /\
      check_segment_pair self m1 m2 A0 A1 B0 B1 = Ok []) /\
  (forall a0 a1 b0 b1 : datetime,
      timestamp A0 = Some a0 -> timestamp A1 = Some a1 ->
      timestamp B0 = Some b0 -> timestamp B1 = Some b1 ->
      (_check_temporal_overlap A0 A1 B0 B1 = Ok false <-> (a1 < b0 \/ b1 < a0)) /\
      (_check_temporal_overlap A0 A1 B0 B1 = Ok true <-> ~ (a1 < b0 \/ b1 < a0)) /\
      (a1 < b0 \/ b1 < a0 -> check_segment_pair self m1 m2 A0 A1 B0 B1 = Ok []) /\
      (~ (a1 < b0 \/ b1 < a0) ->
         check_segment_pair self m1 m2 A0 A1 B0 B1
         = match _find_intersection A0 A1 B0 B1 with
           | Some p =>
               t <- _calculate_conflict_time A0 A1 B0 B1 p ;;
               d <- _calculate_distance A0 B0 p ;;
               if (d <? safety_buffer self)%float
               then Ok [mkConflict p t (drone_id m1) (drone_id m2) d]
               else Ok []
           | None => Ok []
           end) /\
      (~ (a1 < b0 \/ b1 < a0) ->
         forall (p : float * float) (t : datetime) (d : float),
           _find_intersection A0 A1 B0 B1 = Some p ->
           _calculate_conflict_time A0 A1 B0 B1 p = Ok t ->
           _calculate_distance A0 B0 p = Ok d ->
           (d <? safety_buffer self)%float = true ->
           check_segment_pair self m1 m2 A0 A1 B0 B1
           = Ok [mkConflict p t (drone_id m1) (drone_id m2) d]) /\
      ((forall (self' : ConflictDetector) (m1' m2' : Mission)
               (A0' A1' B0' B1' : Waypoint),
           timestamp A0' = Some a0 -> timestamp A1' = Some a1 ->
           timestamp B0' = Some b0 -> timestamp B1' = Some b1 ->
           check_segment_pair self' m1' m2' A0' A1' B0' B1' = Ok [])
       <-> (a1 < b0 \/ b1 < a0)) /\
      ((exists t, (a0 <= t <= a1) /\ (b0 <= t <= b1)) ->
         _check_temporal_overlap A0 A1 B0 B1 = Ok true) /\
      (a0 <= a1 -> b0 <= b1 -> a1 = b0 \/ b1 = a0 ->
         _check_temporal_overlap A0 A1 B0 B1 = Ok true)).
Proof.
  split.
  { intros a1 b0 H1 H2 Hlt.
    assert (E : _check_temporal_overlap A0 A1 B0 B1 = Ok false).
    { unfold _check_temporal_overlap. rewrite H1, H2. simpl.
      apply Z.ltb_lt in Hlt. rewrite Hlt. reflexivity. }
    split; [exact E|]. unfold check_segment_pair. rewrite E. reflexivity. }
  intros a0 a1 b0 b1 H0 H1 H2 H3.
  pose proof (check_temporal_overlap_Some _ _ _ _ _ _ _ _ H0 H1 H2 H3) as E.
  pose proof (disjoint_spec a0 a1 b0 b1) as R.
  assert (P : ~ (a1 < b0 \/ b1 < a0) ->
              check_segment_pair self m1 m2 A0 A1 B0 B1
              = match _find_intersection A0 A1 B0 B1 with
                | Some p =>
                    t <- _calculate_conflict_time A0 A1 B0 B1 p ;;
                    d <- _calculate_distance A0 B0 p ;;
                    if (d <? safety_buffer self)%float
                    then Ok [mkConflict p t (drone_id m1) (drone_id m2) d]
                    else Ok []
                | None => Ok []
                end).
  { intros Hn. unfold check_segment_pair. rewrite E.
    destruct ((a1 <? b0) || (b1 <? a0)); [exfalso; apply Hn, R; reflexivity|].
    reflexivity. }
  split; [|split; [|split; [|split; [|split; [|split; [|split]]]]]].
  - rewrite E. split.
    + intros H. injection H as H. apply negb_false_iff in H. apply R, H.
    + intros H. apply R in H. rewrite H. reflexivity.
  - rewrite E. split.
    + intros H. injection H as H. apply negb_true_iff in H.
      intros K. apply R in K. congruence.
    + intros H. f_equal. apply negb_true_iff.
      destruct ((a1 <? b0) || (b1 <? a0)) eqn:K; [|reflexivity].
      exfalso. apply H, R. reflexivity.
  - intros H. unfold check_segment_pair. rewrite E.
    apply R in H. rewrite H. reflexivity.
  - exact P.
  - intros Hn p t d Hp Ht Hd Hlt. rewrite (P Hn), Hp, Ht. cbn [bind].
    rewrite Hd. cbn [bind]. rewrite Hlt. reflexivity.
  - split.
    + intros Hall.
      destruct (Z.ltb_spec a1 b0) as [K1|K1]; [left; exact K1|].
      destruct (Z.ltb_spec b1 a0) as [K2|K2]; [right; exact K2|].
      exfalso.
      apply (crossing_at_start_not_rejected m1 m2 a0 a1 b0 b1).
      * lia.
      * apply Hall; reflexivity.
    + intros Hd self' m1' m2' A0' A1' B0' B1' H0' H1' H2' H3'.
      unfold check_segment_pair.
      rewrite (check_temporal_overlap_Some _ _ _ _ _ _ _ _ H0' H1' H2' H3').
      apply R in Hd. rewrite Hd. reflexivity.
  - intros (t & Ha & Hb). rewrite E. f_equal. apply negb_true_iff.
    apply orb_false_iff. rewrite !Z.ltb_ge. lia.
  - intros Ha Hb Ht. rewrite E. f_equal. apply negb_true_iff.
    apply orb_false_iff. rewrite !Z.ltb_ge. lia.
Qed.

(** Two crossing segments one hour apart, which yield nothing; the same two
    segments when the second starts at the instant the first ends, which
    yield a conflict; and a pair rejected by the first comparison although
    two of its waypoints have no timestamp. *)
Lemma temporal_overlap_rejects_exactly_witness :
  let L := rounded_libm in
  (at_time 10 10 0 < at_time 11 0 0 \/ at_time 11 10 0 < at_time 10 0 0) /\
  check_segment_pair detector50 crossing_primary crossing_other
    (wp 0 0 (at_time 10 0 0)) (wp 40 40 (at_time 10 10 0))
    (wp 0 40 (at_time 11 0 0)) (wp 40 0 (at_time 11 10 0)) = Ok [] /\
  _check_temporal_overlap
    (wp 0 0 (at_time 10 0 0)) (wp 40 40 (at_time 10 10 0))
    (wp 0 40 (at_time 10 10 0)) (wp 40 0 (at_time 10 20 0)) = Ok true /\
  check_segment_pair detector50 crossing_primary crossing_other
    (wp 0 0 (at_time 10 0 0)) (wp 40 40 (at_time 10 10 0))
    (wp 0 40 (at_time 10 10 0)) (wp 40 0 (at_time 10 20 0))
    = Ok [mkConflict (20%float, 20%float) (at_time 10 5 0) "primary" "other" 40] /\
  check_segment_pair detector50 crossing_primary crossing_other
    (mkWaypoint 0 0 None None) (wp 40 40 (at_time 10 10 0))
    (wp 0 40 (at_time 11 0 0)) (mkWaypoint 40 0 None None) = Ok [].
Proof.
  intros L.
  assert (H : at_time 10 10 0 < at_time 11 0 0 \/ at_time 11 10 0 < at_time 10 0 0)
    by (left; reflexivity).
  assert (N : ~ (at_time 10 10 0 < at_time 10 10 0
                 \/ at_time 10 20 0 < at_time 10 0 0))
    by (vm_compute; intros [K|K]; discriminate K).
  split; [exact H|]. split; [|split; [|split]].
  - exact (proj1 (proj2 (proj2
      (proj2 (temporal_overlap_rejects_exactly (L := L) detector50
         crossing_primary crossing_other
         (wp 0 0 (at_time 10 0 0)) (wp 40 40 (at_time 10 10 0))
         (wp 0 40 (at_time 11 0 0)) (wp 40 0 (at_time 11 10 0)))
         _ _ _ _ eq_refl eq_refl eq_refl eq_refl))) H).
  - destruct (proj2 (temporal_overlap_rejects_exactly (L := L) detector50
         crossing_primary crossing_other
         (wp 0 0 (at_time 10 0 0)) (wp 40 40 (at_time 10 10 0))
         (wp 0 40 (at_time 10 10 0)) (wp 40 0 (at_time 10 20 0)))
         _ _ _ _ eq_refl eq_refl eq_refl eq_refl) as (_ & Ht & _).
    exact (proj2 Ht N).
  - destruct (proj2 (temporal_overlap_rejects_exactly (L := L) detector50
         crossing_primary crossing_other
         (wp 0 0 (at_time 10 0 0)) (wp 40 40 (at_time 10 10 0))
         (wp 0 40 (at_time 10 10 0)) (wp 40 0 (at_time 10 20 0)))
         _ _ _ _ eq_refl eq_refl eq_refl eq_refl) as (_ & _ & _ & _ & Hc & _).
    apply (Hc N (20%float, 20%float) (at_time 10 5 0) 40%float);
      vm_compute; reflexivity.
  - apply (proj1 (temporal_overlap_rejects_exactly (L := L) detector50
         crossing_primary crossing_other
         (mkWaypoint 0 0 None None) (wp 40 40 (at_time 10 10 0))
         (wp 0 40 (at_time 11 0 0)) (mkWaypoint 40 0 None None))
         (at_time 10 10 0) (at_time 11 0 0) eq_refl eq_refl).
    reflexivity.
Defined.

(** ** The safety-distance test *)

(** A pair of segments that passes the temporal and the geometric test and
    whose conflict time and distance are computed. *)
Lemma check_segment_pair_passed {L : Libm}
    (self : ConflictDetector) (m1 m2 : Mission) (A0 A1 B0 B1 : Waypoint)
    (p : float * float) (t : datetime) (d : float) :
  _check_temporal_overlap A0 A1 B0 B1 = Ok true ->
  _find_intersection A0 A1 B0 B1 = Some p ->
  _calculate_conflict_time A0 A1 B0 B1 p = Ok t ->
  _calculate_distance A0 B0 p = Ok d ->
  check_segment_pair self m1 m2 A0 A1 B0 B1
    = Ok (if (d <? safety_buffer self)%float
          then [mkConflict p t (drone_id m1) (drone_id m2) d]
          else []).
Proof.
  intros Ho Hp Ht Hd.
  unfold check_segment_pair. rewrite Ho. simpl. rewrite Hp, Ht. simpl.
  rewrite Hd. simpl. destruct (d <? safety_buffer self)%float; reflexivity.
Qed.

(** C4: for a pair of segments that passes the temporal test, has an
    intersection point [p], a conflict time [t] and a distance [d], the pair
    yields the conflict record when [d < safety_buffer] and nothing otherwise;
    a conflict is emitted exactly when [d < safety_buffer]; and a distance
    equal to the buffer emits none. *)
Theorem safety_distance_is_strict {L : Libm}
    (self : ConflictDetector) (m1 m2 : Mission) (A0 A1 B0 B1 : Waypoint)
    (p : float * float) (t : datetime) (d : float) :
  _check_temporal_overlap A0 A1 B0 B1 = Ok true ->
  _find_intersection A0 A1 B0 B1 = Some p ->
  _calculate_conflict_time A0 A1 B0 B1 p = Ok t ->
  _calculate_distance A0 B0 p = Ok d ->
  check_segment_pair self m1 m2 A0 A1 B0 B1
    = Ok (if (d <? safety_buffer self)%float
          then [mkConflict p t (drone_id m1) (drone_id m2) d]
          else []) /\
  ((exists c, check_segment_pair self m1 m2 A0 A1 B0 B1 = Ok [c])
     <-> (d <? safety_buffer self)%float = true) /\
  ((d =? safety_buffer self)%float = true ->
     check_segment_pair self m1 m2 A0 A1 B0 B1 = Ok []) /\
  (d = safety_buffer self ->
     check_segment_pair self m1 m2 A0 A1 B0 B1 = Ok []).
Proof.
  intros Ho Hp Ht Hd.
  pose proof (check_segment_pair_passed self m1 m2 _ _ _ _ _ _ _ Ho Hp Ht Hd) as E.
  split; [exact E|]. rewrite E. repeat split.
  - intros [c H]. destruct (d <? safety_buffer self)%float; [reflexivity|discriminate].
  - intros ->. eexists. reflexivity.
  - intros H. rewrite (eqb_ltb_false _ _ H). reflexivity.
  - intros <-. rewrite ltb_irrefl. reflexivity.
Qed.

(** The crossing scenario: the start waypoints are exactly 40 apart, so a
    buffer of 40 reports nothing and a buffer of 50 reports the conflict. *)
Lemma safety_distance_is_strict_witness :
  let L := rounded_libm in
  _check_temporal_overlap (wp 0 0 (at_time 10 0 0)) (wp 40 40 (at_time 10 10 0))
    (wp 0 40 (at_time 10 0 0)) (wp 40 0 (at_time 10 10 0)) = Ok true /\
  _calculate_distance (wp 0 0 (at_time 10 0 0)) (wp 0 40 (at_time 10 0 0))
    (20%float, 20%float) = Ok 40%float /\
  check_segment_pair (mkConflictDetector 40) crossing_primary crossing_other
    (wp 0 0 (at_time 10 0 0)) (wp 40 40 (at_time 10 10 0))
    (wp 0 40 (at_time 10 0 0)) (wp 40 0 (at_time 10 10 0)) = Ok [] /\
  check_segment_pair detector50 crossing_primary crossing_other
    (wp 0 0 (at_time 10 0 0)) (wp 40 40 (at_time 10 10 0))
    (wp 0 40 (at_time 10 0 0)) (wp 40 0 (at_time 10 10 0))
    = Ok [mkConflict (20%float, 20%float) (at_time 10 5 0) "primary" "other" 40].
Proof.
  intros L.
  split; [reflexivity|]. split; [vm_compute; reflexivity|]. split.
  - apply (proj2 (proj2 (proj2
      (safety_distance_is_strict (L := L) (mkConflictDetector 40) crossing_primary crossing_other
         (wp 0 0 (at_time 10 0 0)) (wp 40 40 (at_time 10 10 0))
         (wp 0 40 (at_time 10 0 0)) (wp 40 0 (at_time 10 10 0))
         (20%float, 20%float) (at_time 10 5 0) 40%float
         eq_refl eq_refl eq_refl eq_refl)))).
    reflexivity.
  - exact (proj1
      (safety_distance_is_strict (L := L) detector50 crossing_primary crossing_other
         (wp 0 0 (at_time 10 0 0)) (wp 40 40 (at_time 10 10 0))
         (wp 0 40 (at_time 10 0 0)) (wp 40 0 (at_time 10 10 0))
         (20%float, 20%float) (at_time 10 5 0) 40%float
         eq_refl eq_refl eq_refl eq_refl)).
Defined.

(** ** The distance that is tested and reported *)

Lemma is_nan_inv (f : float) : is_nan f = true -> Prim2SF f = S754_nan.
Proof.
  unfold is_nan. rewrite eqb_spec. unfold SFeqb.
  destruct (Prim2SF f) as [s|s| |s m e]; try reflexivity.
  - discriminate.
  - destruct s; discriminate.
  - simpl. destruct s; rewrite Z.compare_refl, Pos.compare_cont_refl; discriminate.
Qed.

Lemma SFeqb_finite_inv (m m' : positive) (e e' : Z) :
  SFeqb (S754_finite false m e) (S754_finite false m' e') = true ->
  m = m' /\ e = e'.
Proof.
  unfold SFeqb, SFcompare.
  destruct (Z.compare_spec e e') as [He|He|He]; try (intros H; discriminate H).
  change (Pos.compare_cont Eq m m') with (Pos.compare m m').
  destruct (Pos.compare_spec m m') as [Hm|Hm|Hm]; try (intros H; discriminate H).
  auto.
Qed.

Lemma one_spec : Prim2SF 1 = S754_finite false 4503599627370496 (-52).
Proof. vm_compute. reflexivity. Qed.

Lemma abs_one (f : float) :
  (abs f =? 1)%float = true ->
  exists s, Prim2SF f = S754_finite s 4503599627370496 (-52).
Proof.
  rewrite eqb_spec, abs_spec, one_spec.
  destruct (Prim2SF f) as [s|s| |s m e]; try (intros H; discriminate H).
  intros H. apply SFeqb_finite_inv in H as [-> ->]. exists s. reflexivity.
Qed.

(** The square [**] computes when the libm's [pow] is correctly rounded on
    the magnitude of the base. *)
Lemma pow2_rounded {L : Libm} (f r : float) :
  squares_correctly f -> pow2 f = Ok r -> r = (f * f)%float.
Proof.
  unfold squares_correctly, pow2. intros Hs.
  destruct (is_nan f) eqn:Hn.
  { intros H. injection H as <-. apply Prim2SF_inj. rewrite mul_spec.
    rewrite (is_nan_inv f Hn). reflexivity. }
  destruct (is_infinity f) eqn:Hi.
  { intros H. injection H as <-. apply Prim2SF_inj. rewrite mul_spec, abs_spec.
    unfold is_infinity in Hi. rewrite eqb_spec, abs_spec in Hi.
    change (Prim2SF infinity) with (S754_infinity false) in Hi.
    destruct (Prim2SF f) as [s|s| |s m e]; try discriminate.
    destruct s; reflexivity. }
  destruct (f =? 0)%float eqn:Hz.
  { intros H. injection H as <-. apply Prim2SF_inj. rewrite mul_spec.
    rewrite eqb_spec in Hz. change (Prim2SF 0) with (S754_zero false) in *.
    destruct (Prim2SF f) as [s|s| |s m e]; try discriminate;
      destruct s; try discriminate; reflexivity. }
  cbv zeta. rewrite (neg_if_negative f Hz).
  destruct (abs f =? 1)%float eqn:H1.
  { intros H. injection H as <-. apply Prim2SF_inj. rewrite mul_spec.
    destruct (abs_one f H1) as [s ->]. destruct s; vm_compute; reflexivity. }
  rewrite Hs. destruct (is_infinity (f * f)); congruence.
Qed.

Lemma calculate_distance_Ok {L : Libm} (a b : Waypoint) (p : float * float)
    (d : float) :
  _calculate_distance a b p = Ok d ->
  exists dx2 dy2,
    pow2 (x a - x b) = Ok dx2 /\ pow2 (y a - y b) = Ok dy2 /\
    d = sqrt (dx2 + dy2).
Proof.
  unfold _calculate_distance. intros H.
  apply bind_Ok in H as (dx2 & Hx & H). apply bind_Ok in H as (dy2 & Hy & H).
  injection H as <-. exists dx2, dy2. auto.
Qed.

Lemma calculate_distance_euclidean {L : Libm} (a b : Waypoint)
    (p : float * float) (d : float) :
  squares_correctly (x a - x b) -> squares_correctly (y a - y b) ->
  _calculate_distance a b p = Ok d -> d = euclidean_distance a b.
Proof.
  intros Sx Sy H.
  apply calculate_distance_Ok in H as (dx2 & dy2 & Hx & Hy & ->).
  apply (pow2_rounded _ _ Sx) in Hx. apply (pow2_rounded _ _ Sy) in Hy.
  subst dx2 dy2. reflexivity.
Qed.

(** What a segment pair that appends a conflict has gone through. *)
Lemma check_segment_pair_In {L : Libm} (self : ConflictDetector) (m1 m2 : Mission)
    (A0 A1 B0 B1 : Waypoint) (cs : list Conflict) (c : Conflict) :
  check_segment_pair self m1 m2 A0 A1 B0 B1 = Ok cs -> In c cs ->
  cs = [c] /\
  _check_temporal_overlap A0 A1 B0 B1 = Ok true /\
  _find_intersection A0 A1 B0 B1 = Some (location c) /\
  _calculate_conflict_time A0 A1 B0 B1 (location c) = Ok (time c) /\
  _calculate_distance A0 B0 (location c) = Ok (distance c) /\
  (distance c <? safety_buffer self)%float = true /\
  primary_drone c = drone_id m1 /\ conflicting_drone c = drone_id m2.
Proof.
  unfold check_segment_pair. intros H Hc.
  apply bind_Ok in H as (overlap & Ho & H).
  destruct overlap; [|injection H as <-; destruct Hc].
  destruct (_find_intersection A0 A1 B0 B1) as [p|] eqn:Hp;
    [|injection H as <-; destruct Hc].
  apply bind_Ok in H as (t & Ht & H). apply bind_Ok in H as (d & Hd & H).
  destruct (d <? safety_buffer self)%float eqn:Hlt;
    [|injection H as <-; destruct Hc].
  injection H as <-. destruct Hc as [<-|[]]. simpl. auto 10.
Qed.

(** C5: the distance does not depend on the intersection point passed to
    [_calculate_distance]. For a segment pair that passes the temporal and
    the geometric test, the distance [d] that is computed is
    [sqrt (dx2 + dy2)], where [dx2] and [dy2] are the squares Python's [**]
    gives for the differences of the [x] and of the [y] of the two start
    waypoints (it is the binary64 value
    [sqrt ((x1 - x2) * (x1 - x2) + (y1 - y2) * (y1 - y2))] when the libm's
    [pow] rounds these two squares correctly); it is [d] that is compared
    with the safety buffer and [d] that is stored in the record. And every
    conflict that [_check_mission_pair] returns comes from a primary segment
    [(A0, A1)] and a segment [(B0, B1)] of the other trajectory, is located
    at their intersection point, and has for distance that distance of the
    start waypoints [A0] and [B0], found below the safety buffer. *)
Theorem distance_is_between_start_waypoints {L : Libm}
    (self : ConflictDetector) (m1 m2 : Mission) (cs : list Conflict) (c : Conflict) :
  _check_mission_pair self m1 m2 = Ok cs -> In c cs ->
  (forall (a b : Waypoint) (p q : float * float),
      _calculate_distance a b p = _calculate_distance a b q) /\
  (forall (A0 A1 B0 B1 : Waypoint) (p : float * float) (t : datetime) (d : float),
      _check_temporal_overlap A0 A1 B0 B1 = Ok true ->
      _find_intersection A0 A1 B0 B1 = Some p ->
      _calculate_conflict_time A0 A1 B0 B1 p = Ok t ->
      _calculate_distance A0 B0 p = Ok d ->
      (exists dx2 dy2 : float,
          pow2 (x A0 - x B0) = Ok dx2 /\ pow2 (y A0 - y B0) = Ok dy2 /\
          d = sqrt (dx2 + dy2)) /\
      (squares_correctly (x A0 - x B0) -> squares_correctly (y A0 - y B0) ->
       d = euclidean_distance A0 B0) /\
      check_segment_pair self m1 m2 A0 A1 B0 B1
        = Ok (if (d <? safety_buffer self)%float
              then [mkConflict p t (drone_id m1) (drone_id m2) d]
              else [])) /\
  exists A0 A1 B0 B1 : Waypoint,
    In (A0, A1) (segments (waypoints m1)) /\
    In (B0, B1) (segments (waypoints m2)) /\
    _find_intersection A0 A1 B0 B1 = Some (location c) /\
    (forall q : float * float, _calculate_distance A0 B0 q = Ok (distance c)) /\
    (exists dx2 dy2 : float,
        pow2 (x A0 - x B0) = Ok dx2 /\ pow2 (y A0 - y B0) = Ok dy2 /\
        distance c = sqrt (dx2 + dy2)) /\
    (squares_correctly (x A0 - x B0) -> squares_correctly (y A0 - y B0) ->
     distance c = euclidean_distance A0 B0) /\
    (distance c <? safety_buffer self)%float = true.
Proof.
  intros H Hc. split; [reflexivity|]. split.
  { intros A0 A1 B0 B1 p t d Ho Hp Ht Hd.
    split; [exact (calculate_distance_Ok _ _ _ _ Hd)|]. split.
    - intros Sx Sy. exact (calculate_distance_euclidean _ _ _ _ Sx Sy Hd).
    - apply check_segment_pair_passed; assumption. }
  unfold _check_mission_pair in H.
  destruct (for_each_In _ _ _ _ H Hc) as ([A0 A1] & r & HA & Hr & Hcr).
  destruct (for_each_In _ _ _ _ Hr Hcr) as ([B0 B1] & r' & HB & Hr' & Hcr').
  cbn [fst snd] in Hr'.
  destruct (check_segment_pair_In _ _ _ _ _ _ _ _ _ Hr' Hcr')
    as (_ & _ & Hp & _ & Hd & Hlt & _).
  exists A0, A1, B0, B1.
  split; [exact HA|]. split; [exact HB|]. split; [exact Hp|].
  split; [intros q; exact Hd|].
  split; [exact (calculate_distance_Ok _ _ _ _ Hd)|].
  split; [|exact Hlt].
  intros Sx Sy. exact (calculate_distance_euclidean _ _ _ _ Sx Sy Hd).
Qed.

(** The crossing scenario: the two drones are both at (20, 20) at 10:05:00,
    and the distance that is tested and reported is 40, the distance between
    the start waypoints (0, 0) and (0, 40). *)
Lemma distance_is_between_start_waypoints_witness :
  let L := rounded_libm in
  _check_mission_pair detector50 crossing_primary crossing_other
    = Ok [mkConflict (20%float, 20%float) (at_time 10 5 0) "primary" "other" 40] /\
  exists A0 A1 B0 B1 : Waypoint,
    In (A0, A1) (segments (waypoints crossing_primary)) /\
    In (B0, B1) (segments (waypoints crossing_other)) /\
    _find_intersection A0 A1 B0 B1 = Some (20%float, 20%float) /\
    (forall q : float * float, _calculate_distance A0 B0 q = Ok 40%float) /\
    (exists dx2 dy2 : float,
        pow2 (x A0 - x B0) = Ok dx2 /\ pow2 (y A0 - y B0) = Ok dy2 /\
        40%float = sqrt (dx2 + dy2)) /\
    (squares_correctly (x A0 - x B0) -> squares_correctly (y A0 - y B0) ->
     40%float = euclidean_distance A0 B0) /\
    (40 <? 50)%float = true.
Proof.
  intros L.
  assert (E : _check_mission_pair detector50 crossing_primary crossing_other
    = Ok [mkConflict (20%float, 20%float) (at_time 10 5 0) "primary" "other" 40])
    by (vm_compute; reflexivity).
  split; [exact E|].
  exact (proj2 (proj2 (distance_is_between_start_waypoints (L := L) detector50
    crossing_primary crossing_other
    [mkConflict (20%float, 20%float) (at_time 10 5 0) "primary" "other" 40]
    (mkConflict (20%float, 20%float) (at_time 10 5 0) "primary" "other" 40)
    E (or_introl eq_refl)))).
Defined.

(** ** Parallel segments *)

(** C6: a pair of segments whose denominator compares equal to 0 has no
    intersection point and appends no conflict (the pair returns the empty
    list, unless the temporal test itself raises); and in the parallel-paths
    scenario, whose trajectories are well formed, [check_mission] returns
    "clear" with no conflict for every safety buffer, in particular for the
    buffers up to 100. *)
Theorem zero_denominator_no_conflict {L : Libm} :
  (forall (self : ConflictDetector) (m1 m2 : Mission) (A0 A1 B0 B1 : Waypoint),
      (denominator A0 A1 B0 B1 =? 0)%float = true ->
      _find_intersection A0 A1 B0 B1 = None /\
      check_segment_pair self m1 m2 A0 A1 B0 B1
        = (_ <- _check_temporal_overlap A0 A1 B0 B1 ;; Ok []) /\
      (forall c cs, check_segment_pair self m1 m2 A0 A1 B0 B1 <> Ok (c :: cs))) /\
  new_Mission (waypoints parallel_primary) day_start day_end "primary"
    = Ok parallel_primary /\
  new_Mission (waypoints parallel_other) day_start day_end "other"
    = Ok parallel_other /\
  (forall buffer : float,
      check_mission (mkConflictDetector buffer) parallel_primary [parallel_other]
        = Ok ("clear"%string, [])) /\
  (forall buffer : float, (buffer <=? 100)%float = true ->
      check_mission (mkConflictDetector buffer) parallel_primary [parallel_other]
        = Ok ("clear"%string, [])).
Proof.
  split.
  - intros self m1 m2 A0 A1 B0 B1 H.
    pose proof (find_intersection_denominator _ _ _ _ H) as Hn.
    assert (E : check_segment_pair self m1 m2 A0 A1 B0 B1
                = (_ <- _check_temporal_overlap A0 A1 B0 B1 ;; Ok [])).
    { unfold check_segment_pair. rewrite Hn.
      destruct (_check_temporal_overlap A0 A1 B0 B1) as [[|]|e]; reflexivity. }
    split; [exact Hn|]. split; [exact E|].
    intros c cs. rewrite E.
    destruct (_check_temporal_overlap A0 A1 B0 B1); simpl; discriminate.
  - split; [vm_compute; reflexivity|].
    split; [vm_compute; reflexivity|].
    split; intros buffer; [|intros _]; vm_compute; reflexivity.
Qed.

Lemma zero_denominator_no_conflict_witness :
  let L := rounded_libm in
  (denominator (wp 0 0 (at_time 10 0 0)) (wp 200 0 (at_time 10 10 0))
     (wp 0 100 (at_time 10 0 0)) (wp 200 100 (at_time 10 10 0)) =? 0)%float = true /\
  check_segment_pair detector50 parallel_primary parallel_other
     (wp 0 0 (at_time 10 0 0)) (wp 200 0 (at_time 10 10 0))
     (wp 0 100 (at_time 10 0 0)) (wp 200 100 (at_time 10 10 0))
    = (_ <- _check_temporal_overlap
              (wp 0 0 (at_time 10 0 0)) (wp 200 0 (at_time 10 10 0))
              (wp 0 100 (at_time 10 0 0)) (wp 200 100 (at_time 10 10 0)) ;; Ok []) /\
  (100 <=? 100)%float = true /\
  check_mission (mkConflictDetector 100) parallel_primary [parallel_other]
    = Ok ("clear"%string, []).
Proof.
  intros L.
  split; [vm_compute; reflexivity|]. split.
  - exact (proj1 (proj2 (proj1 zero_denominator_no_conflict detector50
      parallel_primary parallel_other
      (wp 0 0 (at_time 10 0 0)) (wp 200 0 (at_time 10 10 0))
      (wp 0 100 (at_time 10 0 0)) (wp 200 100 (at_time 10 10 0)) eq_refl))).
  - split; [reflexivity|].
    exact (proj2 (proj2 (proj2 (proj2 zero_denominator_no_conflict)))
             100%float eq_refl).
Defined.

(** ** Single-waypoint trajectories *)

(** C9: a trajectory with exactly one waypoint has no segment, so comparing
    it with any trajectory, as the primary one or as the other one, returns
    no conflict (and raises nothing); [check_mission] with it as primary
    returns "clear" for any list of other trajectories, and a primary
    trajectory checked against it alone is "clear" as well. *)
Theorem single_waypoint_no_conflict {L : Libm}
    (self : ConflictDetector) (w : Waypoint) (s e : datetime) (id : string)
    (other : Mission) (others : list Mission) :
  segments (waypoints (mkMission [w] s e id)) = [] /\
  _check_mission_pair self (mkMission [w] s e id) other = Ok [] /\
  _check_mission_pair self other (mkMission [w] s e id) = Ok [] /\
  check_mission self (mkMission [w] s e id) others = Ok ("clear"%string, []) /\
  check_mission self other [mkMission [w] s e id] = Ok ("clear"%string, []).
Proof.
  assert (P1 : forall o, _check_mission_pair self (mkMission [w] s e id) o = Ok [])
    by reflexivity.
  assert (P2 : _check_mission_pair self other (mkMission [w] s e id) = Ok []).
  { unfold _check_mission_pair. apply for_each_all_nil. reflexivity. }
  split; [reflexivity|]. split; [apply P1|]. split; [exact P2|]. split.
  - unfold check_mission. rewrite for_each_all_nil; [reflexivity|].
    intros o _. apply P1.
  - unfold check_mission. simpl for_each. rewrite P2. reflexivity.
Qed.

(** ** Construction of waypoints and trajectories *)

(** C8: constructing a waypoint raises (ValueError) exactly when [x < 0], or
    [y < 0], or the altitude is present and negative; otherwise the waypoint
    is built with the fields it was given. A waypoint at the origin is built,
    without an altitude and with any altitude [z >= 0]. *)
Theorem waypoint_construction
    (px py : float) (pz : option float) (ts : option datetime) :
  (new_Waypoint px py pz ts = Raise ValueError <->
     (px <? 0)%float = true \/ (py <? 0)%float = true \/
     (exists alt, pz = Some alt /\ (alt <? 0)%float = true)) /\
  (raises (new_Waypoint px py pz ts) = false ->
     new_Waypoint px py pz ts = Ok (mkWaypoint px py pz ts)) /\
  (raises (new_Waypoint px py pz ts) = true ->
     new_Waypoint px py pz ts = Raise ValueError) /\
  new_Waypoint 0 0 None ts = Ok (mkWaypoint 0 0 None ts) /\
  (forall alt, (0 <=? alt)%float = true ->
     new_Waypoint 0 0 (Some alt) ts = Ok (mkWaypoint 0 0 (Some alt) ts)).
Proof.
  unfold new_Waypoint, Waypoint_post_init. cbn [x y z].
  split; [|split; [|split; [|split]]].
  - destruct (px <? 0)%float; [simpl; tauto|].
    destruct (py <? 0)%float; [simpl; tauto|]. simpl.
    destruct pz as [alt|].
    + destruct (alt <? 0)%float eqn:Ha; split.
      * intros _. right. right. exists alt. auto.
      * reflexivity.
      * discriminate.
      * intros [H|[H|(a & Ha' & H)]]; try discriminate.
        injection Ha' as <-. congruence.
    + split; [discriminate|].
      intros [H|[H|(a & Ha' & H)]]; discriminate.
  - destruct ((px <? 0)%float || (py <? 0)%float); [discriminate|].
    destruct pz as [alt|]; [|reflexivity].
    destruct (alt <? 0)%float; [discriminate|reflexivity].
  - destruct ((px <? 0)%float || (py <? 0)%float); [reflexivity|].
    destruct pz as [alt|]; [|discriminate].
    destruct (alt <? 0)%float; [reflexivity|discriminate].
  - reflexivity.
  - intros alt H. rewrite (leb_zero_ltb_false _ H). reflexivity.
Qed.

Lemma waypoint_construction_witness :
  (-1 <? 0)%float = true /\
  new_Waypoint (-1) 5 None None = Raise ValueError /\
  (0 <=? 10)%float = true /\
  new_Waypoint 0 0 (Some 10%float) None = Ok (mkWaypoint 0 0 (Some 10%float) None).
Proof.
  split; [reflexivity|]. split.
  - apply (proj1 (waypoint_construction (-1) 5 None None)). left. reflexivity.
  - split; [reflexivity|].
    apply (proj2 (proj2 (proj2 (proj2 (waypoint_construction 0 0 None None))))).
    reflexivity.
Defined.

Lemma insert_by_key_perm (w : Waypoint) (l : list Waypoint) :
  Permutation (w :: l) (insert_by_key w l).
Proof.
  induction l as [|a l IH]; simpl; [apply Permutation_refl|].
  destruct (sort_key w <=? sort_key a); [apply Permutation_refl|].
  eapply perm_trans; [apply perm_swap|]. apply perm_skip, IH.
Qed.

Lemma sort_by_timestamp_perm (l : list Waypoint) :
  Permutation l (sort_by_timestamp l).
Proof.
  induction l as [|a l IH]; simpl; [apply perm_nil|].
  eapply perm_trans; [apply perm_skip, IH|]. apply insert_by_key_perm.
Qed.

Lemma insert_by_key_sorted (w : Waypoint) (l : list Waypoint) :
  StronglySorted key_le l -> StronglySorted key_le (insert_by_key w l).
Proof.
  induction l as [|a l IH]; simpl; intros Hs.
  - constructor; constructor.
  - inversion Hs as [|? ? Hl Ha]; subst.
    destruct (sort_key w <=? sort_key a) eqn:E.
    + apply Z.leb_le in E. constructor; [exact Hs|].
      constructor; [exact E|].
      eapply Forall_impl; [|exact Ha]. unfold key_le. intros b Hb. lia.
    + apply Z.leb_gt in E. constructor; [apply IH, Hl|].
      eapply Permutation_Forall; [apply insert_by_key_perm|].
      constructor; [unfold key_le; lia | exact Ha].
Qed.

Lemma sort_by_timestamp_sorted (l : list Waypoint) :
  StronglySorted key_le (sort_by_timestamp l).
Proof.
  induction l as [|a l IH]; simpl; [constructor|].
  apply insert_by_key_sorted, IH.
Qed.

Lemma key_sorted_timestamp_sorted (l : list Waypoint) :
  forallb has_timestamp l = true ->
  StronglySorted key_le l -> StronglySorted timestamp_le l.
Proof.
  induction l as [|a l IH]; intros Ht Hs; [constructor|].
  simpl in Ht. apply andb_true_iff in Ht as [Hta Htl].
  inversion Hs as [|? ? Hl Ha]; subst.
  constructor; [apply IH; assumption|].
  rewrite forallb_forall in Htl. rewrite Forall_forall in Ha |- *.
  intros b Hb. specialize (Ha b Hb). specialize (Htl b Hb).
  unfold key_le, sort_key in Ha. unfold has_timestamp in Hta, Htl.
  unfold timestamp_le.
  destruct (timestamp a) as [ta|]; [|discriminate].
  destruct (timestamp b) as [tb|]; [|discriminate].
  exists ta, tb. auto.
Qed.

Lemma forallb_perm {A : Type} (f : A -> bool) (l l' : list A) :
  Permutation l l' -> forallb f l = forallb f l'.
Proof.
  intros H. induction H; simpl.
  - reflexivity.
  - rewrite IHPermutation. reflexivity.
  - destruct (f x0), (f y0); reflexivity.
  - congruence.
Qed.

Lemma within_window_false (s e : datetime) (l : list Waypoint) :
  forallb (within_window s e) l = false <->
  exists w t, In w l /\ timestamp w = Some t /\ (t < s \/ e < t).
Proof.
  induction l as [|a l IH]; simpl.
  - split; [discriminate|]. intros (w & t & [] & _).
  - rewrite andb_false_iff, IH. split.
    + intros [H|(w & t & Hw & Ht & Hout)].
      * unfold within_window in H. destruct (timestamp a) as [t|] eqn:Et;
          [|discriminate].
        exists a, t. split; [auto|]. split; [exact Et|].
        apply andb_false_iff in H. rewrite !Z.leb_gt in H. lia.
      * exists w, t. auto.
    + intros (w & t & [->|Hw] & Ht & Hout).
      * left. unfold within_window. rewrite Ht.
        apply andb_false_iff. rewrite !Z.leb_gt. lia.
      * right. exists w, t. auto.
Qed.

Lemma In_sort_by_timestamp (w : Waypoint) (l : list Waypoint) :
  In w (sort_by_timestamp l) <-> In w l.
Proof.
  split; apply Permutation_in;
    [apply Permutation_sym|]; apply sort_by_timestamp_perm.
Qed.

Lemma stored_waypoints_perm (wps : list Waypoint) :
  Permutation wps (stored_waypoints wps).
Proof.
  unfold stored_waypoints. destruct (forallb has_timestamp wps).
  - apply sort_by_timestamp_perm.
  - apply Permutation_refl.
Qed.

Lemma new_Mission_unfold (wps : list Waypoint) (s e : datetime) (id : string) :
  new_Mission wps s e id =
  match wps with
  | [] => Raise ValueError
  | _ :: _ =>
      if e <=? s then Raise ValueError
      else if forallb (within_window s e) (stored_waypoints wps)
           then Ok (mkMission (stored_waypoints wps) s e id)
           else Raise ValueError
  end.
Proof.
  destruct wps; reflexivity.
Qed.

(** C7: constructing a trajectory raises (ValueError) exactly when the
    waypoint list is empty, or [end_time <= start_time], or some waypoint has
    a timestamp outside [[start_time, end_time]]. A successful construction
    keeps the window and the identifier; when every waypoint has a timestamp
    the stored waypoints are a rearrangement of the given ones in ascending
    order of timestamp, and otherwise they are the given list, unchanged. *)
Theorem mission_construction
    (wps : list Waypoint) (s e : datetime) (id : string) :
  (new_Mission wps s e id = Raise ValueError <->
     wps = [] \/ e <= s \/
     (exists w t, In w wps /\ timestamp w = Some t /\ (t < s \/ e < t))) /\
  (raises (new_Mission wps s e id) = true ->
     new_Mission wps s e id = Raise ValueError) /\
  (forall m : Mission, new_Mission wps s e id = Ok m ->
     start_time m = s /\ end_time m = e /\ drone_id m = id /\
     (forallb has_timestamp wps = true ->
        Permutation wps (waypoints m) /\
        StronglySorted timestamp_le (waypoints m)) /\
     (forallb has_timestamp wps = false -> waypoints m = wps)).
Proof.
  rewrite new_Mission_unfold. split; [|split].
  - destruct wps as [|w0 wps0]; [split; auto|].
    set (wps := w0 :: wps0).
    destruct (e <=? s) eqn:Ees.
    + apply Z.leb_le in Ees. split; auto.
    + apply Z.leb_gt in Ees.
      destruct (forallb (within_window s e) (stored_waypoints wps)) eqn:Ew.
      * split; [discriminate|].
        intros [H|[H|(w & t & Hw & Ht & Hout)]]; [discriminate|lia|].
        exfalso.
        assert (K : forallb (within_window s e) (stored_waypoints wps) = false).
        { apply within_window_false. exists w, t. split; [|auto].
          eapply Permutation_in; [apply stored_waypoints_perm|exact Hw]. }
        congruence.
      * split; [|reflexivity]. intros _. right. right.
        apply within_window_false in Ew as (w & t & Hw & Ht & Hout).
        exists w, t. split; [|auto].
        eapply Permutation_in;
          [apply Permutation_sym, stored_waypoints_perm|exact Hw].
  - destruct wps as [|w0 wps0]; [reflexivity|].
    destruct (e <=? s); [reflexivity|].
    destruct (forallb (within_window s e) (stored_waypoints (w0 :: wps0)));
      [discriminate|reflexivity].
  - intros m H. destruct wps as [|w0 wps0]; [discriminate|].
    set (wps := w0 :: wps0) in *.
    destruct (e <=? s); [discriminate|].
    destruct (forallb (within_window s e) (stored_waypoints wps));
      [|discriminate].
    injection H as <-. cbn [start_time end_time drone_id waypoints].
    split; [reflexivity|]. split; [reflexivity|]. split; [reflexivity|].
    unfold stored_waypoints. split; intros Hts; rewrite Hts.
    + split; [apply sort_by_timestamp_perm|].
      apply key_sorted_timestamp_sorted; [|apply sort_by_timestamp_sorted].
      rewrite <- (forallb_perm _ _ _ (sort_by_timestamp_perm wps)). exact Hts.
    + reflexivity.
Qed.

(** A trajectory given out of order is stored in ascending order; one with a
    waypoint after the end of its window is refused. *)
Lemma mission_construction_witness :
  new_Mission [wp 200 100 (at_time 10 10 0); wp 0 100 (at_time 10 0 0)]
    day_start day_end "primary" = Ok head_on_primary /\
  Permutation [wp 200 100 (at_time 10 10 0); wp 0 100 (at_time 10 0 0)]
    (waypoints head_on_primary) /\
  StronglySorted timestamp_le (waypoints head_on_primary) /\
  new_Mission [wp 0 0 (at_time 10 0 0)] day_start (at_time 9 0 0) "late"
    = Raise ValueError.
Proof.
  assert (E : new_Mission [wp 200 100 (at_time 10 10 0); wp 0 100 (at_time 10 0 0)]
    day_start day_end "primary" = Ok head_on_primary) by (vm_compute; reflexivity).
  split; [exact E|]. split; [|split].
  - exact (proj1 (proj1 (proj2 (proj2 (proj2
      (proj2 (proj2 (mission_construction _ _ _ _)) head_on_primary E))))
      eq_refl)).
  - exact (proj2 (proj1 (proj2 (proj2 (proj2
      (proj2 (proj2 (mission_construction _ _ _ _)) head_on_primary E))))
      eq_refl)).
  - apply (proj1 (mission_construction _ _ _ _)).
    right. right. exists (wp 0 0 (at_time 10 0 0)), (at_time 10 0 0).
    split; [left; reflexivity|]. split; [reflexivity|].
    right. reflexivity.
Defined.

(** ** Totality of the detector *)

Lemma pow2_Raise {L : Libm} (f : float) (e : exn) :
  pow2 f = Raise e -> e = OverflowError.
Proof.
  unfold pow2.
  destruct (is_nan f); [discriminate|].
  destruct (is_infinity f); [discriminate|].
  destruct (f =? 0)%float; [discriminate|]. cbv zeta.
  destruct (_ =? 1)%float; [discriminate|].
  destruct (is_infinity _); [|discriminate].
  intros H. injection H as <-. reflexivity.
Qed.

Lemma pow2_not_TypeError {L : Libm} (f : float) : pow2 f <> Raise TypeError.
Proof.
  intros H. apply pow2_Raise in H. discriminate H.
Qed.

Lemma timedelta_of_seconds_not_TypeError (f : float) :
  timedelta_of_seconds f <> Raise TypeError.
Proof.
  unfold timedelta_of_seconds.
  destruct (is_nan f); [discriminate|].
  destruct (is_infinity f); [discriminate|].
  match goal with |- (if ?c then _ else _) <> _ => destruct c end; discriminate.
Qed.

Lemma datetime_add_not_TypeError (t : datetime) (d : timedelta) :
  datetime_add t d <> Raise TypeError.
Proof.
  unfold datetime_add.
  destruct ((0 <=? t + d) && (t + d <=? datetime_max)); discriminate.
Qed.

Lemma calculate_distance_not_TypeError {L : Libm} (a b : Waypoint) (p : float * float) :
  _calculate_distance a b p <> Raise TypeError.
Proof.
  unfold _calculate_distance.
  apply bind_not_raise; [apply pow2_not_TypeError|]. intros dx2.
  apply bind_not_raise; [apply pow2_not_TypeError|]. discriminate.
Qed.

Lemma calculate_conflict_time_not_TypeError {L : Libm}
    (A0 A1 B0 B1 : Waypoint) (p : float * float) :
  has_timestamp A0 = true -> has_timestamp A1 = true ->
  _calculate_conflict_time A0 A1 B0 B1 p <> Raise TypeError.
Proof.
  unfold has_timestamp, _calculate_conflict_time, total_dist. intros H0 H1.
  destruct (timestamp A0) as [a0|]; [|discriminate].
  destruct (timestamp A1) as [a1|]; [|discriminate].
  apply bind_not_raise.
  { apply bind_not_raise; [apply pow2_not_TypeError|]. intros dx2.
    apply bind_not_raise; [apply pow2_not_TypeError|]. discriminate. }
  intros total_dist1.
  apply bind_not_raise; [apply pow2_not_TypeError|]. intros ix2.
  apply bind_not_raise; [apply pow2_not_TypeError|]. intros iy2.
  apply bind_not_raise; [discriminate|]. intros d.
  apply bind_not_raise; [apply timedelta_of_seconds_not_TypeError|]. intros delta.
  apply datetime_add_not_TypeError.
Qed.

Lemma check_temporal_overlap_timestamped (A0 A1 B0 B1 : Waypoint) :
  has_timestamp A0 = true -> has_timestamp A1 = true ->
  has_timestamp B0 = true -> has_timestamp B1 = true ->
  exists b, _check_temporal_overlap A0 A1 B0 B1 = Ok b.
Proof.
  unfold has_timestamp, _check_temporal_overlap. intros H0 H1 H2 H3.
  destruct (timestamp A0); [|discriminate].
  destruct (timestamp A1); [|discriminate].
  destruct (timestamp B0); [|discriminate].
  destruct (timestamp B1); [|discriminate].
  simpl. destruct (_ <? _); eexists; reflexivity.
Qed.

Lemma check_segment_pair_not_TypeError {L : Libm}
    (self : ConflictDetector) (m1 m2 : Mission) (A0 A1 B0 B1 : Waypoint) :
  has_timestamp A0 = true -> has_timestamp A1 = true ->
  has_timestamp B0 = true -> has_timestamp B1 = true ->
  check_segment_pair self m1 m2 A0 A1 B0 B1 <> Raise TypeError.
Proof.
  intros H0 H1 H2 H3. unfold check_segment_pair.
  destruct (check_temporal_overlap_timestamped _ _ _ _ H0 H1 H2 H3) as [b ->].
  simpl. destruct b; [|discriminate].
  destruct (_find_intersection A0 A1 B0 B1) as [p|]; [|discriminate].
  apply bind_not_raise;
    [apply calculate_conflict_time_not_TypeError; assumption|]. intros t.
  apply bind_not_raise; [apply calculate_distance_not_TypeError|]. intros d.
  destruct (d <? safety_buffer self)%float; discriminate.
Qed.

Lemma for_each_returns {A B : Type} (f : A -> result (list B)) (l : list A) :
  (forall a, In a l -> exists r, f a = Ok r) -> exists rs, for_each f l = Ok rs.
Proof.
  induction l as [|a l IH]; intros H; simpl; [eexists; reflexivity|].
  destruct (H a (or_introl eq_refl)) as [r ->].
  destruct IH as [rs ->]; [intros b Hb; apply H; right; exact Hb|].
  eexists; reflexivity.
Qed.

Lemma segments_timestamped (wps : list Waypoint) (a b : Waypoint) :
  forallb has_timestamp wps = true -> In (a, b) (segments wps) ->
  has_timestamp a = true /\ has_timestamp b = true.
Proof.
  intros H Hin. rewrite forallb_forall in H.
  apply segments_In in Hin as [Ha Hb]. auto.
Qed.

Lemma check_mission_status {L : Libm} (self : ConflictDetector) (p : Mission)
    (others : list Mission) :
  check_mission self p others
  = (cs <- for_each (_check_mission_pair self p) others ;; Ok (status_of cs, cs)).
Proof.
  unfold check_mission.
  destruct (for_each (_check_mission_pair self p) others) as [[|c cs]|e];
    reflexivity.
Qed.

Lemma check_mission_pair_short {L : Libm} (self : ConflictDetector) (m1 m2 : Mission) :
  (List.length (waypoints m2) < 2)%nat -> _check_mission_pair self m1 m2 = Ok [].
Proof.
  intros H. unfold _check_mission_pair.
  assert (E : segments (waypoints m2) = []).
  { destruct (waypoints m2) as [|a [|b l]]; try reflexivity. simpl in H. lia. }
  rewrite E. apply for_each_all_nil. reflexivity.
Qed.

Lemma check_mission_pair_untimed {L : Libm} (self : ConflictDetector) (m1 m2 : Mission)
    (A0 A1 : Waypoint) (rest : list Waypoint) :
  waypoints m1 = A0 :: A1 :: rest -> timestamp A1 = None ->
  (2 <= List.length (waypoints m2))%nat ->
  _check_mission_pair self m1 m2 = Raise TypeError.
Proof.
  intros H1 Ht H2. unfold _check_mission_pair. rewrite H1.
  destruct (waypoints m2) as [|B0 [|B1 l]]; try (simpl in H2; lia).
  change (segments (A0 :: A1 :: rest)) with ((A0, A1) :: segments (A1 :: rest)).
  change (segments (B0 :: B1 :: l)) with ((B0, B1) :: segments (B1 :: l)).
  cbn [for_each fst snd]. unfold check_segment_pair at 1.
  unfold _check_temporal_overlap. rewrite Ht. reflexivity.
Qed.

(** The first trajectory that has a segment makes the loop over the other
    trajectories raise, when the second waypoint of the primary trajectory
    has no timestamp. *)
Lemma for_each_pair_untimed {L : Libm} (self : ConflictDetector) (p : Mission)
    (others : list Mission) (A0 A1 : Waypoint) (rest : list Waypoint) :
  waypoints p = A0 :: A1 :: rest ->
  timestamp A1 = None ->
  (exists o, In o others /\ (2 <= List.length (waypoints o))%nat) ->
  for_each (_check_mission_pair self p) others = Raise TypeError.
Proof.
  intros Hp Ht (o & Ho & Hlen).
  induction others as [|o' others IH]; [destruct Ho|]. cbn [for_each].
  destruct (Nat.le_gt_cases 2 (List.length (waypoints o'))) as [H2|H2].
  - rewrite (check_mission_pair_untimed self p o' _ _ _ Hp Ht H2). reflexivity.
  - rewrite (check_mission_pair_short self p o' H2). cbn [bind].
    destruct Ho as [->|Ho]; [lia|]. rewrite (IH Ho). reflexivity.
Qed.

(** What a segment pair that raises has gone through. *)
Lemma check_segment_pair_Raise {L : Libm}
    (self : ConflictDetector) (m1 m2 : Mission) (A0 A1 B0 B1 : Waypoint) (e : exn) :
  check_segment_pair self m1 m2 A0 A1 B0 B1 = Raise e ->
  _check_temporal_overlap A0 A1 B0 B1 = Raise e \/
  (_check_temporal_overlap A0 A1 B0 B1 = Ok true /\
   exists p, _find_intersection A0 A1 B0 B1 = Some p /\
     (_calculate_conflict_time A0 A1 B0 B1 p = Raise e \/
      ((exists t, _calculate_conflict_time A0 A1 B0 B1 p = Ok t) /\
       _calculate_distance A0 B0 p = Raise e))).
Proof.
  unfold check_segment_pair. intros H.
  apply bind_Raise in H as [H|(b & Hb & H)]; [left; exact H|]. right.
  destruct b; [|discriminate]. split; [exact Hb|].
  destruct (_find_intersection A0 A1 B0 B1) as [p|]; [|discriminate].
  exists p. split; [reflexivity|].
  apply bind_Raise in H as [H|(t & Ht & H)]; [left; exact H|]. right.
  split; [exists t; exact Ht|].
  apply bind_Raise in H as [H|(d & Hd & H)]; [exact H|].
  destruct (d <? safety_buffer self)%float; discriminate.
Qed.

(** A segment pair that returns has computed a conflict time and a distance
    for its intersection point, when it overlaps in time and has one. *)
Lemma check_segment_pair_Ok {L : Libm}
    (self : ConflictDetector) (m1 m2 : Mission) (A0 A1 B0 B1 : Waypoint)
    (r : list Conflict) (p : float * float) :
  check_segment_pair self m1 m2 A0 A1 B0 B1 = Ok r ->
  _check_temporal_overlap A0 A1 B0 B1 = Ok true ->
  _find_intersection A0 A1 B0 B1 = Some p ->
  raises (_calculate_conflict_time A0 A1 B0 B1 p) = false /\
  raises (_calculate_distance A0 B0 p) = false.
Proof.
  unfold check_segment_pair. intros H Ho Hp. rewrite Ho in H. cbn [bind] in H.
  rewrite Hp in H.
  destruct (_calculate_conflict_time A0 A1 B0 B1 p) as [t|]; [|discriminate].
  destruct (_calculate_distance A0 B0 p) as [d|]; [|discriminate].
  split; reflexivity.
Qed.

(** A pair of timestamped segments returns a result as soon as the
    conflict-time and distance computations of its intersection point do,
    when it overlaps in time. *)
Lemma check_segment_pair_returns_overlap {L : Libm}
    (self : ConflictDetector) (m1 m2 : Mission) (A0 A1 B0 B1 : Waypoint) :
  has_timestamp A0 = true -> has_timestamp A1 = true ->
  has_timestamp B0 = true -> has_timestamp B1 = true ->
  (forall p, _check_temporal_overlap A0 A1 B0 B1 = Ok true ->
     _find_intersection A0 A1 B0 B1 = Some p ->
     raises (_calculate_conflict_time A0 A1 B0 B1 p) = false /\
     raises (_calculate_distance A0 B0 p) = false) ->
  exists cs, check_segment_pair self m1 m2 A0 A1 B0 B1 = Ok cs.
Proof.
  intros H0 H1 H2 H3 Hp. unfold check_segment_pair.
  destruct (check_temporal_overlap_timestamped _ _ _ _ H0 H1 H2 H3) as [b Hb].
  rewrite Hb. simpl. destruct b; [|eexists; reflexivity].
  destruct (_find_intersection A0 A1 B0 B1) as [p|]; [|eexists; reflexivity].
  destruct (Hp p Hb eq_refl) as [Ht Hd].
  destruct (_calculate_conflict_time A0 A1 B0 B1 p) as [t|]; [|discriminate].
  destruct (_calculate_distance A0 B0 p) as [d|]; [|discriminate].
  simpl. destruct (d <? safety_buffer self)%float; eexists; reflexivity.
Qed.

(** C2, amended: when every waypoint of the primary trajectory and of the
    other trajectories carries a timestamp, [check_mission] never raises
    TypeError; it returns a (status, conflicts) result exactly when, for
    every pair of a primary segment and a segment of another trajectory that
    overlaps in time and has an intersection point, the conflict-time and
    the distance computations both return; and when it raises, the error is
    an OverflowError or a ValueError that one of these two computations
    raises on such a pair. Without timestamps the totality fails: when the
    primary trajectory has at least two waypoints, none of them with a
    timestamp, and one of the other trajectories has at least two waypoints,
    [check_mission] raises TypeError. *)
Theorem check_mission_timestamped {L : Libm}
    (self : ConflictDetector) (primary : Mission) (others : list Mission) :
  (forallb has_timestamp (waypoints primary) = true ->
   (forall o, In o others -> forallb has_timestamp (waypoints o) = true) ->
   check_mission self primary others <> Raise TypeError /\
   ((exists status conflicts,
       check_mission self primary others = Ok (status, conflicts)) <->
    (forall o A0 A1 B0 B1 p,
       In o others ->
       In (A0, A1) (segments (waypoints primary)) ->
       In (B0, B1) (segments (waypoints o)) ->
       _check_temporal_overlap A0 A1 B0 B1 = Ok true ->
       _find_intersection A0 A1 B0 B1 = Some p ->
       raises (_calculate_conflict_time A0 A1 B0 B1 p) = false /\
       raises (_calculate_distance A0 B0 p) = false)) /\
   (forall e, check_mission self primary others = Raise e ->
      (e = OverflowError \/ e = ValueError) /\
      exists o A0 A1 B0 B1 p,
        In o others /\
        In (A0, A1) (segments (waypoints primary)) /\
        In (B0, B1) (segments (waypoints o)) /\
        _check_temporal_overlap A0 A1 B0 B1 = Ok true /\
        _find_intersection A0 A1 B0 B1 = Some p /\
        (_calculate_conflict_time A0 A1 B0 B1 p = Raise e \/
         ((exists t, _calculate_conflict_time A0 A1 B0 B1 p = Ok t) /\
          _calculate_distance A0 B0 p = Raise e)))) /\
  (Forall (fun w => timestamp w = None) (waypoints primary) ->
   (2 <= List.length (waypoints primary))%nat ->
   (exists o, In o others /\ (2 <= List.length (waypoints o))%nat) ->
   check_mission self primary others = Raise TypeError).
Proof.
  split.
  - intros Hp Ho.
    assert (T : forall o A0 A1 B0 B1, In o others ->
              In (A0, A1) (segments (waypoints primary)) ->
              In (B0, B1) (segments (waypoints o)) ->
              has_timestamp A0 = true /\ has_timestamp A1 = true /\
              has_timestamp B0 = true /\ has_timestamp B1 = true).
    { intros o A0 A1 B0 B1 Hin HA HB.
      destruct (segments_timestamped _ _ _ Hp HA).
      destruct (segments_timestamped _ _ _ (Ho o Hin) HB). auto. }
    assert (O : forall e, check_mission self primary others = Raise e ->
              exists o A0 A1 B0 B1,
                In o others /\ In (A0, A1) (segments (waypoints primary)) /\
                In (B0, B1) (segments (waypoints o)) /\
                check_segment_pair self primary o A0 A1 B0 B1 = Raise e).
    { intros e H. rewrite check_mission_status in H.
      apply bind_Raise in H as [H|(cs & _ & H)]; [|discriminate].
      apply for_each_Raise in H as (o & Hin & H). unfold _check_mission_pair in H.
      apply for_each_Raise in H as ([A0 A1] & HA & H).
      apply for_each_Raise in H as ([B0 B1] & HB & H). cbn [fst snd] in H.
      exists o, A0, A1, B0, B1. auto. }
    assert (N : check_mission self primary others <> Raise TypeError).
    { intros H. destruct (O _ H) as (o & A0 & A1 & B0 & B1 & Hin & HA & HB & Hr).
      destruct (T o A0 A1 B0 B1 Hin HA HB) as (H0 & H1 & H2 & H3).
      exact (check_segment_pair_not_TypeError self primary o _ _ _ _ H0 H1 H2 H3 Hr). }
    split; [exact N|]. split; [split|].
    + intros (status & cs & H) o A0 A1 B0 B1 p Hin HA HB Hov Hfi.
      rewrite check_mission_status in H.
      apply bind_Ok in H as (cs' & H & _).
      destruct (for_each_each_Ok _ _ _ o H Hin) as [r Hr].
      unfold _check_mission_pair in Hr.
      destruct (for_each_each_Ok _ _ _ (A0, A1) Hr HA) as [r' Hr'].
      destruct (for_each_each_Ok _ _ _ (B0, B1) Hr' HB) as [r'' Hr''].
      cbn [fst snd] in Hr''.
      exact (check_segment_pair_Ok _ _ _ _ _ _ _ _ _ Hr'' Hov Hfi).
    + intros Hr. rewrite check_mission_status.
      destruct (for_each_returns (_check_mission_pair self primary) others)
        as [cs ->].
      * intros o Hin. unfold _check_mission_pair.
        apply for_each_returns. intros [A0 A1] HA.
        apply for_each_returns. intros [B0 B1] HB. cbn [fst snd].
        destruct (T o A0 A1 B0 B1 Hin HA HB) as (H0 & H1 & H2 & H3).
        apply check_segment_pair_returns_overlap; try assumption.
        intros p Hov Hfi. apply (Hr o A0 A1 B0 B1 p); assumption.
      * simpl. eauto.
    + intros e H.
      assert (He : e = OverflowError \/ e = ValueError).
      { destruct e; auto. exfalso. exact (N H). }
      split; [exact He|].
      destruct (O _ H) as (o & A0 & A1 & B0 & B1 & Hin & HA & HB & Hr).
      destruct (T o A0 A1 B0 B1 Hin HA HB) as (H0 & H1 & H2 & H3).
      apply check_segment_pair_Raise in Hr as [Hr|(Hov & p & Hfi & Hc)].
      * exfalso.
        destruct (check_temporal_overlap_timestamped _ _ _ _ H0 H1 H2 H3) as [b Hb].
        congruence.
      * exists o, A0, A1, B0, B1, p. auto 10.
  - intros Hnone Hlen Ho.
    destruct (waypoints primary) as [|A0 [|A1 rest]] eqn:Hw;
      try (simpl in Hlen; lia).
    rewrite check_mission_status.
    rewrite (for_each_pair_untimed self primary others A0 A1 rest Hw); auto.
    inversion Hnone as [|? ? _ Hrest]. inversion Hrest as [|? ? H1 _]. exact H1.
Qed.

(** The crossing scenario, whose waypoints all carry a timestamp, returns a
    result; the trajectories without timestamps raise TypeError. *)
Lemma check_mission_timestamped_witness :
  let L := rounded_libm in
  forallb has_timestamp (waypoints crossing_primary) = true /\
  forallb has_timestamp (waypoints crossing_other) = true /\
  check_mission detector50 crossing_primary [crossing_other] <> Raise TypeError /\
  check_mission detector50 crossing_primary [crossing_other]
    = Ok ("conflict detected"%string,
          [mkConflict (20%float, 20%float) (at_time 10 5 0) "primary" "other" 40]) /\
  Forall (fun w => timestamp w = None) (waypoints untimed_primary) /\
  check_mission detector50 untimed_primary [untimed_other] = Raise TypeError.
Proof.
  intros L.
  split; [reflexivity|]. split; [reflexivity|].
  split.
  { apply (proj1 (check_mission_timestamped (L := L) detector50 crossing_primary
                    [crossing_other])).
    - reflexivity.
    - intros o [<-|[]]. reflexivity. }
  split; [vm_compute; reflexivity|].
  assert (F : Forall (fun w => timestamp w = None) (waypoints untimed_primary))
    by (repeat constructor).
  split; [exact F|].
  apply (proj2 (check_mission_timestamped (L := L) detector50 untimed_primary
                  [untimed_other]) F).
  - simpl. lia.
  - exists untimed_other. split; [left; reflexivity|]. simpl. lia.
Defined.

(** C2 fails on the code: two trajectories whose waypoints have no timestamp
    are built by the constructors, and [check_mission] raises TypeError on
    them, whatever the libm. *)
Lemma check_mission_raises_without_timestamps :
  new_Waypoint 0 0 None None = Ok (mkWaypoint 0 0 None None) /\
  new_Waypoint 10 10 None None = Ok (mkWaypoint 10 10 None None) /\
  new_Waypoint 0 10 None None = Ok (mkWaypoint 0 10 None None) /\
  new_Waypoint 10 0 None None = Ok (mkWaypoint 10 0 None None) /\
  new_Mission (waypoints untimed_primary) day_start day_end "primary"
    = Ok untimed_primary /\
  new_Mission (waypoints untimed_other) day_start day_end "other"
    = Ok untimed_other /\
  forall L : Libm,
    check_mission detector50 untimed_primary [untimed_other] = Raise TypeError.
Proof.
  repeat (split; [vm_compute; reflexivity|]). intros L. vm_compute. reflexivity.
Qed.

(** ** Zero-length segments *)

Lemma is_nan_spec (f : float) : Prim2SF f = S754_nan -> is_nan f = true.
Proof.
  intros H. unfold is_nan. rewrite eqb_spec, H. reflexivity.
Qed.

Lemma zero_or_nan_cases (f : float) :
  zero_or_nan f -> (f =? 0)%float = true \/ is_nan f = true.
Proof.
  intros [[s H]|H].
  - left. apply (eqb_zero _ _ H).
  - right. apply is_nan_spec, H.
Qed.

Lemma zero_length_denominator (A0 A1 B0 B1 : Waypoint) :
  (x A0 = x A1 /\ y A0 = y A1) \/ (x B0 = x B1 /\ y B0 = y B1) ->
  zero_or_nan (denominator A0 A1 B0 B1).
Proof.
  unfold denominator. intros [[Hx Hy]|[Hx Hy]]; rewrite Hx, Hy.
  - apply sub_zero_or_nan; apply mul_zero_or_nan_l, sub_diag_zero_or_nan.
  - apply sub_zero_or_nan; apply mul_zero_or_nan_r, sub_diag_zero_or_nan.
Qed.

(** A denominator that is a zero or NaN gives no intersection point: a zero
    takes the parallel branch, and NaN makes [t] NaN, which fails [0 <= t]. *)
Lemma find_intersection_zero_or_nan (A0 A1 B0 B1 : Waypoint) :
  zero_or_nan (denominator A0 A1 B0 B1) -> _find_intersection A0 A1 B0 B1 = None.
Proof.
  intros [[s H]|H].
  - apply find_intersection_denominator, (eqb_zero _ _ H).
  - unfold _find_intersection. cbn [fst snd].
    fold (denominator A0 A1 B0 B1).
    rewrite (eqb_nan_l _ _ H).
    rewrite (leb_nan_r 0 _ (div_nan_r _ _ H)). reflexivity.
Qed.

(** C10, amended: a pair of segments one of which has zero length (start and
    end waypoints with the same [x] and the same [y]) has a denominator that
    compares equal to 0, or is NaN (which happens when a coordinate is
    infinite or NaN); either way no intersection point is found and the pair
    emits no conflict. Hence a pair that emits a conflict has a primary
    segment, and another segment, whose end waypoints differ. *)
Theorem zero_length_segment_no_conflict {L : Libm} :
  (forall (self : ConflictDetector) (m1 m2 : Mission) (A0 A1 B0 B1 : Waypoint),
      (x A0 = x A1 /\ y A0 = y A1) \/ (x B0 = x B1 /\ y B0 = y B1) ->
      ((denominator A0 A1 B0 B1 =? 0)%float = true \/
       is_nan (denominator A0 A1 B0 B1) = true) /\
      _find_intersection A0 A1 B0 B1 = None /\
      check_segment_pair self m1 m2 A0 A1 B0 B1
        = (_ <- _check_temporal_overlap A0 A1 B0 B1 ;; Ok []) /\
      (forall c cs, check_segment_pair self m1 m2 A0 A1 B0 B1 <> Ok (c :: cs))) /\
  (forall (self : ConflictDetector) (m1 m2 : Mission) (A0 A1 B0 B1 : Waypoint)
          (c : Conflict) (cs : list Conflict),
      check_segment_pair self m1 m2 A0 A1 B0 B1 = Ok (c :: cs) ->
      ~ (x A0 = x A1 /\ y A0 = y A1) /\ ~ (x B0 = x B1 /\ y B0 = y B1)).
Proof.
  assert (P : forall self m1 m2 A0 A1 B0 B1,
    (x A0 = x A1 /\ y A0 = y A1) \/ (x B0 = x B1 /\ y B0 = y B1) ->
    check_segment_pair self m1 m2 A0 A1 B0 B1
      = (_ <- _check_temporal_overlap A0 A1 B0 B1 ;; Ok [])).
  { intros self m1 m2 A0 A1 B0 B1 H. unfold check_segment_pair.
    rewrite (find_intersection_zero_or_nan _ _ _ _
               (zero_length_denominator _ _ _ _ H)).
    destruct (_check_temporal_overlap A0 A1 B0 B1) as [[|]|e]; reflexivity. }
  assert (Q : forall self m1 m2 A0 A1 B0 B1 c cs,
    (x A0 = x A1 /\ y A0 = y A1) \/ (x B0 = x B1 /\ y B0 = y B1) ->
    check_segment_pair self m1 m2 A0 A1 B0 B1 <> Ok (c :: cs)).
  { intros self m1 m2 A0 A1 B0 B1 c cs H. rewrite (P _ _ _ _ _ _ _ H).
    destruct (_check_temporal_overlap A0 A1 B0 B1); simpl; discriminate. }
  split.
  - intros self m1 m2 A0 A1 B0 B1 H.
    pose proof (zero_length_denominator _ _ _ _ H) as Z.
    split; [apply zero_or_nan_cases, Z|].
    split; [apply find_intersection_zero_or_nan, Z|].
    split; [apply P, H|]. intros c cs. apply Q, H.
  - intros self m1 m2 A0 A1 B0 B1 c cs E.
    split; intros H; apply (Q self m1 m2 A0 A1 B0 B1 c cs); auto.
Qed.

(** A hovering primary drone (twice the same waypoint) right on the path of
    another one: no intersection, no conflict. *)
Lemma zero_length_segment_no_conflict_witness :
  let L := rounded_libm in
  (x (wp 20 20 (at_time 10 0 0)) = x (wp 20 20 (at_time 10 10 0)) /\
   y (wp 20 20 (at_time 10 0 0)) = y (wp 20 20 (at_time 10 10 0))) /\
  _find_intersection (wp 20 20 (at_time 10 0 0)) (wp 20 20 (at_time 10 10 0))
    (wp 0 40 (at_time 10 0 0)) (wp 40 0 (at_time 10 10 0)) = None.
Proof.
  intros L.
  split; [split; reflexivity|].
  exact (proj1 (proj2 (proj1 (zero_length_segment_no_conflict (L := L)) detector50
    crossing_primary crossing_other
    (wp 20 20 (at_time 10 0 0)) (wp 20 20 (at_time 10 10 0))
    (wp 0 40 (at_time 10 0 0)) (wp 40 0 (at_time 10 10 0))
    (or_introl (conj eq_refl eq_refl))))).
Defined.

(** C10 fails on the code. The primary segment below is 2^-600 long: its
    end waypoints differ and it crosses the other segment, but the square of
    its length underflows to 0 (on every libm whose [pow] returns 0 for the
    squares of 2^-600 and of 2^-601, as a correctly rounded one does), so
    the conflict-time computation takes the branch where the fraction is 0,
    and the pair does emit a conflict. And a zero-length segment whose [x]
    is infinite, which the Waypoint constructor accepts, has a NaN
    denominator, not a zero one. *)
Lemma zero_fraction_branch_reached :
  new_Mission (waypoints tiny_primary) day_start day_end "primary"
    = Ok tiny_primary /\
  new_Mission (waypoints tiny_other) day_start day_end "other"
    = Ok tiny_other /\
  x (wp 0 1 (at_time 10 0 0)) <> x (wp 0x1p-600 1 (at_time 10 10 0)) /\
  libm_pow (Libm := rounded_libm) 0x1p-600 2 = 0%float /\
  libm_pow (Libm := rounded_libm) 0x1p-601 2 = 0%float /\
  (forall L : Libm,
     libm_pow 0x1p-600 2 = 0%float -> libm_pow 0x1p-601 2 = 0%float ->
     total_dist (wp 0 1 (at_time 10 0 0)) (wp 0x1p-600 1 (at_time 10 10 0))
       = Ok 0%float /\
     check_segment_pair detector50 tiny_primary tiny_other
       (wp 0 1 (at_time 10 0 0)) (wp 0x1p-600 1 (at_time 10 10 0))
       (wp 0x1p-601 0 (at_time 10 0 0)) (wp 0x1p-601 2 (at_time 10 10 0))
       = Ok [mkConflict (0x1p-601%float, 1%float) (at_time 10 0 0)
               "primary" "other" 1] /\
     check_mission detector50 tiny_primary [tiny_other]
       = Ok ("conflict detected"%string,
             [mkConflict (0x1p-601%float, 1%float) (at_time 10 0 0)
                "primary" "other" 1])) /\
  (0 <? 0)%float = false /\
  new_Waypoint infinity 0 None (Some (at_time 10 0 0))
    = Ok (wp infinity 0 (at_time 10 0 0)) /\
  (denominator (wp infinity 0 (at_time 10 0 0)) (wp infinity 0 (at_time 10 10 0))
     (wp 0 40 (at_time 10 0 0)) (wp 40 0 (at_time 10 10 0)) =? 0)%float = false.
Proof.
  split; [vm_compute; reflexivity|].
  split; [vm_compute; reflexivity|].
  split.
  { intros H. apply (f_equal (fun f => (f =? 0)%float)) in H.
    vm_compute in H. discriminate H. }
  split; [vm_compute; reflexivity|].
  split; [vm_compute; reflexivity|].
  split; [|repeat (split; [vm_compute; reflexivity|]); vm_compute; reflexivity].
  intros L H600 H601.
  assert (E600 : pow2 0x1p-600 = Ok 0%float).
  { rewrite (pow2_libm 0x1p-600) by reflexivity.
    replace (abs 0x1p-600) with 0x1p-600%float by (vm_compute; reflexivity).
    rewrite H600. reflexivity. }
  assert (E601 : pow2 0x1p-601 = Ok 0%float).
  { rewrite (pow2_libm 0x1p-601) by reflexivity.
    replace (abs 0x1p-601) with 0x1p-601%float by (vm_compute; reflexivity).
    rewrite H601. reflexivity. }
  assert (N601 : pow2 (-0x1p-601) = Ok 0%float).
  { rewrite (pow2_libm (-0x1p-601)) by reflexivity.
    replace (abs (-0x1p-601)) with 0x1p-601%float by (vm_compute; reflexivity).
    rewrite H601. reflexivity. }
  assert (T : total_dist (wp 0 1 (at_time 10 0 0)) (wp 0x1p-600 1 (at_time 10 10 0))
              = Ok 0%float).
  { unfold total_dist. cbn [x y wp].
    replace (0x1p-600 - 0)%float with 0x1p-600%float by (vm_compute; reflexivity).
    rewrite E600. reflexivity. }
  assert (C : check_segment_pair detector50 tiny_primary tiny_other
       (wp 0 1 (at_time 10 0 0)) (wp 0x1p-600 1 (at_time 10 10 0))
       (wp 0x1p-601 0 (at_time 10 0 0)) (wp 0x1p-601 2 (at_time 10 10 0))
       = Ok [mkConflict (0x1p-601%float, 1%float) (at_time 10 0 0)
               "primary" "other" 1]).
  { unfold check_segment_pair.
    replace (_check_temporal_overlap (wp 0 1 (at_time 10 0 0))
               (wp 0x1p-600 1 (at_time 10 10 0)) (wp 0x1p-601 0 (at_time 10 0 0))
               (wp 0x1p-601 2 (at_time 10 10 0)))
      with (Ok true) by (vm_compute; reflexivity).
    cbn [bind].
    replace (_find_intersection (wp 0 1 (at_time 10 0 0))
               (wp 0x1p-600 1 (at_time 10 10 0)) (wp 0x1p-601 0 (at_time 10 0 0))
               (wp 0x1p-601 2 (at_time 10 10 0)))
      with (Some (0x1p-601%float, 1%float)) by (vm_compute; reflexivity).
    unfold _calculate_conflict_time. rewrite T. cbn [bind fst snd x y wp timestamp].
    replace (0x1p-601 - 0)%float with 0x1p-601%float by (vm_compute; reflexivity).
    replace (1 - 1)%float with 0%float by (vm_compute; reflexivity).
    rewrite E601. change (pow2 0) with (Ok 0%float). cbn [bind].
    unfold _calculate_distance. cbn [x y wp].
    replace (0 - 0x1p-601)%float with (-0x1p-601)%float by (vm_compute; reflexivity).
    replace (1 - 0)%float with 1%float by (vm_compute; reflexivity).
    rewrite N601. change (pow2 1) with (Ok 1%float). vm_compute. reflexivity. }
  split; [exact T|]. split; [exact C|].
  rewrite check_mission_status. unfold _check_mission_pair.
  cbn [segments waypoints tiny_primary tiny_other for_each fst snd].
  rewrite C. reflexivity.
Qed.

(** ** Further properties of the detector *)

Lemma for_each_app {A B : Type} (f : A -> result (list B)) (l1 l2 : list A) :
  for_each f (l1 ++ l2)
  = (r1 <- for_each f l1 ;; r2 <- for_each f l2 ;; Ok (r1 ++ r2)).
Proof.
  induction l1 as [|a l1 IH]; simpl.
  - destruct (for_each f l2); reflexivity.
  - destruct (f a) as [r|e]; [|reflexivity]. simpl. rewrite IH.
    destruct (for_each f l1) as [r1|e]; [|reflexivity]. simpl.
    destruct (for_each f l2) as [r2|e]; [|reflexivity]. simpl.
    rewrite app_assoc. reflexivity.
Qed.

(** X2: checking a primary trajectory against the concatenation of two lists
    of other trajectories raises the first error of the two separate checks,
    and otherwise returns the conflicts of the first list followed by those
    of the second, with status "clear" exactly when both are empty. *)
Theorem check_mission_app {L : Libm} (self : ConflictDetector) (p : Mission)
    (others1 others2 : list Mission) :
  check_mission self p (others1 ++ others2)
  = match check_mission self p others1 with
    | Raise e => Raise e
    | Ok (_, cs1) =>
        match check_mission self p others2 with
        | Raise e => Raise e
        | Ok (_, cs2) => Ok (status_of (cs1 ++ cs2), cs1 ++ cs2)
        end
    end.
Proof.
  rewrite !check_mission_status, for_each_app.
  destruct (for_each (_check_mission_pair self p) others1) as [cs1|e];
    [|reflexivity].
  destruct (for_each (_check_mission_pair self p) others2) as [cs2|e];
    reflexivity.
Qed.

(** X3: every conflict [check_mission] returns names the primary drone and
    one of the other trajectories, and it is one of the conflicts that
    [_check_mission_pair] returns for that trajectory; and the status is
    "clear" exactly when the list of conflicts is empty. *)
Theorem conflicts_are_tagged {L : Libm} (self : ConflictDetector) (p : Mission)
    (others : list Mission) (status : string) (cs : list Conflict) :
  check_mission self p others = Ok (status, cs) ->
  (status = "clear"%string <-> cs = []) /\
  (status = "conflict detected"%string <-> cs <> []) /\
  forall c, In c cs ->
    primary_drone c = drone_id p /\
    exists o cs', In o others /\ _check_mission_pair self p o = Ok cs' /\
                  In c cs' /\ conflicting_drone c = drone_id o.
Proof.
  rewrite check_mission_status. intros H.
  apply bind_Ok in H as (cs0 & Hcs & H). injection H as <- <-.
  split; [|split].
  - destruct cs0; split; intros H; try reflexivity; discriminate.
  - destruct cs0; split; intros H; try reflexivity; try discriminate.
    exfalso. apply H. reflexivity.
  - intros c Hc.
    destruct (for_each_In _ _ _ _ Hcs Hc) as (o & cs' & Ho & Hp & Hc').
    pose proof Hp as Hp'. unfold _check_mission_pair in Hp'.
    destruct (for_each_In _ _ _ _ Hp' Hc') as ([A0 A1] & r & HA & Hr & Hcr).
    destruct (for_each_In _ _ _ _ Hr Hcr) as ([B0 B1] & r' & HB & Hr' & Hcr').
    destruct (check_segment_pair_In _ _ _ _ _ _ _ _ _ Hr' Hcr')
      as (_ & _ & _ & _ & _ & _ & H1 & H2).
    split; [exact H1|]. exists o, cs'. auto.
Qed.

Lemma conflicts_are_tagged_witness :
  let L := rounded_libm in
  check_mission detector50 crossing_primary [parallel_other; crossing_other]
    = Ok ("conflict detected"%string,
          [mkConflict (20%float, 20%float) (at_time 10 5 0) "primary" "other" 40]) /\
  forall c,
    In c [mkConflict (20%float, 20%float) (at_time 10 5 0) "primary" "other" 40] ->
    primary_drone c = drone_id crossing_primary /\
    exists o cs', In o [parallel_other; crossing_other] /\
                  _check_mission_pair detector50 crossing_primary o = Ok cs' /\
                  In c cs' /\ conflicting_drone c = drone_id o.
Proof.
  intros L.
  assert (E : check_mission detector50 crossing_primary [parallel_other; crossing_other]
    = Ok ("conflict detected"%string,
          [mkConflict (20%float, 20%float) (at_time 10 5 0) "primary" "other" 40]))
    by (vm_compute; reflexivity).
  split; [exact E|].
  exact (proj2 (proj2 (conflicts_are_tagged (L := L) _ _ _ _ _ E))).
Defined.

Lemma check_segment_pair_length {L : Libm} (self : ConflictDetector) (m1 m2 : Mission)
    (A0 A1 B0 B1 : Waypoint) (cs : list Conflict) :
  check_segment_pair self m1 m2 A0 A1 B0 B1 = Ok cs -> (List.length cs <= 1)%nat.
Proof.
  destruct cs as [|c cs]; [simpl; lia|]. intros H.
  destruct (check_segment_pair_In _ _ _ _ _ _ _ _ c H (or_introl eq_refl))
    as (E & _). injection E as ->. simpl. lia.
Qed.

Lemma for_each_length {A B : Type} (f : A -> result (list B)) (l : list A)
    (n : nat) (rs : list B) :
  (forall a r, In a l -> f a = Ok r -> (List.length r <= n)%nat) ->
  for_each f l = Ok rs -> (List.length rs <= List.length l * n)%nat.
Proof.
  intros Hf. revert rs. induction l as [|a l IH]; simpl; intros rs H.
  - injection H as <-. simpl. lia.
  - apply bind_Ok in H as (r & Hr & H).
    apply bind_Ok in H as (rs' & Hrs & H). injection H as <-.
    rewrite length_app.
    pose proof (Hf a r (or_introl eq_refl) Hr).
    assert (List.length rs' <= List.length l * n)%nat.
    { apply IH; [|exact Hrs]. intros b r' Hb. apply Hf. right. exact Hb. }
    lia.
Qed.

(** X4: a pair of trajectories yields at most one conflict per pair of
    segments: at most [(len(waypoints1) - 1) * (len(waypoints2) - 1)]
    conflicts. *)
Theorem conflicts_at_most_one_per_segment_pair {L : Libm}
    (self : ConflictDetector) (m1 m2 : Mission) (cs : list Conflict) :
  _check_mission_pair self m1 m2 = Ok cs ->
  (List.length cs <= pair_count m1 m2)%nat.
Proof.
  unfold _check_mission_pair, pair_count. intros H.
  rewrite <- !segments_length.
  apply (for_each_length _ _ _ _) with (2 := H).
  intros [A0 A1] r _ Hr.
  apply (for_each_length _ _ 1%nat _) in Hr; [lia|].
  intros [B0 B1] r' _ Hr'. cbn [fst snd] in Hr'.
  apply (check_segment_pair_length _ _ _ _ _ _ _ _ Hr').
Qed.

Lemma conflicts_at_most_one_per_segment_pair_witness :
  let L := rounded_libm in
  _check_mission_pair detector50 crossing_primary crossing_other
    = Ok [mkConflict (20%float, 20%float) (at_time 10 5 0) "primary" "other" 40] /\
  (List.length [mkConflict (20%float, 20%float) (at_time 10 5 0) "primary" "other" 40]
     <= pair_count crossing_primary crossing_other)%nat.
Proof.
  intros L.
  assert (E : _check_mission_pair detector50 crossing_primary crossing_other
    = Ok [mkConflict (20%float, 20%float) (at_time 10 5 0) "primary" "other" 40])
    by (vm_compute; reflexivity).
  split; [exact E|].
  exact (conflicts_at_most_one_per_segment_pair (L := L) _ _ _ _ E).
Defined.

(** X5: when the primary trajectory has at least two waypoints and its
    second waypoint has no timestamp (in particular when none of its
    waypoints has one), [check_mission] raises TypeError as soon as one of
    the other trajectories has at least two waypoints. *)
Theorem missing_timestamp_raises {L : Libm} (self : ConflictDetector) (p : Mission)
    (others : list Mission) (A0 A1 : Waypoint) (rest : list Waypoint) :
  waypoints p = A0 :: A1 :: rest ->
  timestamp A1 = None ->
  (exists o, In o others /\ (2 <= List.length (waypoints o))%nat) ->
  check_mission self p others = Raise TypeError.
Proof.
  intros Hp Ht Ho. rewrite check_mission_status.
  rewrite (for_each_pair_untimed self p others A0 A1 rest Hp Ht Ho). reflexivity.
Qed.

Lemma missing_timestamp_raises_witness :
  let L := rounded_libm in
  waypoints untimed_primary
    = [mkWaypoint 0 0 None None; mkWaypoint 10 10 None None] /\
  check_mission detector50 untimed_primary [head_on_other] = Raise TypeError.
Proof.
  intros L.
  split; [reflexivity|].
  apply (missing_timestamp_raises (L := L) detector50 untimed_primary [head_on_other]
           (mkWaypoint 0 0 None None) (mkWaypoint 10 10 None None) []).
  - reflexivity.
  - reflexivity.
  - exists head_on_other. split; [left; reflexivity|]. simpl. lia.
Defined.

Lemma check_segment_pair_same {L : Libm}
    (self : ConflictDetector) (m1 m1' m2 m2' : Mission)
    (A0 A1 B0 B1 A0' A1' B0' B1' : Waypoint) :
  drone_id m1 = drone_id m1' -> drone_id m2 = drone_id m2' ->
  same_xyt A0 A0' -> same_xyt A1 A1' -> same_xyt B0 B0' -> same_xyt B1 B1' ->
  check_segment_pair self m1 m2 A0 A1 B0 B1
  = check_segment_pair self m1' m2' A0' A1' B0' B1'.
Proof.
  unfold same_xyt. intros E1 E2 (a & b & c) (d & e & f) (g & h & i) (j & k & l).
  unfold check_segment_pair, _check_temporal_overlap, _find_intersection,
    _calculate_conflict_time, total_dist, _calculate_distance.
  rewrite E1, E2, a, b, c, d, e, f, g, h, i, j, k, l. reflexivity.
Qed.

Lemma segments_Forall2 (l l' : list Waypoint) :
  Forall2 same_xyt l l' ->
  Forall2 (fun s s' => same_xyt (fst s) (fst s') /\ same_xyt (snd s) (snd s'))
    (segments l) (segments l').
Proof.
  intros H. induction H as [|a a' l l' Ha Hl IH]; [constructor|].
  destruct Hl as [|b b' l l' Hb Hl]; [constructor|].
  change (segments (a :: b :: l)) with ((a, b) :: segments (b :: l)).
  change (segments (a' :: b' :: l')) with ((a', b') :: segments (b' :: l')).
  constructor; [split; assumption|exact IH].
Qed.

Lemma for_each_Forall2 {A A' B : Type} (R : A -> A' -> Prop)
    (f : A -> result (list B)) (g : A' -> result (list B))
    (l : list A) (l' : list A') :
  Forall2 R l l' -> (forall a a', R a a' -> f a = g a') ->
  for_each f l = for_each g l'.
Proof.
  intros H Hfg. induction H as [|a a' l l' Ha Hl IH]; [reflexivity|].
  simpl. rewrite (Hfg a a' Ha), IH. reflexivity.
Qed.

(** X6: the detector reads nothing but the drone identifiers and, of every
    waypoint, [x], [y] and [timestamp]. Two inputs that agree on those, and
    differ in the altitudes of their waypoints or in the time windows of
    their trajectories, get the same answer: flying at another altitude
    neither removes nor adds a conflict. *)
Theorem altitude_and_window_are_ignored {L : Libm}
    (self : ConflictDetector) (p p' : Mission) (others others' : list Mission) :
  same_plan p p' -> Forall2 same_plan others others' ->
  check_mission self p others = check_mission self p' others'.
Proof.
  intros [Hid Hp] Ho. unfold check_mission.
  rewrite (for_each_Forall2 same_plan (_check_mission_pair self p)
             (_check_mission_pair self p') others others' Ho); [reflexivity|].
  intros o o' [Hido Hwo]. unfold _check_mission_pair.
  apply (for_each_Forall2 _ _ _ _ _ (segments_Forall2 _ _ Hp)).
  intros [A0 A1] [A0' A1'] [HA0 HA1].
  apply (for_each_Forall2 _ _ _ _ _ (segments_Forall2 _ _ Hwo)).
  intros [B0 B1] [B0' B1'] [HB0 HB1]. cbn [fst snd] in *.
  apply check_segment_pair_same; assumption.
Qed.

(** The crossing scenario with the two drones 990 m apart in altitude and
    other time windows: the same conflict. *)
Lemma altitude_and_window_are_ignored_witness :
  let L := rounded_libm in
  check_mission detector50
    (mkMission [mkWaypoint 0 0 (Some 10%float) (Some (at_time 10 0 0));
                mkWaypoint 40 40 (Some 10%float) (Some (at_time 10 10 0))]
       (at_time 10 0 0) (at_time 10 10 0) "primary")
    [mkMission [mkWaypoint 0 40 (Some 1000%float) (Some (at_time 10 0 0));
                mkWaypoint 40 0 (Some 1000%float) (Some (at_time 10 10 0))]
       (at_time 9 0 0) (at_time 11 0 0) "other"]
  = check_mission detector50 crossing_primary [crossing_other].
Proof.
  intros L.
  apply altitude_and_window_are_ignored.
  - split; [reflexivity|]. repeat constructor.
  - constructor; [|constructor]. split; [reflexivity|]. repeat constructor.
Defined.

(** ** Further properties of the trajectory model *)

Lemma sort_by_timestamp_sorted_id (l : list Waypoint) :
  StronglySorted key_le l -> sort_by_timestamp l = l.
Proof.
  induction l as [|a l IH]; intros Hs; [reflexivity|].
  inversion Hs as [|? ? Hl Ha]; subst. cbn [sort_by_timestamp].
  rewrite (IH Hl). destruct l as [|b l]; [reflexivity|].
  cbn [insert_by_key]. inversion Ha as [|? ? Hab _]; subst.
  unfold key_le in Hab. apply Z.leb_le in Hab. rewrite Hab. reflexivity.
Qed.

Lemma stored_waypoints_idem (wps : list Waypoint) :
  stored_waypoints (stored_waypoints wps) = stored_waypoints wps.
Proof.
  unfold stored_waypoints. destruct (forallb has_timestamp wps) eqn:E.
  - rewrite <- (forallb_perm _ _ _ (sort_by_timestamp_perm wps)), E.
    apply sort_by_timestamp_sorted_id, sort_by_timestamp_sorted.
  - rewrite E. reflexivity.
Qed.

(** X7: a trajectory that was constructed satisfies the invariants of the
    class: it has a waypoint, its window is not empty ([start_time <
    end_time]), and every timestamp of its waypoints lies in the window; and
    running the validation on it again returns it unchanged. *)
Theorem constructed_mission_is_valid
    (wps : list Waypoint) (s e : datetime) (id : string) (m : Mission) :
  new_Mission wps s e id = Ok m ->
  waypoints m <> [] /\
  start_time m < end_time m /\
  (forall w t, In w (waypoints m) -> timestamp w = Some t ->
     start_time m <= t <= end_time m) /\
  List.length (waypoints m) = List.length wps /\
  Mission_post_init m = Ok m.
Proof.
  rewrite new_Mission_unfold. intros H.
  destruct wps as [|w0 wps0]; [discriminate|]. set (wps := w0 :: wps0) in *.
  destruct (e <=? s) eqn:Ees; [discriminate|]. apply Z.leb_gt in Ees.
  destruct (forallb (within_window s e) (stored_waypoints wps)) eqn:Ew;
    [|discriminate].
  injection H as <-. cbn [waypoints start_time end_time].
  assert (Hlen : List.length (stored_waypoints wps) = List.length wps).
  { symmetry. apply Permutation_length, stored_waypoints_perm. }
  split; [|split; [|split; [|split]]].
  - intros K. rewrite K in Hlen. discriminate Hlen.
  - exact Ees.
  - intros w t Hw Ht. rewrite forallb_forall in Ew. specialize (Ew w Hw).
    unfold within_window in Ew. rewrite Ht in Ew.
    apply andb_true_iff in Ew. rewrite !Z.leb_le in Ew. exact Ew.
  - exact Hlen.
  - change (Mission_post_init (mkMission (stored_waypoints wps) s e id))
      with (new_Mission (stored_waypoints wps) s e id).
    rewrite new_Mission_unfold, stored_waypoints_idem, Ew.
    destruct (e <=? s) eqn:K; [apply Z.leb_le in K; lia|].
    destruct (stored_waypoints wps) as [|a l]; [discriminate Hlen|reflexivity].
Qed.

Lemma constructed_mission_is_valid_witness :
  new_Mission [wp 200 100 (at_time 10 10 0); wp 0 100 (at_time 10 0 0)]
    day_start day_end "primary" = Ok head_on_primary /\
  Mission_post_init head_on_primary = Ok head_on_primary.
Proof.
  assert (E : new_Mission [wp 200 100 (at_time 10 10 0); wp 0 100 (at_time 10 0 0)]
    day_start day_end "primary" = Ok head_on_primary) by (vm_compute; reflexivity).
  split; [exact E|].
  exact (proj2 (proj2 (proj2 (proj2
    (constructed_mission_is_valid _ _ _ _ _ E))))).
Defined.

(** X8: the construction keeps the order in which the caller gave the
    waypoints that share a timestamp: for every instant [k], the stored
    waypoints whose timestamp is [k] are the given ones, in the given
    order. *)
Theorem construction_is_stable
    (wps : list Waypoint) (s e : datetime) (id : string) (m : Mission)
    (k : datetime) :
  new_Mission wps s e id = Ok m ->
  filter (at_instant k) (waypoints m) = filter (at_instant k) wps.
Proof.
  rewrite new_Mission_unfold. intros H.
  destruct wps as [|w0 wps0]; [discriminate|]. set (wps := w0 :: wps0) in *.
  destruct (e <=? s); [discriminate|].
  destruct (forallb (within_window s e) (stored_waypoints wps)); [|discriminate].
  injection H as <-. cbn [waypoints]. unfold stored_waypoints.
  destruct (forallb has_timestamp wps) eqn:Ets; [|reflexivity].
  assert (K : forall l, forallb has_timestamp l = true ->
            filter (at_instant k) l = filter (fun a => sort_key a =? k) l).
  { intros l Hl. apply filter_ext_in. intros a Ha.
    rewrite forallb_forall in Hl. specialize (Hl a Ha).
    unfold has_timestamp in Hl. unfold at_instant, sort_key.
    destruct (timestamp a); [reflexivity|discriminate]. }
  rewrite (K wps Ets), K.
  - apply sort_by_timestamp_stable.
  - rewrite <- (forallb_perm _ _ _ (sort_by_timestamp_perm wps)). exact Ets.
Qed.

(** Three waypoints, the last two at the same instant and given after the
    later one: they are moved to the front, in the order given. *)
Lemma construction_is_stable_witness :
  new_Mission [wp 5 5 (at_time 10 10 0); wp 1 1 (at_time 10 0 0);
               wp 2 2 (at_time 10 0 0)] day_start day_end "d"
    = Ok (mkMission [wp 1 1 (at_time 10 0 0); wp 2 2 (at_time 10 0 0);
                     wp 5 5 (at_time 10 10 0)] day_start day_end "d") /\
  filter (at_instant (at_time 10 0 0))
    [wp 1 1 (at_time 10 0 0); wp 2 2 (at_time 10 0 0); wp 5 5 (at_time 10 10 0)]
  = filter (at_instant (at_time 10 0 0))
    [wp 5 5 (at_time 10 10 0); wp 1 1 (at_time 10 0 0); wp 2 2 (at_time 10 0 0)].
Proof.
  assert (E : new_Mission [wp 5 5 (at_time 10 10 0); wp 1 1 (at_time 10 0 0);
               wp 2 2 (at_time 10 0 0)] day_start day_end "d"
    = Ok (mkMission [wp 1 1 (at_time 10 0 0); wp 2 2 (at_time 10 0 0);
                     wp 5 5 (at_time 10 10 0)] day_start day_end "d"))
    by (vm_compute; reflexivity).
  split; [exact E|].
  exact (construction_is_stable _ _ _ _ _ (at_time 10 0 0) E).
Defined.

(** ** Facts about binary64 opposites, products and order *)

Lemma binary_round_aux_opp (sx : bool) (mx ex : Z) (lx : SpecFloat.location) :
  binary_round_aux prec emax (negb sx) mx ex lx
  = SFopp (binary_round_aux prec emax sx mx ex lx).
Proof.
  unfold binary_round_aux.
  destruct (shr_fexp prec emax mx ex lx) as [mrs' e'].
  destruct (shr_fexp prec emax _ e' loc_Exact) as [mrs'' e''].
  destruct (shr_m mrs''); try reflexivity.
  destruct (e'' <=? emax - prec); reflexivity.
Qed.

Lemma binary_round_opp (sx : bool) (mx : positive) (ex : Z) :
  binary_round prec emax (negb sx) mx ex = SFopp (binary_round prec emax sx mx ex).
Proof.
  unfold binary_round.
  destruct (shl_align _ _ _) as [mz ez]. apply binary_round_aux_opp.
Qed.

Lemma SFmul_comm (a b : spec_float) : SF64mul a b = SF64mul b a.
Proof.
  unfold SF64mul, SFmul.
  destruct a as [sa|sa| |sa ma ea], b as [sb|sb| |sb mb eb];
    try reflexivity; try (rewrite xorb_comm; reflexivity).
  rewrite xorb_comm, Pos.mul_comm, Z.add_comm. reflexivity.
Qed.

Lemma SFmul_opp_r (a b : spec_float) : SF64mul a (SFopp b) = SFopp (SF64mul a b).
Proof.
  unfold SF64mul, SFmul.
  destruct a as [sa|sa| |sa ma ea], b as [sb|sb| |sb mb eb]; cbn [SFopp];
    try reflexivity; try (rewrite <- negb_xorb_r; reflexivity).
  rewrite <- binary_round_aux_opp, <- negb_xorb_r. reflexivity.
Qed.

Lemma binary_normalize_opp (m e : Z) :
  opp_or_zeros (binary_normalize prec emax m e false)
               (binary_normalize prec emax (- m) e false).
Proof.
  destruct m as [|p|p]; simpl.
  - right. split; eexists; reflexivity.
  - left. apply (binary_round_opp false).
  - left. rewrite <- (binary_round_opp true). reflexivity.
Qed.

Lemma SFsub_swap (a b : spec_float) : opp_or_zeros (SF64sub a b) (SF64sub b a).
Proof.
  unfold SF64sub, SFsub.
  destruct a as [sa|sa| |sa ma ea], b as [sb|sb| |sb mb eb];
    try solve [ left; reflexivity
              | destruct sa, sb;
                solve [ left; reflexivity
                      | right; split; eexists; reflexivity ] ].
  rewrite (Z.min_comm eb ea).
    replace (cond_Zopp sb (Z.pos (fst (shl_align mb eb (Z.min ea eb))))
             - cond_Zopp sa (Z.pos (fst (shl_align ma ea (Z.min ea eb)))))
      with (- (cond_Zopp sa (Z.pos (fst (shl_align ma ea (Z.min ea eb))))
               - cond_Zopp sb (Z.pos (fst (shl_align mb eb (Z.min ea eb))))))
      by lia.
    apply binary_normalize_opp.
Qed.

Lemma mul_comm_float (a b : float) : (a * b)%float = (b * a)%float.
Proof.
  apply Prim2SF_inj. rewrite !mul_spec. apply SFmul_comm.
Qed.

Lemma sub_swap (a b : float) :
  opp_or_zeros (Prim2SF (a - b)) (Prim2SF (b - a)).
Proof.
  rewrite !sub_spec. apply SFsub_swap.
Qed.

Lemma zero_is_zero_or_nan (f : float) :
  (exists s, Prim2SF f = S754_zero s) -> zero_or_nan f.
Proof. intros H. left. exact H. Qed.

(** [a * b' - b * a'] where [a'] is the opposite of [a] and [b'] that of [b],
    up to the sign of zeros. *)
Lemma cross_swapped_zero_or_nan (a a' b b' : float) :
  opp_or_zeros (Prim2SF a) (Prim2SF a') ->
  opp_or_zeros (Prim2SF b) (Prim2SF b') ->
  zero_or_nan (a * b' - b * a')%float.
Proof.
  intros [Ha|[Ha Ha']] [Hb|[Hb Hb']].
  - assert (E : (a * b')%float = (b * a')%float).
    { apply Prim2SF_inj. rewrite !mul_spec, Ha, Hb, !SFmul_opp_r.
      rewrite (SFmul_comm (Prim2SF a)). reflexivity. }
    rewrite E. apply sub_diag_zero_or_nan.
  - apply sub_zero_or_nan.
    + apply mul_zero_or_nan_r, zero_is_zero_or_nan, Hb'.
    + apply mul_zero_or_nan_l, zero_is_zero_or_nan, Hb.
  - apply sub_zero_or_nan.
    + apply mul_zero_or_nan_l, zero_is_zero_or_nan, Ha.
    + apply mul_zero_or_nan_r, zero_is_zero_or_nan, Ha'.
  - apply sub_zero_or_nan.
    + apply mul_zero_or_nan_l, zero_is_zero_or_nan, Ha.
    + apply mul_zero_or_nan_r, zero_is_zero_or_nan, Ha'.
Qed.

Lemma same_segment_denominator (P Q P' Q' : Waypoint) :
  x P' = x P -> y P' = y P -> x Q' = x Q -> y Q' = y Q ->
  zero_or_nan (denominator P Q P' Q') /\ zero_or_nan (denominator P Q Q' P').
Proof.
  unfold denominator. intros -> -> -> ->. split.
  - rewrite (mul_comm_float (y P - y Q)). apply sub_diag_zero_or_nan.
  - apply cross_swapped_zero_or_nan; apply sub_swap.
Qed.

Lemma axis_denominator (A0 A1 B0 B1 : Waypoint) (c : float) :
  (y A0 = c /\ y A1 = c /\ y B0 = c /\ y B1 = c) \/
  (x A0 = c /\ x A1 = c /\ x B0 = c /\ x B1 = c) ->
  zero_or_nan (denominator A0 A1 B0 B1).
Proof.
  unfold denominator. intros [(-> & -> & -> & ->)|(-> & -> & -> & ->)];
    apply sub_zero_or_nan;
    first [ apply mul_zero_or_nan_r, sub_diag_zero_or_nan
          | apply mul_zero_or_nan_l, sub_diag_zero_or_nan ].
Qed.

Lemma SFltb_SFleb_trans (a b c : spec_float) :
  SFltb a b = true -> SFleb b c = true -> SFltb a c = true.
Proof.
  unfold SFltb, SFleb, SFcompare.
  destruct a as [sa|sa| |sa ma ea], b as [sb|sb| |sb mb eb],
           c as [sc|sc| |sc mc ec];
    try discriminate; try reflexivity;
    try (destruct sa, sb, sc; try discriminate; try reflexivity).
  all: change (Pos.compare_cont Eq) with Pos.compare.
  all: destruct (Z.compare_spec ea eb), (Z.compare_spec eb ec),
         (Z.compare_spec ea ec); subst; try discriminate; try reflexivity;
         try lia.
  all: destruct (Pos.compare_spec ma mb), (Pos.compare_spec mb mc),
         (Pos.compare_spec ma mc); subst; simpl; try discriminate;
         try reflexivity; try lia.
Qed.

Lemma ltb_leb_trans (a b c : float) :
  (a <? b)%float = true -> (b <=? c)%float = true -> (a <? c)%float = true.
Proof.
  rewrite !ltb_spec, leb_spec. apply SFltb_SFleb_trans.
Qed.

Lemma binary_round_aux_not_negative (mx ex : Z) (lx : SpecFloat.location)
    (b : spec_float) :
  SFleb b (S754_zero false) = true ->
  SFltb (binary_round_aux prec emax false mx ex lx) b = false.
Proof.
  unfold binary_round_aux.
  destruct (shr_fexp prec emax mx ex lx) as [mrs' e'].
  destruct (shr_fexp prec emax _ e' loc_Exact) as [mrs'' e''].
  destruct (shr_m mrs'') as [|m|m]; [| |destruct b; reflexivity].
  - destruct b as [s|s| |s mb eb]; try reflexivity; destruct s;
      try reflexivity; discriminate.
  - destruct (e'' <=? emax - prec);
      destruct b as [s|s| |s mb eb]; try reflexivity; destruct s;
      try reflexivity; discriminate.
Qed.

(** A square root is never below a buffer that is zero or negative. *)
Lemma sqrt_not_below (f b : float) :
  (b <=? 0)%float = true -> (sqrt f <? b)%float = false.
Proof.
  rewrite leb_spec, ltb_spec, sqrt_spec.
  change (Prim2SF 0) with (S754_zero false).
  unfold SF64sqrt, SFsqrt. intros Hb.
  destruct (Prim2SF f) as [s|s| |s m e].
  - destruct (Prim2SF b) as [sb|sb| |sb mb eb]; try reflexivity;
      destruct sb; try reflexivity; discriminate.
  - destruct s; [destruct (Prim2SF b); reflexivity|].
    destruct (Prim2SF b) as [sb|sb| |sb mb eb]; try reflexivity;
      destruct sb; try reflexivity; discriminate.
  - destruct (Prim2SF b); reflexivity.
  - destruct s; [destruct (Prim2SF b); reflexivity|].
    destruct (SFsqrt_core_binary prec emax (Z.pos m) e) as [[mz ez] lz].
    apply binary_round_aux_not_negative, Hb.
Qed.

Lemma ltb_nan_r (a b : float) : is_nan b = true -> (a <? b)%float = false.
Proof.
  unfold is_nan. rewrite eqb_spec, ltb_spec. unfold SFeqb, SFltb.
  destruct (Prim2SF b) as [s|s| |s m e].
  - discriminate.
  - destruct s; discriminate.
  - intros _. destruct (Prim2SF a); reflexivity.
  - simpl. destruct s; rewrite Z.compare_refl, Pos.compare_cont_refl; discriminate.
Qed.

Lemma check_segment_pair_no_point {L : Libm}
    (self : ConflictDetector) (m1 m2 : Mission) (A0 A1 B0 B1 : Waypoint) :
  has_timestamp A0 = true -> has_timestamp A1 = true ->
  has_timestamp B0 = true -> has_timestamp B1 = true ->
  zero_or_nan (denominator A0 A1 B0 B1) ->
  check_segment_pair self m1 m2 A0 A1 B0 B1 = Ok [].
Proof.
  intros H0 H1 H2 H3 Hz. unfold check_segment_pair.
  destruct (check_temporal_overlap_timestamped _ _ _ _ H0 H1 H2 H3) as [b ->].
  rewrite (find_intersection_zero_or_nan _ _ _ _ Hz). destruct b; reflexivity.
Qed.

Lemma check_mission_pair_no_point {L : Libm} (self : ConflictDetector) (m1 m2 : Mission) :
  forallb has_timestamp (waypoints m1) = true ->
  forallb has_timestamp (waypoints m2) = true ->
  (forall A0 A1 B0 B1,
     In (A0, A1) (segments (waypoints m1)) ->
     In (B0, B1) (segments (waypoints m2)) ->
     zero_or_nan (denominator A0 A1 B0 B1)) ->
  _check_mission_pair self m1 m2 = Ok [].
Proof.
  intros H1 H2 Hz. unfold _check_mission_pair.
  apply for_each_all_nil. intros [A0 A1] HA.
  apply for_each_all_nil. intros [B0 B1] HB. cbn [fst snd].
  destruct (segments_timestamped _ _ _ H1 HA).
  destruct (segments_timestamped _ _ _ H2 HB).
  apply check_segment_pair_no_point; auto.
Qed.

(** X9: trajectories that lie on one line parallel to an axis (every
    waypoint of the primary trajectory and of the others has the same [y], or
    the same [x]) are never reported: when every waypoint has a timestamp,
    [check_mission] returns "clear", whatever the timing, the direction of
    flight and the safety buffer. Two drones flying head-on along such a line
    are missed. *)
Theorem same_axis_line_is_clear {L : Libm}
    (self : ConflictDetector) (p : Mission) (others : list Mission) (c : float) :
  forallb has_timestamp (waypoints p) = true ->
  (forall o, In o others -> forallb has_timestamp (waypoints o) = true) ->
  ((forall w, In w (waypoints p) -> y w = c) /\
   (forall o w, In o others -> In w (waypoints o) -> y w = c)) \/
  ((forall w, In w (waypoints p) -> x w = c) /\
   (forall o w, In o others -> In w (waypoints o) -> x w = c)) ->
  check_mission self p others = Ok ("clear"%string, []).
Proof.
  intros Hp Ho Hline. rewrite check_mission_status.
  rewrite for_each_all_nil; [reflexivity|].
  intros o Hin. apply check_mission_pair_no_point; [exact Hp|apply Ho, Hin|].
  intros A0 A1 B0 B1 HA HB.
  apply segments_In in HA as [HA0 HA1]. apply segments_In in HB as [HB0 HB1].
  apply (axis_denominator _ _ _ _ c).
  destruct Hline as [[Lp Lo]|[Lp Lo]]; [left|right];
    repeat split; eauto.
Qed.

(** X10: a segment and the same segment flown by another drone, in the
    same direction or in the opposite one, have no intersection point,
    whatever the direction of the segment in the plane; a primary trajectory
    of two waypoints checked against the same path, or against the reversed
    path, is "clear". *)
Theorem same_or_reversed_segment_is_clear {L : Libm}
    (self : ConflictDetector) (P Q P' Q' : Waypoint)
    (s e s' e' : datetime) (id id' : string) :
  x P' = x P -> y P' = y P -> x Q' = x Q -> y Q' = y Q ->
  has_timestamp P = true -> has_timestamp Q = true ->
  has_timestamp P' = true -> has_timestamp Q' = true ->
  _find_intersection P Q P' Q' = None /\
  _find_intersection P Q Q' P' = None /\
  check_mission self (mkMission [P; Q] s e id) [mkMission [P'; Q'] s' e' id']
    = Ok ("clear"%string, []) /\
  check_mission self (mkMission [P; Q] s e id) [mkMission [Q'; P'] s' e' id']
    = Ok ("clear"%string, []).
Proof.
  intros Hx Hy Hx' Hy' HP HQ HP' HQ'.
  destruct (same_segment_denominator P Q P' Q' Hx Hy Hx' Hy') as [Z1 Z2].
  split; [apply find_intersection_zero_or_nan, Z1|].
  split; [apply find_intersection_zero_or_nan, Z2|].
  split; rewrite check_mission_status; cbn [for_each];
    unfold _check_mission_pair; cbn [waypoints segments for_each fst snd].
  - rewrite check_segment_pair_no_point; auto.
  - rewrite check_segment_pair_no_point; auto.
Qed.

Lemma check_mission_conflict_origin {L : Libm}
    (self : ConflictDetector) (p : Mission) (others : list Mission)
    (status : string) (cs : list Conflict) (c : Conflict) :
  check_mission self p others = Ok (status, cs) -> In c cs ->
  exists o A0 A1 B0 B1,
    In o others /\
    In (A0, A1) (segments (waypoints p)) /\
    In (B0, B1) (segments (waypoints o)) /\
    check_segment_pair self p o A0 A1 B0 B1 = Ok [c].
Proof.
  rewrite check_mission_status. intros H Hc.
  apply bind_Ok in H as (cs0 & Hcs & H). injection H as _ <-.
  destruct (for_each_In _ _ _ _ Hcs Hc) as (o & cs' & Ho & Hp & Hc').
  unfold _check_mission_pair in Hp.
  destruct (for_each_In _ _ _ _ Hp Hc') as ([A0 A1] & r & HA & Hr & Hcr).
  destruct (for_each_In _ _ _ _ Hr Hcr) as ([B0 B1] & r' & HB & Hr' & Hcr').
  cbn [fst snd] in Hr'.
  destruct (check_segment_pair_In _ _ _ _ _ _ _ _ _ Hr' Hcr') as (E & _).
  subst r'. exists o, A0, A1, B0, B1. auto.
Qed.

(** X12: the constructor accepts any buffer, and with a buffer that is
    zero, negative or NaN no conflict is ever reported: every result is
    "clear". *)
Theorem useless_buffer_reports_nothing {L : Libm}
    (self : ConflictDetector) (p : Mission) (others : list Mission)
    (status : string) (cs : list Conflict) :
  (safety_buffer self <=? 0)%float = true \/ is_nan (safety_buffer self) = true ->
  check_mission self p others = Ok (status, cs) ->
  status = "clear"%string /\ cs = [].
Proof.
  intros Hb H.
  assert (E : cs = []).
  { destruct cs as [|c cs]; [reflexivity|]. exfalso.
    destruct (check_mission_conflict_origin _ _ _ _ _ c H (or_introl eq_refl))
      as (o & A0 & A1 & B0 & B1 & _ & _ & _ & Hr).
    destruct (check_segment_pair_In _ _ _ _ _ _ _ _ c Hr (or_introl eq_refl))
      as (_ & _ & _ & _ & Hd & Hlt & _).
    unfold _calculate_distance in Hd.
    apply bind_Ok in Hd as (dx2 & _ & Hd). apply bind_Ok in Hd as (dy2 & _ & Hd).
    injection Hd as Hd. rewrite <- Hd in Hlt.
    destruct Hb as [Hb|Hb].
    - rewrite (sqrt_not_below _ _ Hb) in Hlt. discriminate.
    - rewrite (ltb_nan_r _ _ Hb) in Hlt. discriminate. }
  subst cs. split; [|reflexivity].
  rewrite check_mission_status in H.
  apply bind_Ok in H as (cs0 & _ & H). injection H as Hs Hc.
  subst cs0. symmetry. exact Hs.
Qed.

Lemma check_segment_pair_filter {L : Libm}
    (s1 s2 : ConflictDetector) (m1 m2 : Mission) (A0 A1 B0 B1 : Waypoint) :
  (safety_buffer s1 <=? safety_buffer s2)%float = true ->
  check_segment_pair s1 m1 m2 A0 A1 B0 B1
  = (r <- check_segment_pair s2 m1 m2 A0 A1 B0 B1 ;;
     Ok (filter (fun c => (distance c <? safety_buffer s1)%float) r)).
Proof.
  intros Hb. unfold check_segment_pair.
  destruct (_check_temporal_overlap A0 A1 B0 B1) as [[|]|e]; try reflexivity.
  cbn [bind].
  destruct (_find_intersection A0 A1 B0 B1) as [pt|]; [|reflexivity].
  destruct (_calculate_conflict_time A0 A1 B0 B1 pt) as [t|e]; [|reflexivity].
  cbn [bind].
  destruct (_calculate_distance A0 B0 pt) as [d|e]; [|reflexivity].
  cbn [bind].
  destruct (d <? safety_buffer s1)%float eqn:E1.
  - rewrite (ltb_leb_trans _ _ _ E1 Hb). cbn [bind filter distance].
    rewrite E1. reflexivity.
  - destruct (d <? safety_buffer s2)%float; cbn [bind filter distance];
      [rewrite E1|]; reflexivity.
Qed.

Lemma for_each_filter {A B : Type} (P : B -> bool)
    (f g : A -> result (list B)) (l : list A) :
  (forall a, f a = (r <- g a ;; Ok (filter P r))) ->
  for_each f l = (rs <- for_each g l ;; Ok (filter P rs)).
Proof.
  intros H. induction l as [|a l IH]; [reflexivity|].
  cbn [for_each]. rewrite H, IH.
  destruct (g a) as [r|e]; [|reflexivity]. cbn [bind].
  destruct (for_each g l) as [rs|e]; [|reflexivity]. cbn [bind].
  rewrite filter_app. reflexivity.
Qed.

(** X11: the safety buffer only filters. For two detectors with
    [buffer1 <= buffer2], the result with [buffer1] is the result with
    [buffer2] from which the conflicts whose distance is not below [buffer1]
    are removed; the errors are the same. *)
Theorem smaller_buffer_filters_conflicts {L : Libm}
    (s1 s2 : ConflictDetector) (p : Mission) (others : list Mission) :
  (safety_buffer s1 <=? safety_buffer s2)%float = true ->
  check_mission s1 p others
  = match check_mission s2 p others with
    | Raise e => Raise e
    | Ok (_, cs2) =>
        Ok (status_of (filter (fun c => (distance c <? safety_buffer s1)%float) cs2),
            filter (fun c => (distance c <? safety_buffer s1)%float) cs2)
    end.
Proof.
  intros Hb. rewrite !check_mission_status.
  rewrite (for_each_filter (fun c => (distance c <? safety_buffer s1)%float)
             (_check_mission_pair s1 p) (_check_mission_pair s2 p)).
  - destruct (for_each (_check_mission_pair s2 p) others); reflexivity.
  - intros o. unfold _check_mission_pair.
    apply for_each_filter. intros [A0 A1].
    apply for_each_filter. intros [B0 B1].
    apply check_segment_pair_filter, Hb.
Qed.

Lemma same_axis_line_is_clear_witness :
  let L := rounded_libm in
  check_mission detector50 head_on3_primary [head_on3_other]
  = Ok ("clear"%string, []).
Proof.
  intros L.
  apply (same_axis_line_is_clear (L := L) detector50 head_on3_primary [head_on3_other] 100).
  - reflexivity.
  - intros o [<-|[]]. reflexivity.
  - left. split.
    + intros w [<-|[<-|[<-|[]]]]; reflexivity.
    + intros o w [<-|[]] [<-|[<-|[<-|[]]]]; reflexivity.
Defined.

(** Two drones that swap the ends of a diagonal during the same ten
    minutes. *)
Lemma same_or_reversed_segment_is_clear_witness :
  let L := rounded_libm in
  check_mission detector50
    (mkMission [wp 0 0 (at_time 10 0 0); wp 40 40 (at_time 10 10 0)]
       day_start day_end "primary")
    [mkMission [wp 40 40 (at_time 10 0 0); wp 0 0 (at_time 10 10 0)]
       day_start day_end "other"]
  = Ok ("clear"%string, []).
Proof.
  intros L.
  exact (proj2 (proj2 (proj2
    (same_or_reversed_segment_is_clear (L := L) detector50
       (wp 0 0 (at_time 10 0 0)) (wp 40 40 (at_time 10 10 0))
       (wp 0 0 (at_time 10 10 0)) (wp 40 40 (at_time 10 0 0))
       day_start day_end day_start day_end "primary" "other"
       eq_refl eq_refl eq_refl eq_refl eq_refl eq_refl eq_refl eq_refl)))).
Defined.

Lemma smaller_buffer_filters_conflicts_witness :
  let L := rounded_libm in
  (40 <=? 50)%float = true /\
  check_mission (mkConflictDetector 40) crossing_primary [crossing_other]
  = Ok ("clear"%string, []).
Proof.
  intros L.
  split; [reflexivity|].
  rewrite (smaller_buffer_filters_conflicts (L := L) (mkConflictDetector 40) detector50
             crossing_primary [crossing_other] eq_refl).
  vm_compute. reflexivity.
Defined.

Lemma useless_buffer_reports_nothing_witness :
  let L := rounded_libm in
  (0 <=? 0)%float = true /\
  check_mission (mkConflictDetector 0) crossing_primary [crossing_other]
  = Ok ("clear"%string, []) /\
  "clear"%string = "clear"%string /\ @nil Conflict = [].
Proof.
  intros L.
  split; [reflexivity|].
  assert (E : check_mission (mkConflictDetector 0) crossing_primary [crossing_other]
              = Ok ("clear"%string, [])) by (vm_compute; reflexivity).
  split; [exact E|].
  exact (useless_buffer_reports_nothing (L := L) (mkConflictDetector 0)
           crossing_primary [crossing_other] "clear" []
           (or_introl eq_refl) E).
Defined.

(** X1: the range errors are real. When Python's [** 2] overflows on the
    extent in [x] or in [y] of the first primary segment, and that segment
    overlaps in time with the first segment of the first other trajectory
    and has an intersection point with it, the conflict-time computation of
    this first examined pair raises OverflowError, and so does
    [check_mission] instead of returning a result. *)
Theorem squared_length_overflow_raises {L : Libm}
    (self : ConflictDetector) (p o : Mission) (others : list Mission)
    (A0 A1 B0 B1 : Waypoint) (rest rest' : list Waypoint) (pt : float * float) :
  waypoints p = A0 :: A1 :: rest ->
  waypoints o = B0 :: B1 :: rest' ->
  _check_temporal_overlap A0 A1 B0 B1 = Ok true ->
  _find_intersection A0 A1 B0 B1 = Some pt ->
  pow2 (x A1 - x A0) = Raise OverflowError \/
  pow2 (y A1 - y A0) = Raise OverflowError ->
  _calculate_conflict_time A0 A1 B0 B1 pt = Raise OverflowError /\
  check_segment_pair self p o A0 A1 B0 B1 = Raise OverflowError /\
  check_mission self p (o :: others) = Raise OverflowError.
Proof.
  intros Hp Ho Hov Hfi Hpow.
  assert (E : _calculate_conflict_time A0 A1 B0 B1 pt = Raise OverflowError).
  { unfold _calculate_conflict_time, total_dist.
    destruct (pow2 (x A1 - x A0)) as [dx2|e] eqn:Ex.
    - destruct Hpow as [Hx|Hy]; [discriminate Hx|]. cbn [bind]. rewrite Hy. reflexivity.
    - rewrite (pow2_Raise _ _ Ex). reflexivity. }
  assert (C : check_segment_pair self p o A0 A1 B0 B1 = Raise OverflowError).
  { unfold check_segment_pair. rewrite Hov. cbn [bind]. rewrite Hfi, E. reflexivity. }
  split; [exact E|]. split; [exact C|].
  rewrite check_mission_status. cbn [for_each]. unfold _check_mission_pair.
  rewrite Hp, Ho.
  change (segments (A0 :: A1 :: rest)) with ((A0, A1) :: segments (A1 :: rest)).
  cbn [for_each fst snd].
  change (segments (B0 :: B1 :: rest')) with ((B0, B1) :: segments (B1 :: rest')).
  cbn [for_each fst snd]. rewrite C. reflexivity.
Qed.

(** Two well-formed, timestamped trajectories with finite, non-negative
    coordinates: the primary segment is 2^600 long and is crossed in its
    middle. *)
Lemma squared_length_overflow_raises_witness :
  let L := rounded_libm in
  new_Mission (waypoints huge_primary) day_start day_end "primary"
    = Ok huge_primary /\
  new_Mission (waypoints huge_other) day_start day_end "other"
    = Ok huge_other /\
  _find_intersection (wp 0 1 (at_time 10 0 0)) (wp 0x1p+600 1 (at_time 10 10 0))
    (wp 0x1p+599 0 (at_time 10 0 0)) (wp 0x1p+599 2 (at_time 10 10 0))
    = Some (0x1p+599%float, 1%float) /\
  pow2 (x (wp 0x1p+600 1 (at_time 10 10 0)) - x (wp 0 1 (at_time 10 0 0)))
    = Raise OverflowError /\
  check_mission detector50 huge_primary [huge_other] = Raise OverflowError.
Proof.
  intros L.
  split; [vm_compute; reflexivity|].
  split; [vm_compute; reflexivity|].
  split; [vm_compute; reflexivity|].
  assert (H : pow2 (x (wp 0x1p+600 1 (at_time 10 10 0)) - x (wp 0 1 (at_time 10 0 0)))
              = Raise OverflowError) by (vm_compute; reflexivity).
  split; [exact H|].
  apply (squared_length_overflow_raises (L := L) detector50 huge_primary huge_other []
    (wp 0 1 (at_time 10 0 0)) (wp 0x1p+600 1 (at_time 10 10 0))
    (wp 0x1p+599 0 (at_time 10 0 0)) (wp 0x1p+599 2 (at_time 10 10 0))
    [] [] (0x1p+599%float, 1%float)).
  - reflexivity.
  - reflexivity.
  - reflexivity.
  - vm_compute; reflexivity.
  - left. exact H.
Defined.

(** ** Properties of the mission generator *)

Lemma divide_nearest_values :
  divide_nearest 3600000000 2 = 1800000000 /\
  divide_nearest 3600000000 13 = 276923077 /\
  divide_nearest 3600000000 7 = 514285714 /\
  divide_nearest 5 2 = 2 /\ divide_nearest 7 2 = 4 /\
  divide_nearest (-5) 2 = -2 /\ divide_nearest 5 (-2) = -2 /\
  divide_nearest (-7) 2 = -4 /\ divide_nearest 7 (-3) = -2.
Proof. repeat split. Qed.

Lemma divide_nearest_bounds (d m : Z) :
  0 <= d -> 0 < m -> 0 <= divide_nearest d m <= d.
Proof.
  intros Hd Hm. unfold divide_nearest.
  pose proof (Z.div_mod d m ltac:(lia)) as E.
  pose proof (Z.mod_pos_bound d m Hm) as Hr.
  assert (0 <= d / m) by (apply Z.div_pos; lia).
  assert (d / m <= d) by (apply Z.div_le_upper_bound; nia).
  rewrite (Z.abs_eq (d mod m)), (Z.abs_eq m) by lia.
  destruct (2 * (d mod m) <? m) eqn:E1; [lia|].
  apply Z.ltb_ge in E1.
  assert (d / m + 1 <= d) by nia.
  destruct (m <? 2 * (d mod m)); [lia|].
  destruct (Z.even (d / m)); lia.
Qed.

Lemma timedelta_check_small (us : Z) :
  0 <= us <= datetime_max -> timedelta_check us = Ok us.
Proof.
  intros H. unfold timedelta_check.
  assert (0 <= us / (86400 * 1000000) <= timedelta_max_days).
  { split; [apply Z.div_pos; lia|].
    apply Z.div_le_upper_bound; [lia|].
    unfold datetime_max, timedelta_max_days in *. lia. }
  rewrite Z.abs_eq by lia.
  destruct (Z.leb_spec (us / (86400 * 1000000)) timedelta_max_days);
    [reflexivity|lia].
Qed.

Lemma datetime_add_in_range (t : datetime) (d : timedelta) :
  0 <= t + d <= datetime_max -> datetime_add t d = Ok (t + d).
Proof.
  intros H. unfold datetime_add.
  destruct (Z.leb_spec 0 (t + d)); [|lia].
  destruct (Z.leb_spec (t + d) datetime_max); [reflexivity|lia].
Qed.

Section GeneratorFacts.

Variable uniform : nat -> float -> float -> float.
Variables (k0 : nat) (start_time : datetime) (time_step : timedelta).
Variables (area_size min_altitude max_altitude : float).

Hypothesis xy_not_negative :
  forall j, (uniform j 0 area_size <? 0)%float = false.
Hypothesis z_not_negative :
  forall j, (uniform j min_altitude max_altitude <? 0)%float = false.

Let gw := generated_waypoint uniform k0 start_time time_step
            area_size min_altitude max_altitude.

Lemma generate_waypoints_spec (len i0 : nat) :
  (forall i, (i0 <= i < i0 + len)%nat ->
     0 <= time_step * Z.of_nat i <= datetime_max /\
     0 <= start_time + time_step * Z.of_nat i <= datetime_max) ->
  generate_waypoints uniform (k0 + 3 * i0) start_time time_step
    area_size min_altitude max_altitude (seq i0 len)
  = Ok (map gw (seq i0 len)).
Proof.
  revert i0. induction len as [|len IH]; intros i0 H; [reflexivity|].
  cbn [seq generate_waypoints map].
  destruct (H i0 ltac:(lia)) as [H1 H2].
  unfold timedelta_mul. rewrite (timedelta_check_small _ H1). cbn [bind].
  rewrite (datetime_add_in_range _ _ H2). cbn [bind].
  unfold new_Waypoint, Waypoint_post_init. cbn [x y z].
  rewrite !xy_not_negative, z_not_negative. cbn [orb bind].
  replace (k0 + 3 * i0 + 3)%nat with (k0 + 3 * S i0)%nat by lia.
  rewrite IH by (intros i Hi; apply H; lia). reflexivity.
Qed.

Lemma generated_have_timestamps (l : list nat) :
  forallb has_timestamp (map gw l) = true.
Proof.
  induction l as [|i l IH]; [reflexivity|]. exact IH.
Qed.

Lemma generated_sorted (len i0 : nat) :
  0 <= time_step -> StronglySorted key_le (map gw (seq i0 len)).
Proof.
  intros Hs. revert i0. induction len as [|len IH]; intros i0; [constructor|].
  cbn [seq map]. constructor; [apply IH|].
  apply Forall_forall. intros w Hw.
  apply in_map_iff in Hw as (i & <- & Hi). apply in_seq in Hi.
  unfold key_le, sort_key, gw, generated_waypoint. cbn [timestamp]. nia.
Qed.

Lemma generated_within_window (n : nat) (duration : timedelta) :
  0 <= time_step -> (1 <= n)%nat ->
  forallb (within_window start_time (start_time + duration)) (map gw (seq 0 n))
  = (time_step * (Z.of_nat n - 1) <=? duration).
Proof.
  intros Hs Hn.
  destruct (Z.leb_spec (time_step * (Z.of_nat n - 1)) duration) as [Hd|Hd].
  - apply forallb_forall. intros w Hw.
    apply in_map_iff in Hw as (i & <- & Hi). apply in_seq in Hi.
    unfold within_window, gw, generated_waypoint. cbn [timestamp].
    apply andb_true_iff. rewrite !Z.leb_le. nia.
  - apply within_window_false.
    exists (gw (n - 1)%nat), (start_time + time_step * Z.of_nat (n - 1)).
    split; [apply in_map, in_seq; lia|]. split; [reflexivity|].
    right. replace (Z.of_nat (n - 1)) with (Z.of_nat n - 1) by lia. lia.
Qed.

End GeneratorFacts.

Lemma new_Mission_nonempty (wps : list Waypoint) (s e : datetime) (id : string) :
  wps <> [] ->
  new_Mission wps s e id
  = if e <=? s then Raise ValueError
    else if forallb (within_window s e) (stored_waypoints wps)
         then Ok (mkMission (stored_waypoints wps) s e id)
         else Raise ValueError.
Proof.
  intros H. rewrite new_Mission_unfold. destruct wps; [contradiction|reflexivity].
Qed.

Lemma generate_drone_mission_spec
    (uniform : nat -> float -> float -> float) (k : nat) (id : string)
    (start_time : datetime) (duration : timedelta)
    (area_size min_altitude max_altitude : float) (n : Z) :
  (forall j, (uniform j 0 area_size <? 0)%float = false) ->
  (forall j, (uniform j min_altitude max_altitude <? 0)%float = false) ->
  2 <= n -> 0 < duration -> 0 <= start_time ->
  start_time + duration <= datetime_max ->
  start_time + divide_nearest duration (n - 1) * (n - 1) <= datetime_max ->
  _generate_drone_mission uniform k id start_time duration
    area_size min_altitude max_altitude n
  = if divide_nearest duration (n - 1) * (n - 1) <=? duration
    then Returns (mkMission
                    (map (generated_waypoint uniform k start_time
                            (divide_nearest duration (n - 1))
                            area_size min_altitude max_altitude)
                         (seq 0 (Z.to_nat n)))
                    start_time (start_time + duration) id)
    else Fails ValueError.
Proof.
  intros Hxy Hz Hn Hd Hs He Hlast.
  set (step := divide_nearest duration (n - 1)) in *.
  assert (Hstep : 0 <= step <= duration)
    by (apply divide_nearest_bounds; lia).
  unfold _generate_drone_mission.
  rewrite datetime_add_in_range by lia. cbn [of_result gbind].
  unfold timedelta_truediv.
  destruct (Z.eqb_spec (n - 1) 0) as [K|_]; [lia|]. fold step.
  rewrite (timedelta_check_small step) by lia. cbn [of_result gbind].
  replace k with (k + 3 * 0)%nat at 1 by lia.
  rewrite (generate_waypoints_spec uniform k start_time step
             area_size min_altitude max_altitude Hxy Hz).
  2:{ intros i Hi. assert (Z.of_nat i <= n - 1) by lia. nia. }
  cbn [of_result gbind]. rewrite new_Mission_nonempty.
  2:{ destruct (Z.to_nat n) as [|n'] eqn:En; [lia|]. discriminate. }
  assert (Es : stored_waypoints
                 (map (generated_waypoint uniform k start_time step
                         area_size min_altitude max_altitude)
                      (seq 0 (Z.to_nat n)))
               = map (generated_waypoint uniform k start_time step
                         area_size min_altitude max_altitude)
                      (seq 0 (Z.to_nat n))).
  { unfold stored_waypoints. rewrite generated_have_timestamps.
    apply sort_by_timestamp_sorted_id, generated_sorted. lia. }
  rewrite Es, generated_within_window by lia.
  replace (Z.of_nat (Z.to_nat n) - 1) with (n - 1) by lia.
  destruct (Z.leb_spec (start_time + duration) start_time); [lia|].
  destruct (step * (n - 1) <=? duration); reflexivity.
Qed.

Lemma SFltb_SFleb_false (a b : spec_float) :
  SFltb a b = true -> SFleb b a = false.
Proof.
  unfold SFltb, SFleb, SFcompare.
  destruct a as [sa|sa| |sa ma ea], b as [sb|sb| |sb mb eb];
    try discriminate; try reflexivity;
    try (destruct sa, sb; try discriminate; try reflexivity).
  all: change (Pos.compare_cont Eq) with Pos.compare.
  all: rewrite (Z.compare_antisym ea eb), (Pos.compare_antisym ma mb).
  all: destruct (ea ?= eb); simpl; try discriminate; try reflexivity.
  all: destruct (ma ?= mb)%positive; simpl; try discriminate; try reflexivity.
Qed.

(** A float that is at least a non-negative float is not negative. *)
Lemma leb_leb_zero_ltb_false (a f : float) :
  (0 <=? a)%float = true -> (a <=? f)%float = true -> (f <? 0)%float = false.
Proof.
  intros H0 Ha. destruct (f <? 0)%float eqn:E; [|reflexivity].
  pose proof (ltb_leb_trans _ _ _ E H0) as K.
  rewrite ltb_spec in K. rewrite leb_spec in Ha.
  rewrite (SFltb_SFleb_false _ _ K) in Ha. discriminate.
Qed.

(** X13: [_generate_drone_mission] asked for at least two waypoints over a
    positive duration, with a window inside the datetime range and draws that
    are not negative. The waypoints are [time_step] apart, where [time_step]
    is the duration divided by [num_waypoints - 1] and rounded to the nearest
    microsecond. When [time_step * (num_waypoints - 1)] does not exceed the
    duration the trajectory is returned, with its waypoints in the order they
    were drawn; when the rounding went up, the last waypoint falls after the
    end of the window and the construction of the trajectory raises
    ValueError. *)
Theorem generated_mission
    (uniform : nat -> float -> float -> float) (k : nat) (id : string)
    (start_time : datetime) (duration : timedelta)
    (area_size min_altitude max_altitude : float) (n : Z) :
  (forall j, (uniform j 0 area_size <? 0)%float = false) ->
  (forall j, (uniform j min_altitude max_altitude <? 0)%float = false) ->
  2 <= n -> 0 < duration -> 0 <= start_time ->
  start_time + duration <= datetime_max ->
  start_time + divide_nearest duration (n - 1) * (n - 1) <= datetime_max ->
  _generate_drone_mission uniform k id start_time duration
    area_size min_altitude max_altitude n
  = if divide_nearest duration (n - 1) * (n - 1) <=? duration
    then Returns (mkMission
                    (map (generated_waypoint uniform k start_time
                            (divide_nearest duration (n - 1))
                            area_size min_altitude max_altitude)
                         (seq 0 (Z.to_nat n)))
                    start_time (start_time + duration) id)
    else Fails ValueError.
Proof.
  apply generate_drone_mission_spec.
Qed.

Lemma generated_mission_witness :
  _generate_drone_mission highest 0 "d" (at_time 10 0 0) (hours 1) 1000 10 100 14
    = Fails ValueError /\
  _generate_drone_mission highest 0 "d" (at_time 10 0 0) (hours 1) 1000 10 100 3
    = Returns (mkMission
                 [mkWaypoint 1000 1000 (Some 100%float) (Some (at_time 10 0 0));
                  mkWaypoint 1000 1000 (Some 100%float) (Some (at_time 10 30 0));
                  mkWaypoint 1000 1000 (Some 100%float) (Some (at_time 11 0 0))]
                 (at_time 10 0 0) (at_time 11 0 0) "d").
Proof.
  split.
  - apply (generated_mission highest 0 "d" (at_time 10 0 0) (hours 1) 1000 10 100 14);
      try reflexivity; try (intros j; reflexivity); try (vm_compute; discriminate).
  - apply (generated_mission highest 0 "d" (at_time 10 0 0) (hours 1) 1000 10 100 3);
      try reflexivity; try (intros j; reflexivity); try (vm_compute; discriminate).
Defined.

(** X14: asked for one waypoint per drone, [_generate_drone_mission] and
    [generate_mission_data] raise ZeroDivisionError (the time step divides the
    duration by [num_waypoints - 1]). *)
Theorem one_waypoint_per_drone_divides_by_zero
    (uniform : nat -> float -> float -> float) (k : nat) (id : string)
    (now : datetime) (duration time_buffer : timedelta) (num_traffic_drones : Z)
    (area_size min_altitude max_altitude : float) :
  0 <= now + duration <= datetime_max ->
  _generate_drone_mission uniform k id now duration
    area_size min_altitude max_altitude 1 = ZeroDivisionError /\
  generate_mission_data uniform now num_traffic_drones 1
    area_size min_altitude max_altitude duration time_buffer = ZeroDivisionError.
Proof.
  intros H.
  assert (E : forall k id, _generate_drone_mission uniform k id now duration
    area_size min_altitude max_altitude 1 = ZeroDivisionError).
  { intros k' id'. unfold _generate_drone_mission.
    rewrite (datetime_add_in_range _ _ H). reflexivity. }
  split; [apply E|]. unfold generate_mission_data. rewrite E. reflexivity.
Qed.

Lemma one_waypoint_per_drone_divides_by_zero_witness :
  generate_mission_data highest (at_time 10 0 0) 4 1 1000 10 100
    (hours 1) (minutes 15) = ZeroDivisionError.
Proof.
  apply (one_waypoint_per_drone_divides_by_zero highest 0 "primary_drone"
           (at_time 10 0 0) (hours 1) (minutes 15) 4 1000 10 100).
  vm_compute. split; discriminate.
Defined.

(** X15: [create_sample_data] always succeeds, for every time of the call
    at least an hour and a half before datetime.max and every value that
    [random.uniform] can return ([a <= uniform(a, b)]): it returns the primary
    trajectory and two traffic trajectories that start 15 and 30 minutes
    later, each with three waypoints, at the start, the middle and the end of
    its one-hour window. *)
Theorem sample_data_is_generated
    (uniform : nat -> float -> float -> float) (now : datetime) :
  (forall j a b, (a <=? b)%float = true -> (a <=? uniform j a b)%float = true) ->
  0 <= now -> now + minutes 90 <= datetime_max ->
  create_sample_data uniform now
  = Returns (sample_mission uniform 0 "primary_drone" now,
             [sample_mission uniform 9 "traffic_drone_1" (now + minutes 15);
              sample_mission uniform 18 "traffic_drone_2" (now + minutes 30)]).
Proof.
  intros Hu H0 Hmax.
  assert (Hxy : forall j, (uniform j 0 300 <? 0)%float = false).
  { intros j. apply leb_zero_ltb_false, Hu. reflexivity. }
  assert (Hz : forall j, (uniform j 10 30 <? 0)%float = false).
  { intros j. apply (leb_leb_zero_ltb_false 10); [reflexivity|].
    apply Hu. reflexivity. }
  assert (G : forall k id start, 0 <= start -> start + minutes 60 <= datetime_max ->
    _generate_drone_mission uniform k id start (hours 1) 300 10 30 3
    = Returns (sample_mission uniform k id start)).
  { intros k id start Hs He.
    rewrite (generate_drone_mission_spec uniform k id start (hours 1) 300 10 30 3
               Hxy Hz); try reflexivity; try lia.
    - unfold hours, minutes in *. lia.
    - change (divide_nearest (hours 1) (3 - 1) * (3 - 1)) with 3600000000.
      unfold minutes in *. lia. }
  unfold minutes, hours in *.
  unfold create_sample_data, generate_mission_data.
  rewrite G by (unfold minutes; lia). cbn [gbind].
  change (seq 0 (Z.to_nat 2)) with [0; 1]%nat.
  cbn [generate_traffic]. unfold timedelta_mul.
  change (timedelta_check (minutes 15 * Z.of_nat 1)) with (Ok 900000000).
  change (timedelta_check (minutes 15 * Z.of_nat 2)) with (Ok 1800000000).
  cbn [of_result gbind].
  rewrite !datetime_add_in_range by lia. cbn [of_result gbind].
  rewrite !G by (unfold minutes; lia). reflexivity.
Qed.

Lemma sample_data_is_generated_witness :
  create_sample_data highest (at_time 10 0 0)
  = Returns (sample_mission highest 0 "primary_drone" (at_time 10 0 0),
             [sample_mission highest 9 "traffic_drone_1" (at_time 10 15 0);
              sample_mission highest 18 "traffic_drone_2" (at_time 10 30 0)]).
Proof.
  apply (sample_data_is_generated highest (at_time 10 0 0)).
  - intros j a b H. exact H.
  - vm_compute. discriminate.
  - vm_compute. discriminate.
Defined.

Lemma gbind_Returns {A B : Type} (g : generated A) (k : A -> generated B) (b : B) :
  gbind g k = Returns b -> exists a, g = Returns a /\ k a = Returns b.
Proof.
  destruct g as [a|e|]; simpl; intros H; [eauto|discriminate|discriminate].
Qed.

Lemma of_result_Returns {A : Type} (r : result A) (a : A) :
  of_result r = Returns a -> r = Ok a.
Proof.
  destruct r; simpl; intros H; [injection H as ->; reflexivity|discriminate].
Qed.

Lemma datetime_add_Ok (t : datetime) (d : timedelta) (r : datetime) :
  datetime_add t d = Ok r -> r = t + d.
Proof.
  unfold datetime_add.
  destruct ((0 <=? t + d) && (t + d <=? datetime_max)); intros H;
    [injection H as <-; reflexivity|discriminate].
Qed.

Lemma timedelta_check_Ok (us r : Z) : timedelta_check us = Ok r -> r = us.
Proof.
  unfold timedelta_check.
  destruct (Z.abs (us / (86400 * 1000000)) <=? timedelta_max_days); intros H;
    [injection H as <-; reflexivity|discriminate].
Qed.

Lemma generate_waypoints_length (uniform : nat -> float -> float -> float)
    (start_time : datetime) (time_step : timedelta)
    (area_size min_altitude max_altitude : float)
    (indices : list nat) (k : nat) (ws : list Waypoint) :
  generate_waypoints uniform k start_time time_step area_size
    min_altitude max_altitude indices = Ok ws ->
  List.length ws = List.length indices.
Proof.
  revert k ws. induction indices as [|i rest IH]; intros k ws H.
  - injection H as <-. reflexivity.
  - cbn [generate_waypoints] in H.
    apply bind_Ok in H as (offset & _ & H). apply bind_Ok in H as (ts & _ & H).
    apply bind_Ok in H as (w & _ & H). apply bind_Ok in H as (ws' & Hws & H).
    injection H as <-. simpl. rewrite (IH _ _ Hws). reflexivity.
Qed.

Lemma generate_drone_mission_returns
    (uniform : nat -> float -> float -> float) (k : nat) (id : string)
    (start : datetime) (duration : timedelta)
    (area_size min_altitude max_altitude : float) (n : Z) (m : Mission) :
  _generate_drone_mission uniform k id start duration
    area_size min_altitude max_altitude n = Returns m ->
  drone_id m = id /\ start_time m = start /\
  end_time m = start + duration /\
  List.length (waypoints m) = Z.to_nat n.
Proof.
  unfold _generate_drone_mission. intros H.
  apply gbind_Returns in H as (e & He & H). apply of_result_Returns in He.
  apply gbind_Returns in H as (step & _ & H).
  apply gbind_Returns in H as (ws & Hws & H). apply of_result_Returns in Hws.
  apply of_result_Returns in H. apply datetime_add_Ok in He. subst e.
  apply generate_waypoints_length in Hws. rewrite length_seq in Hws.
  rewrite new_Mission_unfold in H. destruct ws as [|w ws']; [discriminate|].
  destruct (_ <=? _); [discriminate|].
  destruct (forallb _ _); [|discriminate]. injection H as <-.
  cbn [drone_id start_time end_time waypoints].
  repeat split. rewrite <- Hws. symmetry.
  apply Permutation_length, stored_waypoints_perm.
Qed.

Lemma generate_traffic_returns
    (uniform : nat -> float -> float -> float) (now : datetime)
    (time_buffer duration : timedelta)
    (area_size min_altitude max_altitude : float) (n : Z)
    (indices : list nat) (ms : list Mission) :
  generate_traffic uniform now time_buffer duration area_size
    min_altitude max_altitude n indices = Returns ms ->
  Forall2 (fun i m =>
             drone_id m = traffic_drone_id i /\
             start_time m = now + time_buffer * (Z.of_nat i + 1) /\
             end_time m = start_time m + duration /\
             List.length (waypoints m) = Z.to_nat n)
          indices ms.
Proof.
  revert ms. induction indices as [|i rest IH]; intros ms H.
  - injection H as <-. constructor.
  - cbn [generate_traffic] in H.
    apply gbind_Returns in H as (offset & Ho & H). apply of_result_Returns in Ho.
    apply gbind_Returns in H as (st & Hst & H). apply of_result_Returns in Hst.
    apply gbind_Returns in H as (m & Hm & H).
    apply gbind_Returns in H as (ms' & Hms & H). injection H as <-.
    apply timedelta_check_Ok in Ho. apply datetime_add_Ok in Hst.
    apply generate_drone_mission_returns in Hm as (H1 & H2 & H3 & H4).
    constructor; [|apply IH, Hms].
    rewrite H3, H2, Hst, Ho. repeat split; try assumption. lia.
Qed.

Lemma Forall2_nth_error {A B : Type} (R : A -> B -> Prop)
    (l : list A) (l' : list B) (i : nat) (a : A) (b : B) :
  Forall2 R l l' -> nth_error l i = Some a -> nth_error l' i = Some b -> R a b.
Proof.
  intros H. revert i. induction H as [|a0 b0 l l' Hab Hl IH]; intros i Ha Hb.
  - destruct i; discriminate.
  - destruct i as [|i]; simpl in Ha, Hb.
    + injection Ha as <-. injection Hb as <-. exact Hab.
    + apply (IH i); assumption.
Qed.

(** X16: whenever [generate_mission_data] returns, the primary trajectory
    is "primary_drone" and starts at the time of the call; there are
    [num_traffic_drones] other trajectories, the one of index [i] is
    "traffic_drone_{i+1}" and starts [time_buffer * (i + 1)] after the call;
    every trajectory lasts [mission_duration] and has [waypoints_per_drone]
    waypoints. *)
Theorem generated_data_shape
    (uniform : nat -> float -> float -> float) (now : datetime)
    (num_traffic_drones waypoints_per_drone : Z)
    (area_size min_altitude max_altitude : float)
    (mission_duration time_buffer : timedelta)
    (primary : Mission) (others : list Mission) :
  generate_mission_data uniform now num_traffic_drones waypoints_per_drone
    area_size min_altitude max_altitude mission_duration time_buffer
    = Returns (primary, others) ->
  drone_id primary = "primary_drone"%string /\
  start_time primary = now /\
  end_time primary = now + mission_duration /\
  List.length (waypoints primary) = Z.to_nat waypoints_per_drone /\
  List.length others = Z.to_nat num_traffic_drones /\
  forall i m, nth_error others i = Some m ->
    drone_id m = traffic_drone_id i /\
    start_time m = now + time_buffer * (Z.of_nat i + 1) /\
    end_time m = start_time m + mission_duration /\
    List.length (waypoints m) = Z.to_nat waypoints_per_drone.
Proof.
  unfold generate_mission_data. intros H.
  apply gbind_Returns in H as (p & Hp & H).
  apply gbind_Returns in H as (os & Hos & H). injection H as <- <-.
  apply generate_drone_mission_returns in Hp as (H1 & H2 & H3 & H4).
  apply generate_traffic_returns in Hos.
  repeat (split; [assumption|]). split.
  - rewrite <- (Forall2_length Hos). apply length_seq.
  - intros i m Hi.
    assert (Hlen : (i < List.length os)%nat)
      by (apply nth_error_Some; congruence).
    rewrite <- (Forall2_length Hos), length_seq in Hlen.
    assert (Hseq : nth_error (seq 0 (Z.to_nat num_traffic_drones)) i = Some i).
    { rewrite nth_error_nth' with (d := 0%nat) by (rewrite length_seq; lia).
      rewrite seq_nth by lia. reflexivity. }
    apply (Forall2_nth_error _ _ _ _ _ _ Hos Hseq Hi).
Qed.

Lemma generated_data_shape_witness :
  generate_mission_data highest (at_time 10 0 0) 2 3 300 10 30 (hours 1) (minutes 15)
  = Returns (sample_mission highest 0 "primary_drone" (at_time 10 0 0),
             [sample_mission highest 9 "traffic_drone_1" (at_time 10 15 0);
              sample_mission highest 18 "traffic_drone_2" (at_time 10 30 0)]) /\
  List.length [sample_mission highest 9 "traffic_drone_1" (at_time 10 15 0);
               sample_mission highest 18 "traffic_drone_2" (at_time 10 30 0)]
  = Z.to_nat 2.
Proof.
  assert (E : generate_mission_data highest (at_time 10 0 0) 2 3 300 10 30
                (hours 1) (minutes 15)
    = Returns (sample_mission highest 0 "primary_drone" (at_time 10 0 0),
               [sample_mission highest 9 "traffic_drone_1" (at_time 10 15 0);
                sample_mission highest 18 "traffic_drone_2" (at_time 10 30 0)]))
    by (vm_compute; reflexivity).
  split; [exact E|].
  exact (proj1 (proj2 (proj2 (proj2 (proj2
    (generated_data_shape _ _ _ _ _ _ _ _ _ _ _ E)))))).
Defined.

Lemma new_Waypoint_timestamp (px py : float) (pz : option float)
    (ts : option datetime) (w : Waypoint) :
  new_Waypoint px py pz ts = Ok w -> timestamp w = ts.
Proof.
  unfold new_Waypoint, Waypoint_post_init. cbn [x y z].
  destruct (_ || _); [discriminate|].
  destruct pz as [alt|]; [destruct (alt <? 0)%float; [discriminate|]|];
    intros H; injection H as <-; reflexivity.
Qed.

Lemma generate_waypoints_timestamped (uniform : nat -> float -> float -> float)
    (start_time : datetime) (time_step : timedelta)
    (area_size min_altitude max_altitude : float)
    (indices : list nat) (k : nat) (ws : list Waypoint) :
  generate_waypoints uniform k start_time time_step area_size
    min_altitude max_altitude indices = Ok ws ->
  forallb has_timestamp ws = true.
Proof.
  revert k ws. induction indices as [|i rest IH]; intros k ws H.
  - injection H as <-. reflexivity.
  - cbn [generate_waypoints] in H.
    apply bind_Ok in H as (offset & _ & H). apply bind_Ok in H as (ts & _ & H).
    apply bind_Ok in H as (w & Hw & H). apply bind_Ok in H as (ws' & Hws & H).
    injection H as <-. cbn [forallb]. rewrite (IH _ _ Hws).
    unfold has_timestamp. rewrite (new_Waypoint_timestamp _ _ _ _ _ Hw).
    reflexivity.
Qed.

Lemma generate_drone_mission_timestamped
    (uniform : nat -> float -> float -> float) (k : nat) (id : string)
    (start : datetime) (duration : timedelta)
    (area_size min_altitude max_altitude : float) (n : Z) (m : Mission) :
  _generate_drone_mission uniform k id start duration
    area_size min_altitude max_altitude n = Returns m ->
  forallb has_timestamp (waypoints m) = true.
Proof.
  unfold _generate_drone_mission. intros H.
  apply gbind_Returns in H as (e & _ & H).
  apply gbind_Returns in H as (step & _ & H).
  apply gbind_Returns in H as (ws & Hws & H). apply of_result_Returns in Hws.
  apply of_result_Returns in H.
  apply generate_waypoints_timestamped in Hws.
  rewrite new_Mission_unfold in H. destruct ws as [|w ws']; [discriminate|].
  destruct (_ <=? _); [discriminate|].
  destruct (forallb _ (stored_waypoints _)); [|discriminate]. injection H as <-.
  cbn [waypoints].
  rewrite <- (forallb_perm _ _ _ (stored_waypoints_perm (w :: ws'))). exact Hws.
Qed.

Lemma generate_traffic_timestamped
    (uniform : nat -> float -> float -> float) (now : datetime)
    (time_buffer duration : timedelta)
    (area_size min_altitude max_altitude : float) (n : Z)
    (indices : list nat) (ms : list Mission) :
  generate_traffic uniform now time_buffer duration area_size
    min_altitude max_altitude n indices = Returns ms ->
  forall o, In o ms -> forallb has_timestamp (waypoints o) = true.
Proof.
  revert ms. induction indices as [|i rest IH]; intros ms H o Ho.
  - injection H as <-. destruct Ho.
  - cbn [generate_traffic] in H.
    apply gbind_Returns in H as (offset & _ & H).
    apply gbind_Returns in H as (st & _ & H).
    apply gbind_Returns in H as (m & Hm & H).
    apply gbind_Returns in H as (ms' & Hms & H). injection H as <-.
    destruct Ho as [<-|Ho].
    + apply (generate_drone_mission_timestamped _ _ _ _ _ _ _ _ _ _ Hm).
    + apply (IH _ Hms o Ho).
Qed.

Lemma check_mission_not_TypeError {L : Libm} (self : ConflictDetector) (p : Mission)
    (others : list Mission) :
  forallb has_timestamp (waypoints p) = true ->
  (forall o, In o others -> forallb has_timestamp (waypoints o) = true) ->
  check_mission self p others <> Raise TypeError.
Proof.
  intros Hp Ho. unfold check_mission. apply bind_not_raise.
  - apply for_each_not_raise. intros o Hin. unfold _check_mission_pair.
    apply for_each_not_raise. intros [A0 A1] HA.
    apply for_each_not_raise. intros [B0 B1] HB. cbn [fst snd].
    destruct (segments_timestamped _ _ _ Hp HA).
    destruct (segments_timestamped _ _ _ (Ho o Hin) HB).
    apply check_segment_pair_not_TypeError; assumption.
  - intros [|c cs]; discriminate.
Qed.

(** X17: every waypoint of generated data has a timestamp, so that
    [check_mission] on generated data never raises TypeError. *)
Theorem generated_data_is_timestamped {L : Libm}
    (uniform : nat -> float -> float -> float) (now : datetime)
    (num_traffic_drones waypoints_per_drone : Z)
    (area_size min_altitude max_altitude : float)
    (mission_duration time_buffer : timedelta)
    (primary : Mission) (others : list Mission) (self : ConflictDetector) :
  generate_mission_data uniform now num_traffic_drones waypoints_per_drone
    area_size min_altitude max_altitude mission_duration time_buffer
    = Returns (primary, others) ->
  forallb has_timestamp (waypoints primary) = true /\
  (forall o, In o others -> forallb has_timestamp (waypoints o) = true) /\
  check_mission self primary others <> Raise TypeError.
Proof.
  unfold generate_mission_data. intros H.
  apply gbind_Returns in H as (p & Hp & H).
  apply gbind_Returns in H as (os & Hos & H). injection H as <- <-.
  pose proof (generate_drone_mission_timestamped _ _ _ _ _ _ _ _ _ _ Hp) as H1.
  pose proof (generate_traffic_timestamped _ _ _ _ _ _ _ _ _ _ Hos) as H2.
  split; [exact H1|]. split; [exact H2|].
  apply check_mission_not_TypeError; assumption.
Qed.

Lemma generated_data_is_timestamped_witness :
  let L := rounded_libm in
  generate_mission_data highest (at_time 10 0 0) 2 3 300 10 30 (hours 1) (minutes 15)
  = Returns (sample_mission highest 0 "primary_drone" (at_time 10 0 0),
             [sample_mission highest 9 "traffic_drone_1" (at_time 10 15 0);
              sample_mission highest 18 "traffic_drone_2" (at_time 10 30 0)]) /\
  check_mission detector50 (sample_mission highest 0 "primary_drone" (at_time 10 0 0))
    [sample_mission highest 9 "traffic_drone_1" (at_time 10 15 0);
     sample_mission highest 18 "traffic_drone_2" (at_time 10 30 0)]
  <> Raise TypeError.
Proof.
  intros L.
  assert (E : generate_mission_data highest (at_time 10 0 0) 2 3 300 10 30
                (hours 1) (minutes 15)
    = Returns (sample_mission highest 0 "primary_drone" (at_time 10 0 0),
               [sample_mission highest 9 "traffic_drone_1" (at_time 10 15 0);
                sample_mission highest 18 "traffic_drone_2" (at_time 10 30 0)]))
    by (vm_compute; reflexivity).
  split; [exact E|].
  exact (proj2 (proj2
    (generated_data_is_timestamped (L := L) _ _ _ _ _ _ _ _ _ _ _ detector50 E))).
Defined.

(** ** Symmetry of the detection *)

Lemma sim_refl a : sim a a.
Proof. left. reflexivity. Qed.

Lemma sim_sym a b : sim a b -> sim b a.
Proof. intros [->|[H1 H2]]; [left; reflexivity|right; auto]. Qed.

Lemma sim_trans a b c : sim a b -> sim b c -> sim a c.
Proof.
  intros [->|[H1 H2]] [->|[H3 H4]]; try (left; reflexivity);
    try (right; auto).
Qed.

Lemma opp_or_zeros_sim a b : opp_or_zeros a b -> sim (SFopp a) b.
Proof.
  intros [->|[[s ->] H]]; [apply sim_refl|].
  right. split; [eexists; reflexivity|exact H].
Qed.

Ltac zeros := right; split; eexists; reflexivity.

Lemma SFopp_sim a a' : sim a a' -> sim (SFopp a) (SFopp a').
Proof.
  intros [->|[[s ->] [s' ->]]]; [apply sim_refl|zeros].
Qed.

Lemma SFopp_involutive a : SFopp (SFopp a) = a.
Proof. destruct a; simpl; rewrite ?negb_involutive; reflexivity. Qed.

Lemma SFmul_sim a a' b b' :
  sim a a' -> sim b b' -> sim (SF64mul a b) (SF64mul a' b').
Proof.
  unfold SF64mul, SFmul.
  intros [->|[[s ->] [s' ->]]] [->|[[t ->] [t' ->]]];
    try apply sim_refl; try zeros.
  - destruct a' as [sa|sa| |sa ma ea]; try apply sim_refl; zeros.
  - destruct b' as [sb|sb| |sb mb eb]; try apply sim_refl; zeros.
Qed.

Lemma SFmul_opp_l (a b : spec_float) : SF64mul (SFopp a) b = SFopp (SF64mul a b).
Proof.
  rewrite (SFmul_comm (SFopp a)), SFmul_opp_r, (SFmul_comm b). reflexivity.
Qed.

Lemma SFsub_sim a a' b b' :
  sim a a' -> sim b b' -> sim (SF64sub a b) (SF64sub a' b').
Proof.
  unfold SF64sub, SFsub.
  intros [->|[[s ->] [s' ->]]] [->|[[t ->] [t' ->]]];
    try apply sim_refl.
  - destruct a' as [sa|sa| |sa ma ea]; try apply sim_refl;
      destruct sa, t, t'; try apply sim_refl; zeros.
  - destruct b' as [sb|sb| |sb mb eb]; try apply sim_refl;
      destruct s, s', sb; try apply sim_refl; zeros.
  - destruct s, s', t, t'; zeros.
Qed.

Lemma SFsub_opp_opp (p q : spec_float) :
  sim (SF64sub (SFopp p) (SFopp q)) (SF64sub q p).
Proof.
  unfold SF64sub, SFsub.
  destruct p as [sp|sp| |sp mp ep], q as [sq|sq| |sq mq eq];
    cbn [SFopp];
    try solve [ apply sim_refl
              | destruct sp, sq; solve [apply sim_refl | zeros] ].
  rewrite (Z.min_comm eq ep).
    replace (cond_Zopp (negb sp) (Z.pos (fst (shl_align mp ep (Z.min ep eq))))
             - cond_Zopp (negb sq) (Z.pos (fst (shl_align mq eq (Z.min ep eq)))))
      with (cond_Zopp sq (Z.pos (fst (shl_align mq eq (Z.min ep eq))))
            - cond_Zopp sp (Z.pos (fst (shl_align mp ep (Z.min ep eq)))))
      by (destruct sp, sq; simpl; lia).
    apply sim_refl.
Qed.

Lemma SFdiv_opp_r (a b : spec_float) : SF64div a (SFopp b) = SFopp (SF64div a b).
Proof.
  unfold SF64div, SFdiv.
  destruct a as [sa|sa| |sa ma ea], b as [sb|sb| |sb mb eb]; cbn [SFopp];
    try reflexivity; try (rewrite <- negb_xorb_r; reflexivity).
  destruct (SFdiv_core_binary prec emax (Z.pos ma) ea (Z.pos mb) eb) as [[mz ez] lz].
  rewrite <- binary_round_aux_opp, <- negb_xorb_r. reflexivity.
Qed.

Lemma SFdiv_opp_l (a b : spec_float) : SF64div (SFopp a) b = SFopp (SF64div a b).
Proof.
  unfold SF64div, SFdiv.
  destruct a as [sa|sa| |sa ma ea], b as [sb|sb| |sb mb eb]; cbn [SFopp];
    try reflexivity; try (rewrite <- negb_xorb_l; reflexivity).
  destruct (SFdiv_core_binary prec emax (Z.pos ma) ea (Z.pos mb) eb) as [[mz ez] lz].
  rewrite <- binary_round_aux_opp, <- negb_xorb_l. reflexivity.
Qed.

Lemma SFdiv_sim n n' d : sim n n' -> sim (SF64div n d) (SF64div n' d).
Proof.
  unfold SF64div, SFdiv.
  intros [->|[[s ->] [s' ->]]]; [apply sim_refl|].
  destruct d as [sd|sd| |sd md ed]; try apply sim_refl; zeros.
Qed.

Lemma SFleb_sim_r z a a' : sim a a' -> SFleb z a = SFleb z a'.
Proof.
  intros [->|[[s ->] [s' ->]]]; [reflexivity|].
  destruct z as [sz|sz| |sz mz ez]; reflexivity.
Qed.

Lemma SFleb_sim_l o a a' : sim a a' -> SFleb a o = SFleb a' o.
Proof.
  intros [->|[[s ->] [s' ->]]]; [reflexivity|].
  destruct o as [sz|sz| |sz mz ez]; reflexivity.
Qed.

Lemma SFeqb_zero_sim a a' :
  sim a a' -> SFeqb a (S754_zero false) = SFeqb a' (S754_zero false).
Proof.
  intros [->|[[s ->] [s' ->]]]; reflexivity.
Qed.

Lemma SFeqb_zero_opp a :
  SFeqb (SFopp a) (S754_zero false) = SFeqb a (S754_zero false).
Proof.
  destruct a as [s|s| |s m e]; try reflexivity; destruct s; reflexivity.
Qed.

Lemma simf_refl a : simf a a.
Proof. apply sim_refl. Qed.

Lemma simf_sym a b : simf a b -> simf b a.
Proof. apply sim_sym. Qed.

Lemma simf_trans a b c : simf a b -> simf b c -> simf a c.
Proof. apply sim_trans. Qed.

Lemma simf_mul a a' b b' : simf a a' -> simf b b' -> simf (a * b) (a' * b').
Proof. unfold simf. rewrite !mul_spec. apply SFmul_sim. Qed.

Lemma simf_sub a a' b b' : simf a a' -> simf b b' -> simf (a - b) (a' - b').
Proof. unfold simf. rewrite !sub_spec. apply SFsub_sim. Qed.

Lemma simf_opp a a' : simf a a' -> simf (- a) (- a').
Proof. unfold simf. rewrite !opp_spec. apply SFopp_sim. Qed.

Lemma simf_div a a' d : simf a a' -> simf (a / d) (a' / d).
Proof. unfold simf. rewrite !div_spec. apply SFdiv_sim. Qed.

Lemma simf_sub_swap a b : simf (- (a - b)) (b - a).
Proof.
  unfold simf. rewrite opp_spec. apply opp_or_zeros_sim, sub_swap.
Qed.

Lemma simf_sub_opp_opp p q : simf ((- p) - (- q)) (q - p).
Proof.
  unfold simf. rewrite !sub_spec, !opp_spec. apply SFsub_opp_opp.
Qed.

Lemma mul_opp_l_float a b : ((- a) * b = - (a * b))%float.
Proof.
  apply Prim2SF_inj. rewrite opp_spec, !mul_spec, opp_spec. apply SFmul_opp_l.
Qed.

Lemma mul_opp_r_float a b : (a * (- b) = - (a * b))%float.
Proof.
  apply Prim2SF_inj. rewrite opp_spec, !mul_spec, opp_spec. apply SFmul_opp_r.
Qed.

Lemma div_opp_l_float a b : ((- a) / b = - (a / b))%float.
Proof.
  apply Prim2SF_inj. rewrite opp_spec, !div_spec, opp_spec. apply SFdiv_opp_l.
Qed.

Lemma div_opp_r_float a b : (a / (- b) = - (a / b))%float.
Proof.
  apply Prim2SF_inj. rewrite opp_spec, !div_spec, opp_spec. apply SFdiv_opp_r.
Qed.

Lemma opp_involutive_float a : (- - a = a)%float.
Proof.
  apply Prim2SF_inj. rewrite !opp_spec. apply SFopp_involutive.
Qed.

Lemma simf_leb_r z a a' : simf a a' -> (z <=? a)%float = (z <=? a')%float.
Proof. rewrite !leb_spec. apply SFleb_sim_r. Qed.

Lemma simf_leb_l o a a' : simf a a' -> (a <=? o)%float = (a' <=? o)%float.
Proof. rewrite !leb_spec. apply SFleb_sim_l. Qed.

Lemma simf_eqb_zero a a' : simf a a' -> (a =? 0)%float = (a' =? 0)%float.
Proof. rewrite !eqb_spec. apply SFeqb_zero_sim. Qed.

Lemma opp_eqb_zero a : (- a =? 0)%float = (a =? 0)%float.
Proof. rewrite !eqb_spec, opp_spec. apply SFeqb_zero_opp. Qed.

Lemma simf_not_zero a b : simf a b -> (a =? 0)%float = false -> a = b.
Proof.
  unfold simf. rewrite eqb_spec. intros [H|[[s H] _]] Hz.
  - apply Prim2SF_inj, H.
  - rewrite H in Hz. discriminate.
Qed.

Lemma intersects_swap (A0 A1 B0 B1 : Waypoint) :
  intersects B0 B1 A0 A1 = intersects A0 A1 B0 B1.
Proof.
  unfold intersects, _find_intersection. cbn [fst snd].
  set (a := (x A0 - x A1)%float). set (b := (y A0 - y A1)%float).
  set (c := (x B0 - x B1)%float). set (d := (y B0 - y B1)%float).
  set (e := (x A0 - x B0)%float). set (f := (y A0 - y B0)%float).
  set (e' := (x B0 - x A0)%float). set (f' := (y B0 - y A0)%float).
  set (den := (a * d - b * c)%float).
  assert (He : simf e' (- e)) by (apply simf_sym, simf_sub_swap).
  assert (Hf : simf f' (- f)) by (apply simf_sym, simf_sub_swap).
  assert (Hden : simf (c * b - d * a) (- den)).
  { unfold den. rewrite (mul_comm_float c b), (mul_comm_float d a).
    apply simf_sym, simf_sub_swap. }
  rewrite (simf_eqb_zero _ _ Hden), opp_eqb_zero.
  destruct (den =? 0)%float eqn:Ez; [reflexivity|].
  assert (Eden : (c * b - d * a)%float = (- den)%float).
  { symmetry. apply simf_not_zero; [apply simf_sym, Hden|].
    rewrite opp_eqb_zero. exact Ez. }
  rewrite Eden.
  assert (Ht : simf ((e' * b - f' * a) / - den) ((- (a * f - b * e)) / den)).
  { rewrite div_opp_r_float, div_opp_l_float. apply simf_opp, simf_div.
    eapply simf_trans; [|apply (simf_sub_opp_opp (b * e) (a * f))].
    apply simf_sub.
    - rewrite <- mul_opp_r_float, (mul_comm_float b (- e)).
      apply simf_mul; [exact He|apply simf_refl].
    - rewrite <- mul_opp_r_float, (mul_comm_float a (- f)).
      apply simf_mul; [exact Hf|apply simf_refl]. }
  assert (Hu : simf ((- (c * f' - d * e')) / - den) ((e * d - f * c) / den)).
  { rewrite div_opp_r_float, div_opp_l_float, opp_involutive_float.
    apply simf_div.
    eapply simf_trans; [|apply (simf_sub_opp_opp (f * c) (e * d))].
    apply simf_sub.
    - rewrite <- mul_opp_l_float, (mul_comm_float (- f) c).
      apply simf_mul; [apply simf_refl|exact Hf].
    - rewrite <- mul_opp_l_float, (mul_comm_float (- e) d).
      apply simf_mul; [apply simf_refl|exact He]. }
  rewrite (simf_leb_r _ _ _ Ht), (simf_leb_l _ _ _ Ht).
  rewrite (simf_leb_r _ _ _ Hu), (simf_leb_l _ _ _ Hu).
  set (u := ((- (a * f - b * e)) / den)%float).
  set (t := ((e * d - f * c) / den)%float).
  destruct ((0 <=? u)%float && (u <=? 1)%float);
    destruct ((0 <=? t)%float && (t <=? 1)%float); reflexivity.
Qed.

Lemma SFeqb_opp_self (a : spec_float) : SFeqb (SFopp a) (SFopp a) = SFeqb a a.
Proof.
  destruct a as [s|s| |s m e]; try reflexivity; try (destruct s; reflexivity).
  unfold SFeqb, SFcompare, SFopp.
  destruct s; simpl; rewrite Z.compare_refl, Pos.compare_cont_refl; reflexivity.
Qed.

Lemma SFabs_opp (a : spec_float) : SFabs (SFopp a) = SFabs a.
Proof. destruct a; reflexivity. Qed.

Lemma abs_opp_float (a : float) : abs (- a) = abs a.
Proof.
  apply Prim2SF_inj. rewrite !abs_spec, opp_spec. apply SFabs_opp.
Qed.

Lemma is_nan_opp (a : float) : is_nan (- a) = is_nan a.
Proof.
  unfold is_nan. rewrite !(eqb_spec (- a)), opp_spec, SFeqb_opp_self, <- eqb_spec.
  reflexivity.
Qed.

Lemma is_infinity_opp (a : float) : is_infinity (- a) = is_infinity a.
Proof. unfold is_infinity. rewrite abs_opp_float. reflexivity. Qed.

(** [**] with the exponent 2 sees the magnitude of its base only. *)
Lemma pow2_opp {L : Libm} (f : float) : pow2 (- f) = pow2 f.
Proof.
  unfold pow2. rewrite is_nan_opp, is_infinity_opp, abs_opp_float, opp_eqb_zero.
  destruct (is_nan f) eqn:Hn.
  { f_equal. apply Prim2SF_inj. rewrite opp_spec, (is_nan_inv f Hn). reflexivity. }
  destruct (is_infinity f); [reflexivity|].
  destruct (f =? 0)%float eqn:Hz; [reflexivity|]. cbv zeta.
  rewrite (neg_if_negative f Hz), (neg_if_negative (- f)), abs_opp_float;
    [reflexivity|].
  rewrite opp_eqb_zero. exact Hz.
Qed.

Lemma pow2_of_zero {L : Libm} (f : float) (s : bool) :
  Prim2SF f = S754_zero s -> pow2 f = Ok 0%float.
Proof.
  intros H. unfold pow2.
  assert (Hn : is_nan f = false).
  { unfold is_nan. rewrite eqb_spec, H. reflexivity. }
  assert (Hi : is_infinity f = false).
  { unfold is_infinity. rewrite eqb_spec, abs_spec, H. reflexivity. }
  rewrite Hn, Hi, (eqb_zero _ _ H). reflexivity.
Qed.

Lemma pow2_sub_swap {L : Libm} (a b : float) : pow2 (a - b) = pow2 (b - a).
Proof.
  destruct (sub_swap a b) as [H|[[s H] [s' H']]].
  - assert (E : (b - a)%float = (- (a - b))%float).
    { apply Prim2SF_inj. rewrite opp_spec. exact H. }
    rewrite E, pow2_opp. reflexivity.
  - rewrite (pow2_of_zero _ _ H), (pow2_of_zero _ _ H'). reflexivity.
Qed.

Lemma calculate_distance_swap {L : Libm} (a b : Waypoint) (p q : float * float) :
  _calculate_distance a b p = _calculate_distance b a q.
Proof.
  unfold _calculate_distance.
  rewrite (pow2_sub_swap (x a) (x b)), (pow2_sub_swap (y a) (y b)).
  reflexivity.
Qed.

Lemma check_temporal_overlap_swap (A0 A1 B0 B1 : Waypoint) (b b' : bool) :
  _check_temporal_overlap A0 A1 B0 B1 = Ok b ->
  _check_temporal_overlap B0 B1 A0 A1 = Ok b' -> b = b'.
Proof.
  unfold _check_temporal_overlap, datetime_lt.
  destruct (timestamp A0) as [a0|], (timestamp A1) as [a1|],
           (timestamp B0) as [b0|], (timestamp B1) as [b1|]; simpl;
    try discriminate;
    try (destruct (_ <? _); discriminate).
  destruct (a1 <? b0) eqn:E1, (b1 <? a0) eqn:E2; simpl; congruence.
Qed.

Lemma check_segment_pair_swap {L : Libm}
    (self : ConflictDetector) (m1 m2 : Mission) (A0 A1 B0 B1 : Waypoint)
    (r r' : list Conflict) :
  check_segment_pair self m1 m2 A0 A1 B0 B1 = Ok r ->
  check_segment_pair self m2 m1 B0 B1 A0 A1 = Ok r' ->
  List.length r = List.length r'.
Proof.
  unfold check_segment_pair. intros H H'.
  apply bind_Ok in H as (o & Ho & H). apply bind_Ok in H' as (o' & Ho' & H').
  pose proof (check_temporal_overlap_swap _ _ _ _ _ _ Ho Ho') as <-.
  destruct o; [|congruence].
  pose proof (intersects_swap A0 A1 B0 B1) as Hi. unfold intersects in Hi.
  destruct (_find_intersection A0 A1 B0 B1) as [p|],
           (_find_intersection B0 B1 A0 A1) as [p'|]; try discriminate;
    [|congruence].
  apply bind_Ok in H as (t & _ & H). apply bind_Ok in H' as (t' & _ & H').
  rewrite (calculate_distance_swap A0 B0 p p') in H.
  destruct (_calculate_distance B0 A0 p') as [d|]; [|discriminate].
  cbn [bind] in H, H'.
  destruct (d <? safety_buffer self)%float;
    injection H as <-; injection H' as <-; reflexivity.
Qed.

Lemma for_each_count {A B : Type} (f : A -> result (list B)) (l : list A)
    (rs : list B) :
  for_each f l = Ok rs ->
  List.length rs = list_sum (map (fun a => count_of (f a)) l).
Proof.
  revert rs. induction l as [|a l IH]; simpl; intros rs H.
  - injection H as <-. reflexivity.
  - apply bind_Ok in H as (r & Hr & H).
    apply bind_Ok in H as (rs' & Hrs & H). injection H as <-.
    rewrite length_app, Hr, (IH _ Hrs). reflexivity.
Qed.

Lemma list_sum_swap {A B : Type} (g : A -> B -> nat) (la : list A) (lb : list B) :
  list_sum (map (fun a => list_sum (map (g a) lb)) la)
  = list_sum (map (fun b => list_sum (map (fun a => g a b) la)) lb).
Proof.
  induction la as [|a la IH]; simpl.
  - induction lb as [|b lb IHb]; simpl; [reflexivity|]. exact IHb.
  - rewrite IH. clear IH.
    induction lb as [|b lb IHb]; simpl; [reflexivity|].
    rewrite <- IHb. lia.
Qed.

Lemma list_sum_ext_in {A : Type} (f g : A -> nat) (l : list A) :
  (forall a, In a l -> f a = g a) ->
  list_sum (map f l) = list_sum (map g l).
Proof. intros H. rewrite (map_ext_in f g l H). reflexivity. Qed.

Lemma check_mission_pair_count {L : Libm}
    (self : ConflictDetector) (m1 m2 : Mission) (cs : list Conflict) :
  _check_mission_pair self m1 m2 = Ok cs ->
  List.length cs
  = list_sum (map (fun s1 => list_sum (map (fun s2 =>
      count_of (check_segment_pair self m1 m2 (fst s1) (snd s1) (fst s2) (snd s2)))
      (segments (waypoints m2)))) (segments (waypoints m1)))
  /\ forall s1 s2, In s1 (segments (waypoints m1)) ->
       In s2 (segments (waypoints m2)) ->
       exists r, check_segment_pair self m1 m2 (fst s1) (snd s1) (fst s2) (snd s2)
                 = Ok r.
Proof.
  unfold _check_mission_pair. intros H. split.
  - rewrite (for_each_count _ _ _ H). apply list_sum_ext_in.
    intros s1 H1. destruct (for_each_each_Ok _ _ _ s1 H H1) as [r Hr].
    rewrite Hr. simpl. exact (for_each_count _ _ _ Hr).
  - intros s1 s2 H1 H2.
    destruct (for_each_each_Ok _ _ _ s1 H H1) as [r Hr].
    exact (for_each_each_Ok _ _ _ s2 Hr H2).
Qed.

Lemma check_mission_pair_swap {L : Libm}
    (self : ConflictDetector) (m1 m2 : Mission) (cs cs' : list Conflict) :
  _check_mission_pair self m1 m2 = Ok cs ->
  _check_mission_pair self m2 m1 = Ok cs' ->
  List.length cs = List.length cs'.
Proof.
  intros H H'.
  apply check_mission_pair_count in H as [-> Hok].
  apply check_mission_pair_count in H' as [-> Hok'].
  rewrite list_sum_swap.
  apply list_sum_ext_in. intros s2 H2.
  apply list_sum_ext_in. intros s1 H1.
  destruct (Hok s1 s2 H1 H2) as [r Hr], (Hok' s2 s1 H2 H1) as [r' Hr'].
  rewrite Hr, Hr'. simpl.
  exact (check_segment_pair_swap _ _ _ _ _ _ _ _ _ Hr Hr').
Qed.

(** X18: detection does not depend on which of two trajectories is the
    primary one. When [check_mission] returns for [p] against [o] and for
    [o] against [p], the two runs give the same status and the same number
    of conflicts: the temporal test, the intersection test and the distance
    of the start waypoints are symmetric in the two segments (the
    intersection test up to the sign of zeros, which no comparison sees).
    Either run can raise where the other returns, hence the two
    hypotheses. *)
Theorem detection_is_symmetric {L : Libm}
    (self : ConflictDetector) (p o : Mission)
    (status status' : string) (cs cs' : list Conflict) :
  check_mission self p [o] = Ok (status, cs) ->
  check_mission self o [p] = Ok (status', cs') ->
  status = status' /\ List.length cs = List.length cs'.
Proof.
  rewrite !check_mission_status. cbn [for_each]. intros H H'.
  apply bind_Ok in H as (l & Hl & H). apply bind_Ok in H' as (l' & Hl' & H').
  apply bind_Ok in Hl as (r & Hr & Hl). apply bind_Ok in Hl' as (r' & Hr' & Hl').
  cbn [bind] in Hl, Hl'. injection Hl as <-. injection Hl' as <-.
  injection H as <- <-. injection H' as <- <-.
  pose proof (check_mission_pair_swap _ _ _ _ _ Hr Hr') as E.
  rewrite !app_nil_r. split; [|exact E].
  destruct r, r'; try discriminate; reflexivity.
Qed.

Lemma detection_is_symmetric_witness :
  let L := rounded_libm in
  check_mission detector50 crossing_primary [crossing_other]
  = Ok ("conflict detected"%string,
        [mkConflict (20, 20)%float (at_time 10 5 0) "primary" "other" 40%float]) /\
  check_mission detector50 crossing_other [crossing_primary]
  = Ok ("conflict detected"%string,
        [mkConflict (20, 20)%float (at_time 10 5 0) "other" "primary" 40%float]) /\
  "conflict detected"%string = "conflict detected"%string /\
  List.length
    [mkConflict (20, 20)%float (at_time 10 5 0) "primary" "other" 40%float]
  = List.length
    [mkConflict (20, 20)%float (at_time 10 5 0) "other" "primary" 40%float].
Proof.
  intros L.
  split; [vm_compute; reflexivity|]. split; [vm_compute; reflexivity|].
  apply (detection_is_symmetric (L := L) detector50 crossing_primary crossing_other
           "conflict detected" "conflict detected"
           [mkConflict (20, 20)%float (at_time 10 5 0) "primary" "other" 40%float]
           [mkConflict (20, 20)%float (at_time 10 5 0) "other" "primary" 40%float]);
    vm_compute; reflexivity.
Defined.

(** ** NaN coordinates *)

Lemma sub_nan_l (a b : float) : Prim2SF a = S754_nan -> Prim2SF (a - b) = S754_nan.
Proof. intros H. rewrite sub_spec, H. reflexivity. Qed.

Lemma sub_nan_r (a b : float) : Prim2SF b = S754_nan -> Prim2SF (a - b) = S754_nan.
Proof. intros H. rewrite sub_spec, H. destruct (Prim2SF a); reflexivity. Qed.

Lemma mul_nan_l (a b : float) : Prim2SF a = S754_nan -> Prim2SF (a * b) = S754_nan.
Proof. intros H. rewrite mul_spec, H. reflexivity. Qed.

Lemma mul_nan_r (a b : float) : Prim2SF b = S754_nan -> Prim2SF (a * b) = S754_nan.
Proof. intros H. rewrite mul_spec, H. destruct (Prim2SF a); reflexivity. Qed.

Lemma nan_denominator (A0 A1 B0 B1 : Waypoint) :
  has_nan A0 = true \/ has_nan A1 = true ->
  zero_or_nan (denominator A0 A1 B0 B1).
Proof.
  unfold has_nan, denominator. intros H. right.
  destruct H as [H|H]; apply orb_true_iff in H as [H|H]; apply is_nan_inv in H.
  - apply sub_nan_l, mul_nan_l, sub_nan_l, H.
  - apply sub_nan_r, mul_nan_l, sub_nan_l, H.
  - apply sub_nan_l, mul_nan_l, sub_nan_r, H.
  - apply sub_nan_r, mul_nan_l, sub_nan_r, H.
Qed.

(** X19: a NaN coordinate hides every conflict. The constructor of
    [Waypoint] only rejects coordinates below 0, which NaN is not; when
    every segment of the primary trajectory has an end whose [x] or [y] is
    NaN and all waypoints are timestamped, the denominator of every segment
    pair is NaN, no intersection is found and [check_mission] returns
    "clear" with no conflict, whatever the other trajectories are. *)
Theorem nan_coordinate_hides_conflicts {L : Libm}
    (self : ConflictDetector) (p : Mission) (others : list Mission) :
  forallb has_timestamp (waypoints p) = true ->
  (forall o, In o others -> forallb has_timestamp (waypoints o) = true) ->
  (forall A0 A1, In (A0, A1) (segments (waypoints p)) ->
     has_nan A0 = true \/ has_nan A1 = true) ->
  check_mission self p others = Ok ("clear"%string, []).
Proof.
  intros Hp Ho Hn. unfold check_mission.
  rewrite (for_each_all_nil (_check_mission_pair self p) others); [reflexivity|].
  intros o Hin. apply check_mission_pair_no_point; [exact Hp|exact (Ho o Hin)|].
  intros A0 A1 B0 B1 HA _. apply nan_denominator, (Hn A0 A1 HA).
Qed.

Lemma nan_coordinate_hides_conflicts_witness :
  let L := rounded_libm in
  new_Waypoint nan 0 None (Some (at_time 10 0 0)) = Ok (wp nan 0 (at_time 10 0 0)) /\
  check_mission detector50 nan_primary [crossing_other] = Ok ("clear"%string, []).
Proof.
  intros L.
  split; [vm_compute; reflexivity|].
  apply (nan_coordinate_hides_conflicts (L := L) detector50 nan_primary [crossing_other]).
  - vm_compute; reflexivity.
  - intros o [<-|[]]. vm_compute; reflexivity.
  - intros A0 A1 [H|[]]. injection H as <- <-. left. vm_compute; reflexivity.
Defined.
